(** * Rewarder: the Flutterwave payment webhook (src/api/webhooks/flutterwave.js)

    A shallow embedding of the webhook handler and of the three helpers it
    calls (verifyFlutterwavePayment, generateAdCode, parseTransactionRef),
    followed by the properties of the handler.

    The handler is one linear function with early returns inside a single
    try/catch.  It talks to four things that live outside the file: the
    crypto module (HMAC), the payment provider (fetch), the clock and the
    random generator of the JavaScript runtime, and Firestore.  They are
    gathered in a record [Env]; what the handler does to the outside is
    recorded in a [World] (the Firestore documents, and the trace of the
    outbound calls and of the writes).  console.log and console.error are
    not modelled.

    - [JS]: JSON values, property access and its TypeErrors, the conversion
      of a value to a string, [split], [charAt], the product and floor of
      generateAdCode on doubles, and [toISOString];
    - [Platform]: the request, the response, the record written, the
      environment, the world, and computations that may throw;
    - [Flutterwave]: the source file;
    - [Spec]: the vocabulary of the specification (the four conditions of a
      write, the pattern of an ad code, the instant of a timestamp);
    - [Sample]: a concrete deployment on which the handler can be run.  *)

From Stdlib Require Import ZArith String Ascii List Lia Bool DecimalString DecimalZ.
From stdpp Require Import gmap strings.
Import ListNotations.

Set Warnings "-register-all".

Open Scope string_scope.
Open Scope list_scope.

(** ** JavaScript values and the fragment of the language the handler uses *)

Module JS.

(** Values that [JSON.parse] can produce, plus [undefined].  Numbers are the
    integral ones; the handler only copies and prints the numbers it is
    given.  An object is the list of its own properties. *)
Inductive JsValue : Type :=
| JUndefined
| JNull
| JBool (b : bool)
| JNum (n : Z)
| JStr (s : string)
| JArr (items : list JsValue)
| JObj (fields : list (string * JsValue)).

(** Exceptions: the two the engine raises in this handler, and rejections
    coming from a library (fetch, response.json, Firestore). *)
Inductive JsError : Type :=
| TypeError (message : string)
| RangeError (message : string)
| LibraryError (message : string).

Definition error_message (e : JsError) : string :=
  match e with
  | TypeError m | RangeError m | LibraryError m => m
  end.

(** The completion of an expression: a value, or a thrown exception. *)
Inductive Completion (A : Type) : Type :=
| Normal (a : A)
| Throw (e : JsError).
Arguments Normal {A} a.
Arguments Throw {A} e.

Definition cbind {A B} (c : Completion A) (k : A -> Completion B) : Completion B :=
  match c with
  | Normal a => k a
  | Throw e => Throw e
  end.

Fixpoint lookup_field (k : string) (fields : list (string * JsValue)) : JsValue :=
  match fields with
  | [] => JUndefined
  | (k', v) :: rest => if String.eqb k' k then v else lookup_field k rest
  end.

(** [v.k] for the property names the handler reads (event, data, status,
    id, amount, currency, tx_ref, flw_ref, payment_type, customer, email,
    name), none of which is inherited from a prototype: reading a property
    of undefined or null throws, an object gives its own property or
    undefined, anything else gives undefined. *)
Definition get (v : JsValue) (k : string) : Completion JsValue :=
  match v with
  | JUndefined =>
      Throw (TypeError ("Cannot read properties of undefined (reading '" +:+ k +:+ "')"))
  | JNull =>
      Throw (TypeError ("Cannot read properties of null (reading '" +:+ k +:+ "')"))
  | JObj fields => Normal (lookup_field k fields)
  | _ => Normal JUndefined
  end.

(** [v === s] for a string literal [s]. *)
Definition strict_eq_str (v : JsValue) (s : string) : bool :=
  match v with
  | JStr t => String.eqb t s
  | _ => false
  end.

(** [a === b] where [a] is a string and [b] a string or undefined. *)
Definition strict_eq_opt (a : string) (b : option string) : bool :=
  match b with
  | Some t => String.eqb a t
  | None => false
  end.

(** [s.split(c)] for a one-character separator. *)
Fixpoint split (sep : ascii) (s : string) : list string :=
  match s with
  | EmptyString => [""]
  | String c rest =>
      if Ascii.eqb c sep then "" :: split sep rest
      else match split sep rest with
           | seg :: segs => String c seg :: segs
           | [] => [String c ""]
           end
  end.

(** [s.charAt(i)]: the one-character string at index [i], or the empty
    string when [i] is out of range. *)
Definition charAt (s : string) (i : Z) : string :=
  if (i <? 0)%Z then ""
  else match String.get (Z.to_nat i) s with
       | Some c => String c ""
       | None => ""
       end.

(** [!v] for a value that is a string or null. *)
Definition falsy (v : option string) : bool :=
  match v with
  | None => true
  | Some s => String.eqb s ""
  end.

(** *** Doubles in the unit interval

    [Math.random()] returns a double in [0, 1).  Such a double is
    [mant * 2^-expo] with [0 <= mant < 2^53] and [53 <= expo <= 1074]. *)
Record UnitDouble : Type := { mant : Z; expo : Z }.

Definition is_unit_double (d : UnitDouble) : bool :=
  ((0 <=? mant d) && (mant d <? 2 ^ 53) && (53 <=? expo d) && (expo d <=? 1074))%Z.

(** The integer with at most 53 significant bits nearest to [n >= 0], ties
    to even: IEEE 754 round-to-nearest on the significand. *)
Definition round53 (n : Z) : Z :=
  let s := (Z.log2 n + 1 - 53)%Z in
  if (s <=? 0)%Z then n
  else
    let q := Z.shiftr n s in
    let r := (n mod 2 ^ s)%Z in
    let half := (2 ^ (s - 1))%Z in
    let q' := if (half <? r)%Z || ((r =? half)%Z && Z.odd q) then (q + 1)%Z else q in
    Z.shiftl q' s.

(** [Math.floor(d * k)] for a unit double [d] and a small positive integer
    [k]: the exact product [mant * k * 2^-expo] is rounded to a double, then
    floored. *)
Definition floor_mul (d : UnitDouble) (k : Z) : Z :=
  (round53 (mant d * k) / 2 ^ expo d)%Z.

(** *** Number::toString and ToString

    A number of the model is an integer that is a double.  Up to 2^53 every
    integer is one and its string is its decimal notation.  Above, the
    string is made of the shortest digit sequence [s] (of [k] digits) for
    which [s * 10^(n-k)] is read back as the same double, the closest one
    if there are several: the digits followed by zeros when [n <= 21], the
    exponent notation otherwise. *)
Definition decimal (n : Z) : string :=
  NilZero.string_of_int (Z.to_int n).

Definition reads_back (x n k s : Z) : bool :=
  ((10 ^ (k - 1) <=? s) && (s <? 10 ^ k) && (round53 (s * 10 ^ (n - k)) =? x))%Z.

(** The pairs [(n, s)] with [k] digits that are read back as [x], a
    number of [d] decimal digits. *)
Definition candidates (x d k : Z) : list (Z * Z) :=
  flat_map (fun n => let s := (x / 10 ^ (n - k))%Z in
                     filter (fun c => reads_back x n k (snd c)) [(n, s); (n, (s + 1)%Z)])
           [d; (d + 1)%Z].

Definition distance (x k : Z) (c : Z * Z) : Z :=
  Z.abs (snd c * 10 ^ (fst c - k) - x).

Definition closer (x k : Z) (a b : Z * Z) : Z * Z :=
  if (distance x k a <? distance x k b)%Z then a
  else if (distance x k b <? distance x k a)%Z then b
  else if Z.even (snd a) then a else b.

Definition closest (x k : Z) (l : list (Z * Z)) : option (Z * Z) :=
  match l with
  | [] => None
  | a :: rest => Some (fold_left (closer x k) rest a)
  end.

(** The least [k], from [k] on, for which there is a candidate: [(n, k, s)]. *)
Fixpoint shortest (fuel : nat) (x d k : Z) : option (Z * Z * Z) :=
  match fuel with
  | O => None
  | S fuel' =>
      match closest x k (candidates x d k) with
      | Some (n, s) => Some (n, k, s)
      | None => shortest fuel' x d (k + 1)
      end
  end.

Fixpoint zeros (n : nat) : string :=
  match n with
  | O => ""
  | S n' => String "0" (zeros n')
  end.

(** A double has a digit sequence of at most 17 digits. *)
Definition positive_to_string (x : Z) : string :=
  if (x <=? 2 ^ 53)%Z then decimal x
  else
    match shortest 17 x (Z.of_nat (String.length (decimal x))) 1 with
    | Some (n, k, s) =>
        if (n <=? 21)%Z then decimal s +:+ zeros (Z.to_nat (n - k))
        else
          match decimal s with
          | String c EmptyString => String c "e+" +:+ decimal (n - 1)
          | String c rest => String c ("." +:+ rest) +:+ "e+" +:+ decimal (n - 1)
          | EmptyString => EmptyString
          end
    | None => decimal x
    end.

Definition number_to_string (n : Z) : string :=
  if (n <? 0)%Z then "-" +:+ positive_to_string (- n) else positive_to_string n.

Fixpoint join (sep : string) (l : list string) : string :=
  match l with
  | [] => ""
  | [x] => x
  | x :: rest => x +:+ sep +:+ join sep rest
  end.

Definition has_own_property (k : string) (fields : list (string * JsValue)) : bool :=
  existsb (fun kv => String.eqb (fst kv) k) fields.

(** ToString, as applied by a template literal.  An array is joined with
    commas, undefined and null elements giving the empty string.  An object
    is converted by its [toString]: the one of Object.prototype gives
    "[object Object]"; an own property of that name, which in a JSON value
    is never a function, hides it, and the conversion throws. *)
Fixpoint to_string (v : JsValue) : Completion string :=
  match v with
  | JUndefined => Normal "undefined"
  | JNull => Normal "null"
  | JBool true => Normal "true"
  | JBool false => Normal "false"
  | JNum n => Normal (number_to_string n)
  | JStr s => Normal s
  | JArr items =>
      cbind
        ((fix each (l : list JsValue) : Completion (list string) :=
            match l with
            | [] => Normal []
            | x :: rest =>
                cbind (match x with
                       | JUndefined | JNull => Normal ""
                       | _ => to_string x
                       end)
                  (fun s => cbind (each rest) (fun ss => Normal (s :: ss)))
            end) items)
        (fun l => Normal (join "," l))
  | JObj fields =>
      if has_own_property "toString" fields
      then Throw (TypeError "Cannot convert object to primitive value")
      else Normal "[object Object]"
  end.

(** *** Date

    Time values are milliseconds since the epoch; a Date is valid when its
    time value is at most 8.64e15 in absolute value. *)
Definition max_time_value : Z := 8640000000000000.

Definition valid_time (t : Z) : bool :=
  ((- max_time_value <=? t) && (t <=? max_time_value))%Z.

Definition digit (n : Z) : ascii :=
  ascii_of_nat (48 + Z.to_nat (n mod 10)).

(** The [w] low decimal digits of [n >= 0], zero padded. *)
Fixpoint digits (w : nat) (n : Z) : string :=
  match w with
  | O => ""
  | S w' => digits w' (n / 10) +:+ String (digit n) ""
  end.

(** Year, month and day of a day number counted from 1970-01-01
    (proleptic Gregorian calendar). *)
Definition civil_from_days (days : Z) : Z * Z * Z :=
  let z := (days + 719468)%Z in
  let era := (z / 146097)%Z in
  let doe := (z - era * 146097)%Z in
  let yoe := ((doe - doe / 1460 + doe / 36524 - doe / 146096) / 365)%Z in
  let doy := (doe - (365 * yoe + yoe / 4 - yoe / 100))%Z in
  let mp := ((5 * doy + 2) / 153)%Z in
  let d := (doy - (153 * mp + 2) / 5 + 1)%Z in
  let m := if (mp <? 10)%Z then (mp + 3)%Z else (mp - 9)%Z in
  let y := (yoe + era * 400 + (if (m <=? 2)%Z then 1 else 0))%Z in
  (y, m, d).

Definition iso_year (y : Z) : string :=
  if ((0 <=? y) && (y <=? 9999))%Z then digits 4 y
  else if (y <? 0)%Z then "-" +:+ digits 6 (- y)
  else "+" +:+ digits 6 y.

(** [new Date(t).toISOString()]: YYYY-MM-DDTHH:mm:ss.sssZ, or a RangeError
    when the date is invalid. *)
Definition toISOString (t : Z) : Completion string :=
  if valid_time t then
    let '(y, m, d) := civil_from_days (t / 86400000) in
    let ms := (t mod 86400000)%Z in
    Normal (iso_year y +:+ "-" +:+ digits 2 m +:+ "-" +:+ digits 2 d +:+ "T"
            +:+ digits 2 (ms / 3600000) +:+ ":" +:+ digits 2 (ms / 60000 mod 60) +:+ ":"
            +:+ digits 2 (ms / 1000 mod 60) +:+ "." +:+ digits 3 (ms mod 1000) +:+ "Z")
  else Throw (RangeError "Invalid time value").

Arguments toISOString : simpl never.
Arguments number_to_string : simpl never.
Arguments to_string : simpl never.
Arguments round53 : simpl never.

End JS.

Import JS.

(** ** The platform: what the handler receives and what it acts upon *)

Module Platform.

(** The document written by the handler ([packageData] in the source). *)
Record FlutterwaveData : Type := {
  txRef : JsValue;
  flwRef : JsValue;
  paymentType : JsValue
}.

Record ImageAd : Type := {
  contentType : JsValue;
  dataUrl : JsValue;
  websiteUrl : JsValue;
  editsUsed : Z;
  totalEdits : Z;
  views : Z;
  clicks : Z;
  uploaded : bool
}.

Record Ads : Type := { image : ImageAd }.

Record AdPackage : Type := {
  packageId : string;
  packageName : string;
  packageType : string;
  status : string;
  createdAt : string;
  expiresAt : string;
  totalAmountPaid : JsValue;
  paymentId : JsValue;
  adCode : string;
  currency : JsValue;
  customerEmail : JsValue;
  customerName : JsValue;
  webhookProcessedAt : string;
  flutterwaveData : FlutterwaveData;
  adTypes : list string;
  placements : list string;
  duration : Z;
  ads : Ads;
  totalViews : Z;
  totalClicks : Z;
  viewsPerDay : JsValue
}.

(** The inbound request: [req.method], [req.headers['verif-hash']] (absent
    headers read as undefined) and [req.body]. *)
Record Request : Type := {
  method : string;
  verif_hash : option string;
  body : JsValue
}.

(** The response: [res.status(code).json(payload)]. *)
Record Response : Type := {
  res_status : Z;
  res_json : JsValue
}.

(** Everything the handler reads from outside the file.
    - the two secrets of [process.env] (undefined when unset);
    - [hmac_sha256_hex key data] is
      [crypto.createHmac('sha256', key).update(data).digest('hex')], which
      throws when the key or the data is undefined;
    - [JSON_stringify] gives undefined for a value that has no JSON text;
    - [fetch_json url authorization] is the provider's answer to the GET
      request, parsed by [response.json()], or the exception of a failed
      call or parse;
    - [clock k] is the time value of the k-th reading of the clock and
      [random k] the k-th result of [Math.random()];
    - [firestore_error path data] is the exception, if any, with which
      Firestore refuses to create the document. *)
Record Env : Type := {
  FLUTTERWAVE_WEBHOOK_HASH : option string;
  FLUTTERWAVE_SECRET_KEY : option string;
  hmac_sha256_hex : option string -> option string -> Completion string;
  JSON_stringify : JsValue -> option string;
  fetch_json : string -> string -> Completion JsValue;
  clock : nat -> Z;
  random : nat -> UnitDouble;
  firestore_error : string -> AdPackage -> option JsError
}.

(** What the handler does to the outside, most recent effect first. *)
Inductive Effect : Type :=
| Fetch (url authorization : string)
| DocSet (path : string) (data : AdPackage).

Record World : Type := {
  firestore : gmap string AdPackage;
  trace : list Effect;
  clock_reads : nat;
  random_draws : nat
}.

(** Computations: a completion and the world after it. *)
Definition M (A : Type) : Type := World -> Completion A * World.

Definition ret {A} (a : A) : M A := fun w => (Normal a, w).

Definition throw {A} (e : JsError) : M A := fun w => (Throw e, w).

Definition bind {A B} (m : M A) (k : A -> M B) : M B :=
  fun w => match m w with
           | (Normal a, w') => k a w'
           | (Throw e, w') => (Throw e, w')
           end.

Definition lift {A} (c : Completion A) : M A := fun w => (c, w).

(** try { body } catch (error) { handler } *)
Definition try_catch {A} (body : M A) (handler : JsError -> M A) : M A :=
  fun w => match body w with
           | (Normal a, w') => (Normal a, w')
           | (Throw e, w') => handler e w'
           end.

(** [new Date()] and [Date.now()] read the clock. *)
Definition Date_now (env : Env) : M Z :=
  fun w => (Normal (clock env (clock_reads w)),
            {| firestore := firestore w; trace := trace w;
               clock_reads := S (clock_reads w); random_draws := random_draws w |}).

Definition Math_random (env : Env) : M UnitDouble :=
  fun w => (Normal (random env (random_draws w)),
            {| firestore := firestore w; trace := trace w;
               clock_reads := clock_reads w; random_draws := S (random_draws w) |}).

(** [await fetch(url, { method: 'GET', headers })] followed by
    [await response.json()]. *)
Definition fetch (env : Env) (url authorization : string) : M JsValue :=
  fun w => (fetch_json env url authorization,
            {| firestore := firestore w; trace := Fetch url authorization :: trace w;
               clock_reads := clock_reads w; random_draws := random_draws w |}).

(** [await db.collection(..).doc(..).collection(..).doc(..).set(data)]:
    creates or replaces the document at [path], unless Firestore refuses. *)
Definition doc_set (env : Env) (path : string) (data : AdPackage) : M unit :=
  fun w => match firestore_error env path data with
           | Some e => (Throw e, w)
           | None =>
               (Normal tt,
                {| firestore := <[path := data]> (firestore w);
                   trace := DocSet path data :: trace w;
                   clock_reads := clock_reads w; random_draws := random_draws w |})
           end.

End Platform.

Import Platform.

Notation "'let*' x ':=' c1 'in' c2" := (bind c1 (fun x => c2))
  (at level 10, x name, c1 at level 100, c2 at level 200).

(** ** src/api/webhooks/flutterwave.js *)

Module Flutterwave.

Definition env_to_string (v : option string) : string :=
  match v with
  | Some s => s
  | None => "undefined"
  end.

(** verifyFlutterwavePayment: the url is built inside the try block, so
    the failure of the template literal, like the failure of the call, is
    logged and thrown again. *)
Definition verifyFlutterwavePayment (env : Env) (transactionId : JsValue) : M JsValue :=
  try_catch
    (let* id := lift (to_string transactionId) in
     let* data :=
       fetch env
         ("https://api.flutterwave.com/v3/transactions/" +:+ id +:+ "/verify")
         ("Bearer " +:+ env_to_string (FLUTTERWAVE_SECRET_KEY env)) in
     ret data)
    (fun error => throw error).

Definition chars : string := "ABCDEFGHIJKLMNOPQRSTUVWXYZ0123456789".

(** The loop of generateAdCode, [for (let i = 0; i < 11; i++)], with
    [n = 11 - i] iterations left. *)
Fixpoint generateAdCode_loop (env : Env) (n : nat) (result : string) : M string :=
  match n with
  | O => ret result
  | S n' =>
      let* r := Math_random env in
      generateAdCode_loop env n'
        (result +:+ charAt chars (floor_mul r (Z.of_nat (String.length chars))))
  end.

Definition generateAdCode (env : Env) : M string :=
  generateAdCode_loop env 11 "AD".

(** parseTransactionRef: the event id (a string) or null.  [txRef.split]
    exists only when [txRef] is a string. *)
Definition parseTransactionRef (txRef : JsValue) : Completion (option string) :=
  match txRef with
  | JStr s =>
      let parts := split "_" s in
      if (3 <=? length parts)%nat && String.eqb (nth 0 parts "") "boost"
      then Normal (Some (nth 1 parts ""))
      else Normal None
  | JUndefined => Throw (TypeError "Cannot read properties of undefined (reading 'split')")
  | JNull => Throw (TypeError "Cannot read properties of null (reading 'split')")
  | _ => Throw (TypeError "txRef.split is not a function")
  end.

(** [v.a.b] *)
Definition get2 (v : JsValue) (a b : string) : Completion JsValue :=
  cbind (get v a) (fun x => get x b).

(** [v.a.b.c] *)
Definition get3 (v : JsValue) (a b c : string) : Completion JsValue :=
  cbind (get2 v a b) (fun x => get x c).

(** [const { event, data } = req.body] *)
Definition destructure_event_data (b : JsValue) : Completion (JsValue * JsValue) :=
  match b with
  | JUndefined =>
      Throw (TypeError "Cannot destructure property 'event' of 'req.body' as it is undefined.")
  | JNull =>
      Throw (TypeError "Cannot destructure property 'event' of 'req.body' as it is null.")
  | _ => cbind (get b "event") (fun event =>
         cbind (get b "data") (fun data => Normal (event, data)))
  end.

Definition json_response (code : Z) (payload : JsValue) : Response :=
  {| res_status := code; res_json := payload |}.

(** The object literal [packageData], given the ad code, the time value of
    [now] and the reading of [Date.now()].  Its properties are evaluated in
    the order of the source. *)
Definition packageData (adCode : string) (now packageTime : Z) (verification : JsValue)
  : Completion AdPackage :=
  cbind (toISOString now) (fun createdAt =>
  cbind (toISOString (now + 7 * 24 * 60 * 60 * 1000)) (fun expiresAt =>
  cbind (get2 verification "data" "amount") (fun totalAmountPaid =>
  cbind (get2 verification "data" "id") (fun paymentId =>
  cbind (get2 verification "data" "currency") (fun currency =>
  cbind (get3 verification "data" "customer" "email") (fun customerEmail =>
  cbind (get3 verification "data" "customer" "name") (fun customerName =>
  cbind (toISOString now) (fun webhookProcessedAt =>
  cbind (get2 verification "data" "tx_ref") (fun txRef =>
  cbind (get2 verification "data" "flw_ref") (fun flwRef =>
  cbind (get2 verification "data" "payment_type") (fun paymentType =>
  Normal
    {| packageId := "ads_pkg_" +:+ number_to_string packageTime;
       packageName := "Webhook Package";
       packageType := "webhook";
       status := "pending_upload";
       createdAt := createdAt;
       expiresAt := expiresAt;
       totalAmountPaid := totalAmountPaid;
       paymentId := paymentId;
       adCode := adCode;
       currency := currency;
       customerEmail := customerEmail;
       customerName := customerName;
       webhookProcessedAt := webhookProcessedAt;
       flutterwaveData := {| txRef := txRef; flwRef := flwRef; paymentType := paymentType |};
       adTypes := ["image"];
       placements := ["app_ads_footer"];
       duration := 7;
       ads := {| image := {| contentType := JNull; dataUrl := JNull; websiteUrl := JNull;
                             editsUsed := 0; totalEdits := 1; views := 0; clicks := 0;
                             uploaded := false |} |};
       totalViews := 0;
       totalClicks := 0;
       viewsPerDay := JObj [] |}))))))))))).

Definition success_response (eventId : string) (data : AdPackage) (amount : JsValue) : Response :=
  json_response 200
    (JObj [("success", JBool true);
           ("message", JStr "Payment processed successfully");
           ("data", JObj [("eventId", JStr eventId);
                          ("packageId", JStr (packageId data));
                          ("adCode", JStr (adCode data));
                          ("amount", amount)])]).

(** The statements of the handler after the event id has been extracted:
    generate the code, build the record, save it, answer. *)
Definition create_package (env : Env) (verification : JsValue) (eventId : string) : M Response :=
  let* adCode := generateAdCode env in
  let* now := Date_now env in
  let* packageTime := Date_now env in
  let* data := lift (packageData adCode now packageTime verification) in
  let* _ := doc_set env
              ("physicalEvents/" +:+ eventId +:+ "/adsPackages/" +:+ packageId data) data in
  let* amount := lift (get2 verification "data" "amount") in
  ret (success_response eventId data amount).

(** The body of the try block. *)
Definition process (env : Env) (req : Request) : M Response :=
  let* hash := lift (hmac_sha256_hex env (FLUTTERWAVE_WEBHOOK_HASH env)
                       (JSON_stringify env (body req))) in
  let signature := verif_hash req in
  if negb (strict_eq_opt hash signature) then
    ret (json_response 401 (JObj [("error", JStr "Invalid signature")]))
  else
    let* event_data := lift (destructure_event_data (body req)) in
    let event := fst event_data in
    let data := snd event_data in
    let* ignored :=
      lift (if negb (strict_eq_str event "charge.completed") then Normal true
            else cbind (get data "status")
                   (fun s => Normal (negb (strict_eq_str s "successful")))) in
    if ignored then
      ret (json_response 200 (JObj [("message", JStr "Event ignored")]))
    else
      let* id := lift (get data "id") in
      let* verification := verifyFlutterwavePayment env id in
      let* failed :=
        lift (cbind (get verification "status") (fun s =>
              if negb (strict_eq_str s "success") then Normal true
              else cbind (get2 verification "data" "status")
                     (fun t => Normal (negb (strict_eq_str t "successful"))))) in
      if failed then
        ret (json_response 400 (JObj [("error", JStr "Payment verification failed")]))
      else
        let* tx_ref := lift (get data "tx_ref") in
        let* eventId := lift (parseTransactionRef tx_ref) in
        if falsy eventId then
          ret (json_response 400 (JObj [("error", JStr "Invalid transaction reference")]))
        else
          create_package env verification (default "" eventId).

(** The exported handler. *)
Definition handler (env : Env) (req : Request) : M Response :=
  if negb (String.eqb (method req) "POST") then
    ret (json_response 405 (JObj [("error", JStr "Method not allowed")]))
  else
    try_catch (process env req)
      (fun error =>
         ret (json_response 500
                (JObj [("error", JStr "Internal server error");
                       ("message", JStr (error_message error))]))).

End Flutterwave.

Import Flutterwave.

(** ** The vocabulary of the specification *)

Module Spec.

(** The value of [v.k] is the string [s]. *)
Definition field_is (v : JsValue) (k s : string) : bool :=
  match get v k with
  | Normal x => strict_eq_str x s
  | Throw _ => false
  end.

(** The value of [v.a.k] is the string [s]. *)
Definition field2_is (v : JsValue) (a k s : string) : bool :=
  match get2 v a k with
  | Normal x => strict_eq_str x s
  | Throw _ => false
  end.

(** (a) The HMAC of the serialized body under the shared secret is the
    value of the signature header. *)
Definition signature_verified (env : Env) (req : Request) : bool :=
  match hmac_sha256_hex env (FLUTTERWAVE_WEBHOOK_HASH env) (JSON_stringify env (body req)) with
  | Normal hash => strict_eq_opt hash (verif_hash req)
  | Throw _ => false
  end.

(** (b) The event type and the nested status indicate success. *)
Definition event_succeeded (b : JsValue) : bool :=
  field_is b "event" "charge.completed" && field2_is b "data" "status" "successful".

(** The url of the verification request for a transaction id, when the
    id has a string form. *)
Definition verify_url (transactionId : JsValue) : Completion string :=
  cbind (to_string transactionId)
    (fun id => Normal ("https://api.flutterwave.com/v3/transactions/" +:+ id +:+ "/verify")).

Definition verify_authorization (env : Env) : string :=
  "Bearer " +:+ env_to_string (FLUTTERWAVE_SECRET_KEY env).

(** The url of the verification request for the transaction named by the
    inbound event, and the provider's response to it. *)
Definition verification_request (b : JsValue) : Completion string :=
  cbind (get2 b "data" "id") verify_url.

Definition has_verification_request (b : JsValue) : bool :=
  match verification_request b with
  | Normal _ => true
  | Throw _ => false
  end.

Definition provider_reply (env : Env) (req : Request) : Completion JsValue :=
  cbind (verification_request (body req))
    (fun url => fetch_json env url (verify_authorization env)).

Definition verification_succeeded (v : JsValue) : bool :=
  field_is v "status" "success" && field2_is v "data" "status" "successful".

(** (c) The provider-side re-verification indicates success. *)
Definition reverified (env : Env) (req : Request) : bool :=
  match provider_reply env req with
  | Normal v => verification_succeeded v
  | Throw _ => false
  end.

(** The identifier recovered from the transaction reference of the inbound
    event, if any. *)
Definition recovered_identifier (b : JsValue) : option string :=
  match cbind (get2 b "data" "tx_ref") parseTransactionRef with
  | Normal (Some id) => if String.eqb id "" then None else Some id
  | _ => None
  end.

(** (d) A non-empty identifier was recovered. *)
Definition identifier_recovered (b : JsValue) : bool :=
  match recovered_identifier b with
  | Some _ => true
  | None => false
  end.

Definition all_four (env : Env) (req : Request) : bool :=
  signature_verified env req && event_succeeded (body req)
  && reverified env req && identifier_recovered (body req).

(** The documents written and the verification calls made so far. *)
Definition writes (w : World) : list (string * AdPackage) :=
  flat_map (fun e => match e with DocSet p d => [(p, d)] | Fetch _ _ => [] end) (trace w).

Definition verification_calls (w : World) : list (string * string) :=
  flat_map (fun e => match e with Fetch u a => [(u, a)] | DocSet _ _ => [] end) (trace w).

(** The shape boost_<id>_<rest> of a transaction reference: at least three
    segments, the first of which is the tag. *)
Definition has_boost_shape (s : string) : bool :=
  (3 <=? length (split "_" s))%nat && String.eqb (nth 0 (split "_" s) "") "boost".

Fixpoint contains (c : ascii) (s : string) : bool :=
  match s with
  | EmptyString => false
  | String c' rest => Ascii.eqb c' c || contains c rest
  end.

(** The pattern of an ad code: AD followed by 11 characters of [A-Z0-9]. *)
Definition is_code_char (c : ascii) : bool :=
  let n := nat_of_ascii c in
  ((65 <=? n) && (n <=? 90) || (48 <=? n) && (n <=? 57))%nat.

Fixpoint all_code_chars (s : string) : bool :=
  match s with
  | EmptyString => true
  | String c rest => is_code_char c && all_code_chars rest
  end.

Definition matches_ad_code (s : string) : bool :=
  match s with
  | String "A" (String "D" rest) => (String.length rest =? 11)%nat && all_code_chars rest
  | _ => false
  end.

(** The record without what is generated afresh at each call: the code,
    the package id and the timestamps. *)
Definition erase_generated (d : AdPackage) : AdPackage :=
  {| packageId := ""; packageName := packageName d; packageType := packageType d;
     status := status d; createdAt := ""; expiresAt := "";
     totalAmountPaid := totalAmountPaid d; paymentId := paymentId d; adCode := "";
     currency := currency d; customerEmail := customerEmail d;
     customerName := customerName d; webhookProcessedAt := "";
     flutterwaveData := flutterwaveData d; adTypes := adTypes d;
     placements := placements d; duration := duration d; ads := ads d;
     totalViews := totalViews d; totalClicks := totalClicks d;
     viewsPerDay := viewsPerDay d |}.

(** The worlds reached along a run: after [n] draws of the random
    generator, and after the verification call at [url]. *)
Definition drawn (w : World) (n : nat) : World :=
  {| firestore := firestore w; trace := trace w;
     clock_reads := clock_reads w; random_draws := n + random_draws w |}.

Definition fetched (env : Env) (url : string) (w : World) : World :=
  {| firestore := firestore w;
     trace := Fetch url (verify_authorization env) :: trace w;
     clock_reads := clock_reads w; random_draws := random_draws w |}.

(** The path of the document written for an event id. *)
Definition doc_path (eventId : string) (d : AdPackage) : string :=
  "physicalEvents/" +:+ eventId +:+ "/adsPackages/" +:+ packageId d.

(** The character chosen by one draw, and the characters chosen by the [n]
    draws that follow the first [start] ones. *)
Definition pick (d : UnitDouble) : string :=
  charAt chars (floor_mul d (Z.of_nat (String.length chars))).

Fixpoint picks (env : Env) (start n : nat) : string :=
  match n with
  | O => ""
  | S n' => pick (random env start) +:+ picks env (S start) n'
  end.

(** Two inbound bodies that differ only in the amount, the currency and
    the customer of their [data]. *)
Definition payment_field (k : string) : bool :=
  String.eqb k "amount" || String.eqb k "currency" || String.eqb k "customer".

Definition differ_only_in_payment_fields (b1 b2 : JsValue) : Prop :=
  (forall k, k <> "data" -> get b1 k = get b2 k)
  /\ exists d1 d2,
       get b1 "data" = Normal d1 /\ get b2 "data" = Normal d2
       /\ forall k, payment_field k = false -> get d1 k = get d2 k.

(** *** The instant a timestamp denotes

    A reader for the format of toISOString, YYYY-MM-DDTHH:mm:ss.sssZ with
    a signed six-digit year outside 0000..9999, to say which instant the
    [createdAt] and [expiresAt] of a record stand for. *)
Definition digit_value (c : ascii) : option Z :=
  let n := nat_of_ascii c in
  if ((48 <=? n) && (n <=? 57))%nat then Some (Z.of_nat (n - 48)) else None.

(** Reads [w] decimal digits after the number [acc]. *)
Fixpoint take_digits (w : nat) (acc : Z) (s : string) : option (Z * string) :=
  match w, s with
  | O, _ => Some (acc, s)
  | S w', String c rest =>
      match digit_value c with
      | Some d => take_digits w' (10 * acc + d) rest
      | None => None
      end
  | S _, EmptyString => None
  end.

Definition expect (c : ascii) (s : string) : option string :=
  match s with
  | String c' rest => if Ascii.eqb c' c then Some rest else None
  | EmptyString => None
  end.

(** Day number, counted from 1970-01-01, of a date of the proleptic
    Gregorian calendar. *)
Definition days_from_civil (y m d : Z) : Z :=
  let y' := (if (m <=? 2) then y - 1 else y)%Z in
  let era := (y' / 400)%Z in
  let yoe := (y' - era * 400)%Z in
  let mp := (if (2 <? m) then m - 3 else m + 9)%Z in
  let doy := ((153 * mp + 2) / 5 + d - 1)%Z in
  let doe := (yoe * 365 + yoe / 4 - yoe / 100 + doy)%Z in
  (era * 146097 + doe - 719468)%Z.

(** The year: four digits, or a sign and six digits. *)
Definition take_year (s : string) : option (Z * string) :=
  match s with
  | String c rest =>
      if Ascii.eqb c "+" then take_digits 6 0 rest
      else if Ascii.eqb c "-" then
        match take_digits 6 0 rest with
        | Some (y, rest') => Some ((- y)%Z, rest')
        | None => None
        end
      else take_digits 4 0 s
  | EmptyString => None
  end.

Definition instant_of_iso (s : string) : option Z :=
  '(y, s) ← take_year s;
  s ← expect "-" s;
  '(m, s) ← take_digits 2 0 s;
  s ← expect "-" s;
  '(d, s) ← take_digits 2 0 s;
  s ← expect "T" s;
  '(h, s) ← take_digits 2 0 s;
  s ← expect ":" s;
  '(mi, s) ← take_digits 2 0 s;
  s ← expect ":" s;
  '(sec, s) ← take_digits 2 0 s;
  s ← expect "." s;
  '(ms, s) ← take_digits 3 0 s;
  s ← expect "Z" s;
  match s with
  | EmptyString =>
      Some (days_from_civil y m d * 86400000 + h * 3600000 + mi * 60000 + sec * 1000 + ms)%Z
  | _ => None
  end.

End Spec.

Import Spec.

(** ** A sample deployment, for concrete runs *)

Module Sample.

Definition quote : string := String (ascii_of_nat 34) "".

(** JSON text of a value, without escape sequences (the sample strings
    need none). *)
Fixpoint json_text (v : JsValue) : string :=
  match v with
  | JUndefined | JNull => "null"
  | JBool true => "true"
  | JBool false => "false"
  | JNum n => number_to_string n
  | JStr s => quote +:+ s +:+ quote
  | JArr items => "[" +:+ join "," (map json_text items) +:+ "]"
  | JObj fields =>
      "{" +:+ join "," (map (fun kv => quote +:+ fst kv +:+ quote +:+ ":" +:+ json_text (snd kv))
                          fields) +:+ "}"
  end.

Definition stringify (v : JsValue) : option string :=
  match v with
  | JUndefined => None
  | _ => Some (json_text v)
  end.

(** A keyed tag standing in for HMAC-SHA256. *)
Definition keyed_tag (key data : option string) : Completion string :=
  match key, data with
  | Some k, Some d => Normal ("tag[" +:+ k +:+ "](" +:+ d +:+ ")")
  | None, _ => Throw (TypeError "The key argument must be of type string. Received undefined")
  | _, None => Throw (TypeError "The data argument must be of type string. Received undefined")
  end.

(** The provider knows one transaction, 42, paid 5000 NGN. *)
Definition confirmed : JsValue :=
  JObj [("status", JStr "success");
        ("message", JStr "Transaction fetched successfully");
        ("data", JObj [("id", JNum 42); ("tx_ref", JStr "boost_evt123_1699999999");
                       ("flw_ref", JStr "FLW-MOCK-7f2c"); ("amount", JNum 5000);
                       ("currency", JStr "NGN"); ("status", JStr "successful");
                       ("payment_type", JStr "card");
                       ("customer", JObj [("id", JNum 7); ("name", JStr "Ada Obi");
                                          ("email", JStr "ada@example.com")])])].

Definition unknown_transaction : JsValue :=
  JObj [("status", JStr "error");
        ("message", JStr "No transaction was found for this id");
        ("data", JNull)].

Definition provider (url authorization : string) : Completion JsValue :=
  if String.eqb url "https://api.flutterwave.com/v3/transactions/42/verify"
  then Normal confirmed
  else Normal unknown_transaction.

Definition draws : list UnitDouble :=
  map (fun m => {| mant := m; expo := 53 |})
    [0; 9007199254740991; 4503599627370496; 250199979298361; 250199979298360;
     6505199461757369; 8756999275442633; 1234567890123456; 7777777777777777;
     3141592653589793; 2718281828459045]%Z.

Definition env : Env :=
  {| FLUTTERWAVE_WEBHOOK_HASH := Some "whsec_demo";
     FLUTTERWAVE_SECRET_KEY := Some "FLWSECK_TEST-demo";
     hmac_sha256_hex := keyed_tag;
     JSON_stringify := stringify;
     fetch_json := provider;
     clock := fun k => (1699999999000 + 3 * Z.of_nat k)%Z;
     random := fun k => nth (k mod 11) draws {| mant := 0; expo := 53 |};
     firestore_error := fun _ _ => None |}.

Definition empty_world : World :=
  {| firestore := ∅; trace := []; clock_reads := 0; random_draws := 0 |}.

(** The [data] of an inbound event: what the sender says was paid, by
    whom, for which transaction. *)
Definition event_data (status : string) (id amount : Z) (currency tx_ref name email : string)
  : JsValue :=
  JObj [("id", JNum id); ("tx_ref", JStr tx_ref); ("amount", JNum amount);
        ("currency", JStr currency); ("status", JStr status);
        ("customer", JObj [("name", JStr name); ("email", JStr email)])].

Definition inbound (event : string) (data : JsValue) : JsValue :=
  JObj [("event", JStr event); ("data", data)].

Definition paid_data : JsValue :=
  event_data "successful" 42 5000 "NGN" "boost_evt123_1699999999" "Ada Obi" "ada@example.com".

(** The same transaction, claiming another amount, currency and customer. *)
Definition inflated_data : JsValue :=
  event_data "successful" 42 999999 "USD" "boost_evt123_1699999999" "Mallory" "m@example.org".

(** A POST request carrying the right tag for its body. *)
Definition signed (b : JsValue) : Request :=
  {| method := "POST";
     verif_hash := match keyed_tag (Some "whsec_demo") (stringify b) with
                   | Normal h => Some h
                   | Throw _ => None
                   end;
     body := b |}.

Definition charge : Request := signed (inbound "charge.completed" paid_data).

Definition inflated_charge : Request := signed (inbound "charge.completed" inflated_data).

Definition forged : Request :=
  {| method := "POST"; verif_hash := Some "deadbeef";
     body := inbound "charge.completed" paid_data |}.



Definition misreferenced_charge : Request :=
  signed (inbound "charge.completed"
            (event_data "successful" 42 5000 "NGN" "evt123_1699999999"
               "Ada Obi" "ada@example.com")).

Definition unnamed_charge : Request :=
  signed (inbound "charge.completed"
            (event_data "successful" 42 5000 "NGN" "boost__1699999999"
               "Ada Obi" "ada@example.com")).

(** A later moment: the clock has been read 40 times and three random
    numbers drawn. *)
Definition later_world : World :=
  {| firestore := ∅; trace := []; clock_reads := 40; random_draws := 3 |}.

(** The document expected for the transaction 42, given what is generated
    afresh. *)
Definition package_with (packageId createdAt expiresAt adCode : string) : AdPackage :=
  {| packageId := packageId;
     packageName := "Webhook Package";
     packageType := "webhook";
     status := "pending_upload";
     createdAt := createdAt;
     expiresAt := expiresAt;
     totalAmountPaid := JNum 5000;
     paymentId := JNum 42;
     adCode := adCode;
     currency := JStr "NGN";
     customerEmail := JStr "ada@example.com";
     customerName := JStr "Ada Obi";
     webhookProcessedAt := createdAt;
     flutterwaveData := {| txRef := JStr "boost_evt123_1699999999";
                           flwRef := JStr "FLW-MOCK-7f2c";
                           paymentType := JStr "card" |};
     adTypes := ["image"];
     placements := ["app_ads_footer"];
     duration := 7;
     ads := {| image := {| contentType := JNull; dataUrl := JNull; websiteUrl := JNull;
                           editsUsed := 0; totalEdits := 1; views := 0; clicks := 0;
                           uploaded := false |} |};
     totalViews := 0;
     totalClicks := 0;
     viewsPerDay := JObj [] |}.

Definition expected_path : string :=
  "physicalEvents/evt123/adsPackages/ads_pkg_1699999999003".

Definition expected_package : AdPackage :=
  package_with "ads_pkg_1699999999003" "2023-11-14T22:13:19.000Z"
    "2023-11-21T22:13:19.000Z" "ADA9SBAZ9E5MK".

Definition later_path : string :=
  "physicalEvents/evt123/adsPackages/ads_pkg_1699999999123".

Definition later_package : AdPackage :=
  package_with "ads_pkg_1699999999123" "2023-11-14T22:13:19.120Z"
    "2023-11-21T22:13:19.120Z" "ADBAZ9E5MKA9S".

End Sample.

(** ** The start of the module: Firebase Admin is initialized once *)

Module Startup.

(** The three variables of [process.env] read when the module is loaded. *)
Record ProcessEnv : Type := {
  FIREBASE_PROJECT_ID : option string;
  FIREBASE_PRIVATE_KEY : option string;
  FIREBASE_CLIENT_EMAIL : option string
}.

Record ServiceAccount : Type := {
  type : string;
  project_id : option string;
  private_key : option string;
  client_email : option string
}.

(** The argument of [admin.initializeApp]; [credential] is the service
    account handed to [admin.credential.cert]. *)
Record AppOptions : Type := {
  credential : ServiceAccount;
  projectId : option string
}.

Definition backslash : ascii := ascii_of_nat 92.
Definition newline : ascii := ascii_of_nat 10.

(** [s.replace(/\\n/g, '\n')]: every backslash followed by n, from left to
    right, becomes a line feed. *)
Fixpoint replace_escaped_newlines (s : string) : string :=
  match s with
  | EmptyString => EmptyString
  | String c rest =>
      match rest with
      | String c' rest' =>
          if Ascii.eqb c backslash && Ascii.eqb c' "n"
          then String newline (replace_escaped_newlines rest')
          else String c (replace_escaped_newlines rest)
      | EmptyString => String c EmptyString
      end
  end.

(** [process.env.FIREBASE_PRIVATE_KEY?.replace(/\\n/g, '\n')] *)
Definition read_private_key (key : option string) : option string :=
  match key with
  | Some s => Some (replace_escaped_newlines s)
  | None => None
  end.

(** The guarded block: [admin.apps] before and after.  [refused] is the
    exception, if any, with which [admin.credential.cert] or
    [admin.initializeApp] rejects the options. *)
Definition initialize (refused : AppOptions -> option JsError) (penv : ProcessEnv)
  (apps : list AppOptions) : Completion (list AppOptions) :=
  if negb (length apps =? 0)%nat then Normal apps
  else
    let serviceAccount :=
      {| type := "service_account";
         project_id := FIREBASE_PROJECT_ID penv;
         private_key := read_private_key (FIREBASE_PRIVATE_KEY penv);
         client_email := FIREBASE_CLIENT_EMAIL penv |} in
    let options :=
      {| credential := serviceAccount; projectId := FIREBASE_PROJECT_ID penv |} in
    match refused options with
    | Some e => Throw e
    | None => Normal (apps ++ [options])
    end.

(** How a key with line feeds is written on one line in the environment. *)
Fixpoint escape_newlines (s : string) : string :=
  match s with
  | EmptyString => EmptyString
  | String c rest =>
      if Ascii.eqb c newline then String backslash (String "n" (escape_newlines rest))
      else String c (escape_newlines rest)
  end.

Definition sample_key : string :=
  String "-" (String "-" (String "B" (String newline (String "M" (String "I"
    (String "I" (String newline (String "-" (String "-" EmptyString))))))))).

Definition sample_env : ProcessEnv :=
  {| FIREBASE_PROJECT_ID := Some "rewarder-demo";
     FIREBASE_PRIVATE_KEY := Some (escape_newlines sample_key);
     FIREBASE_CLIENT_EMAIL := Some "firebase-adminsdk@rewarder-demo.iam.gserviceaccount.com" |}.

Definition sample_app : AppOptions :=
  {| credential := {| type := "service_account";
                      project_id := Some "rewarder-demo";
                      private_key := Some sample_key;
                      client_email :=
                        Some "firebase-adminsdk@rewarder-demo.iam.gserviceaccount.com" |};
     projectId := Some "rewarder-demo" |}.

End Startup.

Import Startup.

(** ** The outcomes of a run *)

Module Outcomes.

(** The responses of the handler other than the success response. *)
Definition unauthorized : Response :=
  json_response 401 (JObj [("error", JStr "Invalid signature")]).
Definition ignored : Response :=
  json_response 200 (JObj [("message", JStr "Event ignored")]).
Definition verification_failed : Response :=
  json_response 400 (JObj [("error", JStr "Payment verification failed")]).
Definition invalid_reference : Response :=
  json_response 400 (JObj [("error", JStr "Invalid transaction reference")]).
Definition method_not_allowed : Response :=
  json_response 405 (JObj [("error", JStr "Method not allowed")]).
Definition internal_error (e : JsError) : Response :=
  json_response 500 (JObj [("error", JStr "Internal server error");
                           ("message", JStr (error_message e))]).

(** The world after the record has been saved, starting from [w]: two
    readings of the clock, eleven draws, one document. *)
Definition created (w : World) (path : string) (d : AdPackage) : World :=
  {| firestore := <[path := d]> (firestore w);
     trace := DocSet path d :: trace w;
     clock_reads := S (S (clock_reads w));
     random_draws := 11 + random_draws w |}.

(** The request the run makes to Firestore once the four conditions
    hold: the path and the document, built from the provider's response,
    the code generated and the two readings of the clock.  None when the
    record cannot be built. *)
Definition submitted (env : Env) (req : Request) (w : World) : option (string * AdPackage) :=
  match recovered_identifier (body req), provider_reply env req, fst (generateAdCode env w) with
  | Some eventId, Normal v, Normal code =>
      match packageData code (clock env (clock_reads w)) (clock env (S (clock_reads w))) v with
      | Normal d => Some (doc_path eventId d, d)
      | Throw _ => None
      end
  | _, _, _ => None
  end.

(** The response says that the payment was processed. *)
Definition announces_success (r : Response) : bool :=
  match get (res_json r) "success" with
  | Normal (JBool true) => true
  | _ => false
  end.

(** A double of the cell of the unit interval that selects the index [j]. *)
Definition double_for (j : Z) : UnitDouble :=
  {| mant := j * 2 ^ 53 / 36 + 1; expo := 53 |}.

(** The index of a character in the alphabet (0 for a foreign one). *)
Definition index_of (c : ascii) : Z :=
  match String.index 0 (String c "") chars with
  | Some n => Z.of_nat n
  | None => 0
  end.

(** Draws that make generateAdCode spell [s], starting at the draw
    [start]; before and after, the draw is 0. *)
Definition draws_for (start : nat) (s : string) (k : nat) : UnitDouble :=
  match String.get (k - start) s with
  | Some c => if (start <=? k)%nat then double_for (index_of c) else double_for 0
  | None => double_for 0
  end.

Definition with_random (env : Env) (r : nat -> UnitDouble) : Env :=
  {| FLUTTERWAVE_WEBHOOK_HASH := FLUTTERWAVE_WEBHOOK_HASH env;
     FLUTTERWAVE_SECRET_KEY := FLUTTERWAVE_SECRET_KEY env;
     hmac_sha256_hex := hmac_sha256_hex env;
     JSON_stringify := JSON_stringify env;
     fetch_json := fetch_json env;
     clock := clock env;
     random := r;
     firestore_error := firestore_error env |}.

End Outcomes.

Import Outcomes.

(** ** More requests and surroundings for concrete runs *)

Module Scenarios.

(** The sample charge sent with GET. *)
Definition get_request : Request :=
  {| method := "GET"; verif_hash := verif_hash Sample.charge; body := body Sample.charge |}.

(** The sample deployment when the provider cannot be reached, when the
    webhook secret is not set, and when Firestore is unavailable. *)
Definition unreachable_provider : Env :=
  {| FLUTTERWAVE_WEBHOOK_HASH := FLUTTERWAVE_WEBHOOK_HASH Sample.env;
     FLUTTERWAVE_SECRET_KEY := FLUTTERWAVE_SECRET_KEY Sample.env;
     hmac_sha256_hex := hmac_sha256_hex Sample.env;
     JSON_stringify := JSON_stringify Sample.env;
     fetch_json := fun _ _ => Throw (LibraryError "fetch failed");
     clock := clock Sample.env;
     random := random Sample.env;
     firestore_error := firestore_error Sample.env |}.

Definition unset_secret : Env :=
  {| FLUTTERWAVE_WEBHOOK_HASH := None;
     FLUTTERWAVE_SECRET_KEY := FLUTTERWAVE_SECRET_KEY Sample.env;
     hmac_sha256_hex := hmac_sha256_hex Sample.env;
     JSON_stringify := JSON_stringify Sample.env;
     fetch_json := fetch_json Sample.env;
     clock := clock Sample.env;
     random := random Sample.env;
     firestore_error := firestore_error Sample.env |}.

Definition firestore_down : Env :=
  {| FLUTTERWAVE_WEBHOOK_HASH := FLUTTERWAVE_WEBHOOK_HASH Sample.env;
     FLUTTERWAVE_SECRET_KEY := FLUTTERWAVE_SECRET_KEY Sample.env;
     hmac_sha256_hex := hmac_sha256_hex Sample.env;
     JSON_stringify := JSON_stringify Sample.env;
     fetch_json := fetch_json Sample.env;
     clock := clock Sample.env;
     random := random Sample.env;
     firestore_error := fun _ _ => Some (LibraryError "14 UNAVAILABLE") |}.



(** Firestore accepting the document of the sample charge and no other. *)
Definition picky_firestore : Env :=
  {| FLUTTERWAVE_WEBHOOK_HASH := FLUTTERWAVE_WEBHOOK_HASH Sample.env;
     FLUTTERWAVE_SECRET_KEY := FLUTTERWAVE_SECRET_KEY Sample.env;
     hmac_sha256_hex := hmac_sha256_hex Sample.env;
     JSON_stringify := JSON_stringify Sample.env;
     fetch_json := fetch_json Sample.env;
     clock := clock Sample.env;
     random := random Sample.env;
     firestore_error :=
       fun path _ => if String.eqb path Sample.expected_path then None
                     else Some (LibraryError "7 PERMISSION_DENIED") |}.

(** A signed successful event whose transaction id is an object with a
    property named toString. *)
Definition opaque_id_charge : Request :=
  Sample.signed
    (JObj [("event", JStr "charge.completed");
           ("data", JObj [("id", JObj [("toString", JNum 1)]);
                          ("tx_ref", JStr "boost_evt123_1699999999");
                          ("status", JStr "successful")])]).

(** A signed successful event without transaction reference. *)
Definition unreferenced_charge : Request :=
  Sample.signed
    (Sample.inbound "charge.completed"
       (JObj [("id", JNum 42); ("amount", JNum 5000); ("currency", JStr "NGN");
              ("status", JStr "successful")])).

(** A provider that confirms the payment without saying who paid. *)
Definition anonymous_provider : Env :=
  {| FLUTTERWAVE_WEBHOOK_HASH := FLUTTERWAVE_WEBHOOK_HASH Sample.env;
     FLUTTERWAVE_SECRET_KEY := FLUTTERWAVE_SECRET_KEY Sample.env;
     hmac_sha256_hex := hmac_sha256_hex Sample.env;
     JSON_stringify := JSON_stringify Sample.env;
     fetch_json := fun _ _ =>
       Normal (JObj [("status", JStr "success");
                     ("data", JObj [("id", JNum 42); ("tx_ref", JStr "boost_evt123_1699999999");
                                    ("amount", JNum 5000); ("currency", JStr "NGN");
                                    ("status", JStr "successful")])]);
     clock := clock Sample.env;
     random := random Sample.env;
     firestore_error := firestore_error Sample.env |}.

(** The surroundings of a second delivery of the sample charge: the
    provider answers as before, Firestore accepts only the new document. *)
Definition picky_redelivery : Env :=
  {| FLUTTERWAVE_WEBHOOK_HASH := FLUTTERWAVE_WEBHOOK_HASH Sample.env;
     FLUTTERWAVE_SECRET_KEY := FLUTTERWAVE_SECRET_KEY Sample.env;
     hmac_sha256_hex := hmac_sha256_hex Sample.env;
     JSON_stringify := JSON_stringify Sample.env;
     fetch_json := fetch_json Sample.env;
     clock := clock Sample.env;
     random := random Sample.env;
     firestore_error :=
       fun path _ =>
         if String.eqb path "physicalEvents/evt123/adsPackages/ads_pkg_1699999999009"
         then None else Some (LibraryError "7 PERMISSION_DENIED") |}.

(** The document expected when the sample charge is delivered a second
    time. *)
Definition redelivered_path : string :=
  "physicalEvents/evt123/adsPackages/ads_pkg_1699999999009".

Definition redelivered_package : AdPackage :=
  Sample.package_with "ads_pkg_1699999999009" "2023-11-14T22:13:19.006Z"
    "2023-11-21T22:13:19.006Z" "ADA9SBAZ9E5MK".

End Scenarios.

Import Scenarios.

(** * Properties *)

(** ** Rounding of the product in generateAdCode *)

Section Rounding.
Local Open Scope Z_scope.

(** The shift of round53 is at most 6 for numerators below 2^59. *)
Lemma round53_cases (n : Z) :
  0 <= n < 2 ^ 59 ->
  round53 n = n \/
  exists s q r, 1 <= s <= 6 /\ n = 2 ^ s * q + r /\ 0 <= r < 2 ^ s /\ 0 <= q /\
    (round53 n = 2 ^ s * q /\ 2 * r <= 2 ^ s \/ round53 n = 2 ^ s * (q + 1) /\ 2 ^ s <= 2 * r).
Proof.
  intros Hn. unfold round53.
  destruct (Z.leb_spec (Z.log2 n + 1 - 53) 0) as [Hs|Hs]; [now left|right].
  set (s := Z.log2 n + 1 - 53) in *.
  assert (Hs6 : s <= 6).
  { assert (0 < n).
    { destruct (Z.eq_dec n 0) as [->|]; [|lia]. subst s. simpl in Hs. lia. }
    assert (Z.log2 n < 59); [|lia].
    apply Z.log2_lt_pow2; lia. }
  exists s, (n / 2 ^ s), (n mod 2 ^ s).
  assert (Hp : 0 < 2 ^ s) by (apply Z.pow_pos_nonneg; lia).
  assert (Hhalf : 2 ^ s = 2 * 2 ^ (s - 1)).
  { replace s with (Z.succ (s - 1)) at 1 by lia. rewrite Z.pow_succ_r; lia. }
  pose proof (Z.div_mod n (2 ^ s) ltac:(lia)) as Hdm.
  pose proof (Z.mod_pos_bound n (2 ^ s) Hp) as Hr.
  assert (0 <= n / 2 ^ s) by (apply Z.div_pos; lia).
  repeat split; try lia.
  rewrite Z.shiftr_div_pow2, Z.shiftl_mul_pow2 by lia.
  destruct (Z.ltb_spec (2 ^ (s - 1)) (n mod 2 ^ s)); simpl.
  - right. lia.
  - destruct (Z.eqb_spec (n mod 2 ^ s) (2 ^ (s - 1))); simpl.
    + destruct (Z.odd (n / 2 ^ s)); [right|left]; lia.
    + left. lia.
Qed.

(** Rounding moves a numerator by at most 32 and never across a multiple
    of 64. *)
Lemma round53_sandwich (n P : Z) :
  0 <= n < 2 ^ 59 ->
  n - 32 <= round53 n <= n + 32 /\
  (64 * P <= n -> 64 * P <= round53 n) /\
  (n <= 64 * P -> round53 n <= 64 * P).
Proof.
  intros Hn.
  destruct (round53_cases n Hn) as [->|(s & q & r & Hs & Hnq & Hr & Hq & Hround)]; [lia|].
  assert (Hs' : s = 1 \/ s = 2 \/ s = 3 \/ s = 4 \/ s = 5 \/ s = 6) by lia.
  destruct Hs' as [->|[->|[->|[->|[->| ->]]]]];
    change (2 ^ 1) with 2 in *; change (2 ^ 2) with 4 in *; change (2 ^ 3) with 8 in *;
    change (2 ^ 4) with 16 in *; change (2 ^ 5) with 32 in *; change (2 ^ 6) with 64 in *;
    lia.
Qed.

Lemma unit_double_bounds (d : UnitDouble) :
  is_unit_double d = true ->
  0 <= mant d < 2 ^ 53 /\ 53 <= expo d <= 1074.
Proof. unfold is_unit_double. lia. Qed.

Lemma pow2_expo_split (e : Z) :
  53 <= e -> 0 < 2 ^ (e - 6) /\ 2 ^ e = 64 * 2 ^ (e - 6) /\ 2 ^ 47 <= 2 ^ (e - 6).
Proof.
  intros He. split; [apply Z.pow_pos_nonneg; lia|]. split.
  - replace e with (6 + (e - 6)) at 1 by lia. rewrite Z.pow_add_r by lia. reflexivity.
  - apply Z.pow_le_mono_r; lia.
Qed.

(** The index computed for a draw lies in the alphabet. *)
Lemma floor_mul_range (d : UnitDouble) :
  is_unit_double d = true -> 0 <= floor_mul d 36 < 36.
Proof.
  intros Hd. destruct (unit_double_bounds d Hd) as [Hm He].
  destruct (pow2_expo_split (expo d) ltac:(lia)) as (Hpos & Hpow & Hbig).
  unfold floor_mul.
  destruct (round53_sandwich (mant d * 36) 0 ltac:(lia)) as (Hnear & Hlow & _).
  split.
  - apply Z.div_pos; lia.
  - apply Z.div_lt_upper_bound; lia.
Qed.

(** The cell of the unit interval that selects the index [j]. *)
Lemma floor_mul_cell (d : UnitDouble) (j : Z) :
  is_unit_double d = true ->
  (j * 2 ^ expo d <= 36 * mant d /\ 36 * mant d + 32 < (j + 1) * 2 ^ expo d ->
   floor_mul d 36 = j) /\
  (floor_mul d 36 = j ->
   j * 2 ^ expo d - 32 <= 36 * mant d /\ 36 * mant d < (j + 1) * 2 ^ expo d).
Proof.
  intros Hd. destruct (unit_double_bounds d Hd) as [Hm He].
  destruct (pow2_expo_split (expo d) ltac:(lia)) as (Hpos & Hpow & Hbig).
  unfold floor_mul. rewrite Hpow.
  set (E := 2 ^ (expo d - 6)) in *.
  assert (Hn : 0 <= mant d * 36 < 2 ^ 59) by lia.
  destruct (round53_sandwich (mant d * 36) (j * E) Hn) as (Hnear & Hlow & _).
  destruct (round53_sandwich (mant d * 36) ((j + 1) * E) Hn) as (_ & Hup & _).
  set (R := round53 (mant d * 36)) in *.
  split.
  - intros [H1 H2]. symmetry. apply Z.div_unique_pos with (r := R - 64 * E * j); lia.
  - intros Hj.
    assert (HR : 64 * E * j <= R < 64 * E * (j + 1)).
    { subst j. pose proof (Z.mul_div_le R (64 * E) ltac:(lia)).
      pose proof (Z.mul_succ_div_gt R (64 * E) ltac:(lia)). lia. }
    lia.
Qed.
End Rounding.

(** *** Strings *)

Lemma app_cons (c : ascii) (s t : string) : String c s +:+ t = String c (s +:+ t).
Proof. reflexivity. Qed.

Lemma app_empty_l (t : string) : "" +:+ t = t.
Proof. reflexivity. Qed.

Lemma app_empty_r (s : string) : s +:+ "" = s.
Proof. induction s as [|c s IH]; [reflexivity|]. now rewrite app_cons, IH. Qed.

Lemma app_assoc_str (s t u : string) : (s +:+ t) +:+ u = s +:+ (t +:+ u).
Proof. induction s as [|c s IH]; [reflexivity|]. now rewrite !app_cons, IH. Qed.

Lemma length_app_str (s t : string) :
  String.length (s +:+ t) = (String.length s + String.length t)%nat.
Proof. induction s as [|c s IH]; [reflexivity|]. rewrite app_cons. simpl. now rewrite IH. Qed.

Lemma all_code_chars_app (s t : string) :
  all_code_chars (s +:+ t) = all_code_chars s && all_code_chars t.
Proof.
  induction s as [|c s IH]; [reflexivity|].
  rewrite app_cons. simpl. rewrite IH. now rewrite andb_assoc.
Qed.

Lemma charAt_chars (i : Z) :
  (0 <= i < 36)%Z ->
  exists c, charAt chars i = String c "" /\ is_code_char c = true.
Proof.
  intros Hi.
  assert (Hall : forallb (fun k => match charAt chars (Z.of_nat k) with
                                   | String c EmptyString => is_code_char c
                                   | _ => false
                                   end) (seq 0 36) = true) by (vm_compute; reflexivity).
  rewrite forallb_forall in Hall. specialize (Hall (Z.to_nat i)).
  rewrite Z2Nat.id in Hall by lia.
  destruct (charAt chars i) as [|c [|c' rest]].
  - discriminate Hall. apply in_seq. lia.
  - exists c. split; [reflexivity|]. apply Hall. apply in_seq. lia.
  - discriminate Hall. apply in_seq. lia.
Qed.

(** *** Timestamps *)

Section Timestamps.
Local Open Scope Z_scope.

Lemma digit_value_digit (n : Z) : 0 <= n -> digit_value (digit n) = Some (n mod 10).
Proof.
  intros Hn. unfold digit.
  assert (Hr : 0 <= n mod 10 < 10) by (apply Z.mod_pos_bound; lia).
  assert (Hk : exists k, n mod 10 = Z.of_nat k /\ (k < 10)%nat)
    by (exists (Z.to_nat (n mod 10)); lia).
  destruct Hk as (k & -> & Hk). rewrite Nat2Z.id.
  do 10 (destruct k as [|k]; [reflexivity|]). lia.
Qed.

Lemma digit_is_no_sign (n : Z) : 0 <= n -> digit n <> "+"%char /\ digit n <> "-"%char.
Proof.
  intros Hn. unfold digit.
  assert (Hr : 0 <= n mod 10 < 10) by (apply Z.mod_pos_bound; lia).
  assert (Hk : exists k, n mod 10 = Z.of_nat k /\ (k < 10)%nat)
    by (exists (Z.to_nat (n mod 10)); lia).
  destruct Hk as (k & -> & Hk). rewrite Nat2Z.id.
  do 10 (destruct k as [|k]; [split; discriminate|]). lia.
Qed.

(** Reading back the digits that were written. *)
Lemma take_digits_digits (w k : nat) (acc n : Z) (rest : string) :
  0 <= n ->
  take_digits (w + k) acc (digits w n +:+ rest)
  = take_digits k (acc * 10 ^ Z.of_nat w + n mod 10 ^ Z.of_nat w) rest.
Proof.
  revert k acc n rest. induction w as [|w IH]; intros k acc n rest Hn.
  - simpl. rewrite Z.mod_1_r. f_equal. lia.
  - cbn [digits]. rewrite app_assoc_str, app_cons.
    replace (S w + k)%nat with (w + S k)%nat by lia.
    rewrite IH by (apply Z.div_pos; lia).
    cbn [take_digits]. rewrite digit_value_digit by exact Hn.
    f_equal. rewrite Nat2Z.inj_succ, Z.pow_succ_r by lia.
    rewrite (Z.rem_mul_r n 10 (10 ^ Z.of_nat w)) by (try apply Z.pow_nonzero; lia).
    lia.
Qed.

Lemma take_digits_exact (w : nat) (n : Z) (rest : string) :
  0 <= n < 10 ^ Z.of_nat w ->
  take_digits w 0 (digits w n +:+ rest) = Some (n, rest).
Proof.
  intros Hn. replace w with (w + 0)%nat at 1 by lia.
  rewrite take_digits_digits by lia. simpl. now rewrite Z.mod_small.
Qed.

(** The year of the era and the day of that year, for a day of an era of
    146097 days. *)
Lemma year_of_era_range (doe : Z) :
  0 <= doe < 146097 ->
  let yoe := (doe - doe / 1460 + doe / 36524 - doe / 146096) / 365 in
  0 <= yoe <= 399 /\ 0 <= doe - (365 * yoe + yoe / 4 - yoe / 100) <= 365.
Proof.
  intros Hdoe yoe. subst yoe. Z.div_mod_to_equations. lia.
Qed.

Lemma month_of_year_range (doy : Z) :
  0 <= doy <= 365 ->
  let mp := (5 * doy + 2) / 153 in
  0 <= mp <= 11 /\ 1 <= doy - (153 * mp + 2) / 5 + 1 <= 31.
Proof.
  intros Hdoy mp. subst mp. Z.div_mod_to_equations. lia.
Qed.

(** The date of a day number is a date of the calendar, and gives the day
    number back. *)
Lemma civil_roundtrip (z y m d : Z) :
  civil_from_days z = (y, m, d) ->
  days_from_civil y m d = z /\ 1 <= m <= 12 /\ 1 <= d <= 31
  /\ 400 * ((z + 719468) / 146097) <= y <= 400 * ((z + 719468) / 146097) + 400.
Proof.
  unfold civil_from_days.
  set (era := (z + 719468) / 146097).
  set (doe := z + 719468 - era * 146097).
  assert (Hdoe : 0 <= doe < 146097).
  { subst doe era. pose proof (Z.mul_div_le (z + 719468) 146097 ltac:(lia)).
    pose proof (Z.mul_succ_div_gt (z + 719468) 146097 ltac:(lia)). lia. }
  destruct (year_of_era_range doe Hdoe) as [Hyoe Hdoy].
  set (yoe := (doe - doe / 1460 + doe / 36524 - doe / 146096) / 365) in *.
  set (doy := doe - (365 * yoe + yoe / 4 - yoe / 100)) in *.
  destruct (month_of_year_range doy Hdoy) as [Hmp Hd].
  set (mp := (5 * doy + 2) / 153) in *.
  cbv zeta. intros [= <- <- <-].
  assert (Hera : (yoe + era * 400) / 400 = era).
  { rewrite Z.div_add by lia. rewrite Z.div_small by lia. lia. }
  unfold days_from_civil.
  destruct (Z.ltb_spec mp 10) as [Hlt|Hge].
  - replace (mp + 3 <=? 2) with false by (symmetry; apply Z.leb_gt; lia).
    replace (2 <? mp + 3) with true by (symmetry; apply Z.ltb_lt; lia).
    replace (yoe + era * 400 + 0) with (yoe + era * 400) by lia.
    rewrite Hera.
    replace (yoe + era * 400 - era * 400) with yoe by lia.
    replace (mp + 3 - 3) with mp by lia.
    fold doy. subst doy doe. lia.
  - replace (mp - 9 <=? 2) with true by (symmetry; apply Z.leb_le; lia).
    replace (2 <? mp - 9) with false by (symmetry; apply Z.ltb_ge; lia).
    replace (yoe + era * 400 + 1 - 1) with (yoe + era * 400) by lia.
    rewrite Hera.
    replace (yoe + era * 400 - era * 400) with yoe by lia.
    replace (mp - 9 + 9) with mp by lia.
    subst doy doe. lia.
Qed.

Lemma expect_next (c : ascii) (rest : string) : expect c (String c rest) = Some rest.
Proof. unfold expect. now rewrite Ascii.eqb_refl. Qed.

Lemma take_year_iso_year (y : Z) (rest : string) :
  - 10 ^ 6 < y < 10 ^ 6 -> take_year (iso_year y +:+ rest) = Some (y, rest).
Proof.
  intros Hy. unfold iso_year.
  destruct ((0 <=? y) && (y <=? 9999)) eqn:Hfour.
  - apply andb_true_iff in Hfour as [Hpos Hsmall].
    apply Z.leb_le in Hpos, Hsmall.
    assert (Hfirst : exists c tail, digits 4 y +:+ rest = String c tail
                                   /\ c <> "+"%char /\ c <> "-"%char).
    { exists (digit (y / 10 / 10 / 10)). eexists. split; [reflexivity|].
      apply digit_is_no_sign. repeat apply Z.div_pos; lia. }
    destruct Hfirst as (c & tail & Heq & Hplus & Hminus).
    unfold take_year. rewrite Heq.
    apply Ascii.eqb_neq in Hplus, Hminus. rewrite Hplus, Hminus. rewrite <- Heq.
    apply take_digits_exact. lia.
  - destruct (Z.ltb_spec y 0) as [Hneg|Hpos].
    + rewrite app_assoc_str, app_cons. unfold take_year.
      change (Ascii.eqb "-" "+") with false. change (Ascii.eqb "-" "-") with true. cbv iota.
      change ("" +:+ digits 6 (- y) +:+ rest) with (digits 6 (- y) +:+ rest).
      rewrite (take_digits_exact 6 (- y)) by lia.
      now rewrite Z.opp_involutive.
    + assert (9999 < y).
      { apply andb_false_iff in Hfour as [H|H]; [apply Z.leb_gt in H|apply Z.leb_gt in H]; lia. }
      rewrite app_assoc_str, app_cons. unfold take_year.
      change (Ascii.eqb "+" "+") with true. cbv iota.
      change ("" +:+ digits 6 y +:+ rest) with (digits 6 y +:+ rest).
      apply take_digits_exact. lia.
Qed.

Local Opaque digits.

Local Ltac separator :=
  rewrite (app_cons _ ""), app_empty_l, expect_next; cbn [mbind option_bind].

Local Ltac two_digits :=
  rewrite take_digits_exact
    by (change (10 ^ Z.of_nat 2) with 100; Z.div_mod_to_equations; lia);
  cbn [mbind option_bind].

(** A timestamp written by toISOString denotes the instant it was written
    for. *)
Lemma instant_of_toISOString (t : Z) (s : string) :
  toISOString t = Normal s -> instant_of_iso s = Some t.
Proof.
  unfold toISOString.
  destruct (valid_time t) eqn:Hvalid; [|discriminate].
  unfold valid_time, max_time_value in Hvalid.
  destruct (civil_from_days (t / 86400000)) as [[y m] d] eqn:Hcivil.
  intros [= <-].
  destruct (civil_roundtrip _ _ _ _ Hcivil) as (Hdays & Hm & Hd & Hy).
  set (ms := t mod 86400000).
  assert (Hms : 0 <= ms < 86400000) by (apply Z.mod_pos_bound; lia).
  assert (Hyear : - 10 ^ 6 < y < 10 ^ 6).
  { assert (- 100000000 <= t / 86400000 <= 100000000)
      by (split; [apply Z.div_le_lower_bound|apply Z.div_le_upper_bound]; lia).
    assert (- 680 <= (t / 86400000 + 719468) / 146097 <= 690)
      by (split; [apply Z.div_le_lower_bound|apply Z.div_le_upper_bound]; lia).
    lia. }
  unfold instant_of_iso.
  rewrite take_year_iso_year by exact Hyear. cbn [mbind option_bind].
  separator. two_digits. separator. two_digits. separator. two_digits.
  separator. two_digits. separator. two_digits. separator.
  rewrite take_digits_exact
    by (change (10 ^ Z.of_nat 3) with 1000; Z.div_mod_to_equations; lia).
  cbn [mbind option_bind]. rewrite expect_next. cbn [mbind option_bind].
  f_equal. rewrite Hdays. subst ms. Z.div_mod_to_equations. lia.
Qed.
End Timestamps.

(** *** generateAdCode *)

Lemma generateAdCode_loop_total (env : Env) (n : nat) (result : string) (w : World) :
  exists suffix,
    generateAdCode_loop env n result w = (Normal (result +:+ suffix), drawn w n).
Proof.
  revert result w. induction n as [|n IH]; intros result w.
  - exists "". rewrite app_empty_r. destruct w; reflexivity.
  - cbn [generateAdCode_loop]. unfold bind, Math_random.
    match goal with |- context [generateAdCode_loop env n ?r ?w'] =>
      destruct (IH r w') as (suffix & ->) end.
    rewrite app_assoc_str. eexists. f_equal. unfold drawn; simpl. f_equal. lia.
Qed.

Lemma generateAdCode_loop_pattern (env : Env) (n : nat) (result : string) (w : World) :
  (forall k, is_unit_double (random env k) = true) ->
  exists suffix,
    generateAdCode_loop env n result w = (Normal (result +:+ suffix), drawn w n)
    /\ String.length suffix = n /\ all_code_chars suffix = true.
Proof.
  intros Hrandom. revert result w. induction n as [|n IH]; intros result w.
  - exists "". rewrite app_empty_r. destruct w; repeat split.
  - cbn [generateAdCode_loop]. unfold bind, Math_random.
    destruct (charAt_chars (floor_mul (random env (random_draws w)) 36)) as (c & Hc & Hclass).
    { apply floor_mul_range, Hrandom. }
    change (Z.of_nat (String.length chars)) with 36%Z. rewrite Hc.
    match goal with |- context [generateAdCode_loop env n ?r ?w'] =>
      destruct (IH r w') as (suffix & -> & Hlen & Hall) end.
    exists (String c suffix). rewrite app_assoc_str. repeat split.
    + f_equal. unfold drawn; simpl. f_equal. lia.
    + simpl. now rewrite Hlen.
    + simpl. now rewrite Hclass, Hall.
Qed.

Lemma generateAdCode_total (env : Env) (w : World) :
  exists code, generateAdCode env w = (Normal code, drawn w 11).
Proof.
  destruct (generateAdCode_loop_total env 11 "AD" w) as (suffix & H). eauto.
Qed.

(** *** The steps of the handler *)

Lemma verify_url_inv (id : JsValue) (url : string) :
  verify_url id = Normal url ->
  exists s, to_string id = Normal s
            /\ url = "https://api.flutterwave.com/v3/transactions/" +:+ s +:+ "/verify".
Proof.
  unfold verify_url. destruct (to_string id) as [s|]; [|discriminate].
  intros [= <-]. eauto.
Qed.

Lemma verifyFlutterwavePayment_run (env : Env) (id : JsValue) (url : string) (w : World) :
  verify_url id = Normal url ->
  verifyFlutterwavePayment env id w
  = (fetch_json env url (verify_authorization env), fetched env url w).
Proof.
  intros Hurl. apply verify_url_inv in Hurl as (s & Hs & ->).
  unfold verifyFlutterwavePayment, try_catch, bind, lift, fetch, ret, throw. rewrite Hs.
  fold (verify_authorization env).
  destruct (fetch_json env _ (verify_authorization env)); reflexivity.
Qed.

Lemma verifyFlutterwavePayment_no_url (env : Env) (id : JsValue) (e : JsError) (w : World) :
  verify_url id = Throw e ->
  verifyFlutterwavePayment env id w = (Throw e, w).
Proof.
  unfold verify_url, verifyFlutterwavePayment, try_catch, bind, lift, throw.
  destruct (to_string id); [discriminate|]. now intros [= <-].
Qed.

Lemma destructure_event_data_inv (b event data : JsValue) :
  destructure_event_data b = Normal (event, data) ->
  get b "event" = Normal event /\ get b "data" = Normal data.
Proof.
  destruct b; simpl; intros H; inversion H; auto.
Qed.

Lemma destructure_event_data_throw (b : JsValue) (e : JsError) :
  destructure_event_data b = Throw e -> exists e', get b "event" = Throw e'.
Proof.
  destruct b; simpl; intros H; inversion H; eauto.
Qed.

Lemma packageData_inv (code : string) (now packageTime : Z) (v : JsValue) (d : AdPackage) :
  packageData code now packageTime v = Normal d ->
  toISOString now = Normal (createdAt d)
  /\ toISOString (now + 7 * 24 * 60 * 60 * 1000) = Normal (expiresAt d)
  /\ toISOString now = Normal (webhookProcessedAt d)
  /\ packageId d = "ads_pkg_" +:+ number_to_string packageTime
  /\ adCode d = code
  /\ get2 v "data" "amount" = Normal (totalAmountPaid d)
  /\ get2 v "data" "id" = Normal (paymentId d)
  /\ get2 v "data" "currency" = Normal (currency d)
  /\ get3 v "data" "customer" "email" = Normal (customerEmail d)
  /\ get3 v "data" "customer" "name" = Normal (customerName d)
  /\ get2 v "data" "tx_ref" = Normal (txRef (flutterwaveData d))
  /\ get2 v "data" "flw_ref" = Normal (flwRef (flutterwaveData d))
  /\ get2 v "data" "payment_type" = Normal (paymentType (flutterwaveData d)).
Proof.
  unfold packageData.
  destruct (toISOString now) as [iso|]; [|discriminate].
  destruct (toISOString (now + 7 * 24 * 60 * 60 * 1000)) as [iso'|]; [|discriminate].
  destruct (get2 v "data" "amount"); [|discriminate].
  destruct (get2 v "data" "id"); [|discriminate].
  destruct (get2 v "data" "currency"); [|discriminate].
  destruct (get3 v "data" "customer" "email"); [|discriminate].
  destruct (get3 v "data" "customer" "name"); [|discriminate].
  destruct (get2 v "data" "tx_ref"); [|discriminate].
  destruct (get2 v "data" "flw_ref"); [|discriminate].
  destruct (get2 v "data" "payment_type"); [|discriminate].
  simpl. intros [= <-]. simpl. repeat split.
Qed.

Lemma packageData_fixed (code : string) (now packageTime : Z) (v : JsValue) (d : AdPackage) :
  packageData code now packageTime v = Normal d ->
  packageName d = "Webhook Package" /\ packageType d = "webhook"
  /\ status d = "pending_upload" /\ adTypes d = ["image"]
  /\ placements d = ["app_ads_footer"] /\ duration d = 7%Z
  /\ ads d = {| image := {| contentType := JNull; dataUrl := JNull; websiteUrl := JNull;
                            editsUsed := 0; totalEdits := 1; views := 0; clicks := 0;
                            uploaded := false |} |}
  /\ totalViews d = 0%Z /\ totalClicks d = 0%Z /\ viewsPerDay d = JObj [].
Proof.
  unfold packageData, cbind.
  repeat match goal with |- context [match ?x with Normal _ => _ | Throw _ => _ end] =>
    destruct x; [|discriminate] end.
  intros [= <-]. repeat split.
Qed.

(** Two records built from the same verification response differ only in
    what is generated. *)
Lemma packageData_erase (c1 c2 : string) (n1 n2 p1 p2 : Z) (v : JsValue) (d1 d2 : AdPackage) :
  packageData c1 n1 p1 v = Normal d1 ->
  packageData c2 n2 p2 v = Normal d2 ->
  erase_generated d1 = erase_generated d2.
Proof.
  intros H1 H2.
  destruct (packageData_inv _ _ _ _ _ H1) as (_ & _ & _ & _ & _ & A1 & B1 & C1 & D1 & E1 & F1 & G1 & I1).
  destruct (packageData_inv _ _ _ _ _ H2) as (_ & _ & _ & _ & _ & A2 & B2 & C2 & D2 & E2 & F2 & G2 & I2).
  destruct (packageData_fixed _ _ _ _ _ H1) as (a1 & a2 & a3 & a4 & a5 & a6 & a7 & a8 & a9 & a10).
  destruct (packageData_fixed _ _ _ _ _ H2) as (b1 & b2 & b3 & b4 & b5 & b6 & b7 & b8 & b9 & b10).
  clear H1 H2.
  rewrite A1 in A2. rewrite B1 in B2. rewrite C1 in C2. rewrite D1 in D2. rewrite E1 in E2.
  rewrite F1 in F2. rewrite G1 in G2. rewrite I1 in I2.
  injection A2 as A2. injection B2 as B2. injection C2 as C2. injection D2 as D2.
  injection E2 as E2. injection F2 as F2. injection G2 as G2. injection I2 as I2.
  unfold erase_generated.
  rewrite a1, a2, a3, a4, a5, a6, a7, a8, a9, a10, b1, b2, b3, b4, b5, b6, b7, b8, b9, b10.
  rewrite A2, B2, C2, D2, E2.
  destruct (flutterwaveData d1), (flutterwaveData d2). simpl in F2, G2, I2. subst.
  reflexivity.
Qed.

(** The three ways in which the last step ends: the record cannot be
    built, Firestore refuses it, or it is written and the success response
    is sent. *)
Lemma create_package_spec (env : Env) (v : JsValue) (eventId : string) (w : World) :
  exists code,
    fst (generateAdCode env w) = Normal code /\
    match packageData code (clock env (clock_reads w)) (clock env (S (clock_reads w))) v with
    | Throw e =>
        exists w', create_package env v eventId w = (Throw e, w')
                   /\ firestore w' = firestore w /\ trace w' = trace w
    | Normal d =>
        match firestore_error env (doc_path eventId d) d with
        | Some e =>
            exists w', create_package env v eventId w = (Throw e, w')
                       /\ firestore w' = firestore w /\ trace w' = trace w
        | None =>
            exists w', create_package env v eventId w
                       = (Normal (success_response eventId d (totalAmountPaid d)), w')
                       /\ firestore w' = <[doc_path eventId d := d]> (firestore w)
                       /\ trace w' = DocSet (doc_path eventId d) d :: trace w
        end
    end.
Proof.
  destruct (generateAdCode_total env w) as (code & Hcode).
  exists code. rewrite Hcode. split; [reflexivity|].
  unfold create_package, bind. rewrite Hcode.
  unfold Date_now, lift, drawn; simpl.
  destruct (packageData code _ _ v) as [d|e] eqn:Hd.
  - unfold doc_set; simpl. fold (doc_path eventId d).
    destruct (firestore_error env (doc_path eventId d) d) as [e|].
    + eexists; repeat split.
    + destruct (packageData_inv _ _ _ _ _ Hd) as (_ & _ & _ & _ & _ & Hamount & _).
      rewrite Hamount. eexists; repeat split.
  - eexists; repeat split.
Qed.

(** The runs of the try block: it ends without any effect, or after the
    verification call alone, or, when the four conditions hold, it goes on
    to create the package. *)
Lemma process_cases (env : Env) (req : Request) (w : World) :
  (all_four env req = false /\ exists r, process env req w = (r, w))
  \/ (all_four env req = false /\
      exists r id url, get2 (body req) "data" "id" = Normal id
                       /\ verify_url id = Normal url
                       /\ process env req w = (r, fetched env url w))
  \/ (all_four env req = true /\
      exists v id url eventId,
        get2 (body req) "data" "id" = Normal id
        /\ verify_url id = Normal url
        /\ provider_reply env req = Normal v
        /\ recovered_identifier (body req) = Some eventId
        /\ process env req w = create_package env v eventId (fetched env url w)).
Proof.
  unfold process, bind, lift, ret.
  destruct (hmac_sha256_hex env (FLUTTERWAVE_WEBHOOK_HASH env) (JSON_stringify env (body req)))
    as [h|e] eqn:Hh.
  2: { left. split; [|eauto]. unfold all_four, signature_verified. now rewrite Hh. }
  destruct (strict_eq_opt h (verif_hash req)) eqn:Hsig; simpl.
  2: { left. split; [|eauto]. unfold all_four, signature_verified. now rewrite Hh, Hsig. }
  assert (Hsv : signature_verified env req = true).
  { unfold signature_verified. now rewrite Hh. }
  destruct (destructure_event_data (body req)) as [[event data]|e] eqn:Hd; simpl.
  2: { left. split; [|eauto]. apply destructure_event_data_throw in Hd as [e' He'].
       unfold all_four, event_succeeded, field_is. rewrite He'. now rewrite andb_false_r. }
  apply destructure_event_data_inv in Hd as [Hevent Hdata].
  destruct (strict_eq_str event "charge.completed") eqn:Hcharge; simpl.
  2: { left. split; [|eauto]. unfold all_four, event_succeeded, field_is.
       rewrite Hevent, Hcharge. now rewrite andb_false_r. }
  destruct (get data "status") as [s|e] eqn:Hstatus; simpl.
  2: { left. split; [|eauto]. unfold all_four, event_succeeded, field2_is, get2.
       rewrite Hdata; simpl. rewrite Hstatus. now rewrite !andb_false_r. }
  destruct (strict_eq_str s "successful") eqn:Hsucc; simpl.
  2: { left. split; [|eauto]. unfold all_four, event_succeeded, field2_is, get2.
       rewrite Hdata; simpl. rewrite Hstatus, Hsucc. now rewrite !andb_false_r. }
  assert (Hes : event_succeeded (body req) = true).
  { unfold event_succeeded, field_is, field2_is, get2. rewrite Hevent, Hdata; simpl.
    now rewrite Hstatus, Hcharge, Hsucc. }
  destruct (get data "id") as [id|e] eqn:Hid; simpl.
  2: { left. split; [|eauto]. unfold all_four, reverified, provider_reply,
         verification_request, get2.
       rewrite Hdata; simpl. rewrite Hid; simpl. now rewrite andb_false_r. }
  assert (Hid2 : get2 (body req) "data" "id" = Normal id).
  { unfold get2. rewrite Hdata. exact Hid. }
  destruct (verify_url id) as [url|e] eqn:Hurl.
  2: { rewrite (verifyFlutterwavePayment_no_url _ _ _ _ Hurl).
       left. split; [|eauto]. unfold all_four, reverified, provider_reply,
         verification_request.
       rewrite Hid2; simpl. rewrite Hurl; simpl. now rewrite andb_false_r. }
  rewrite (verifyFlutterwavePayment_run _ _ _ _ Hurl).
  assert (Hreply : provider_reply env req
                   = fetch_json env url (verify_authorization env)).
  { unfold provider_reply, verification_request. rewrite Hid2; simpl. now rewrite Hurl. }
  destruct (fetch_json env url (verify_authorization env)) as [v|e] eqn:Hv.
  2: { right; left. split; [|eauto 6]. unfold all_four, reverified. rewrite Hreply.
       now rewrite andb_false_r. }
  assert (Hfail : forall r : Completion Response,
            verification_succeeded v = false ->
            (all_four env req = false /\
             exists r0 id0 url0, get2 (body req) "data" "id" = Normal id0
                                 /\ verify_url id0 = Normal url0
                                 /\ (r, fetched env url w) = (r0, fetched env url0 w))).
  { intros r Hvs. split; [|eauto 6]. unfold all_four, reverified. rewrite Hreply, Hvs.
    now rewrite andb_false_r. }
  destruct (get v "status") as [vs|e] eqn:Hvstatus; simpl.
  2: { right; left. apply Hfail. unfold verification_succeeded, field_is. now rewrite Hvstatus. }
  destruct (strict_eq_str vs "success") eqn:Hvsucc; simpl.
  2: { right; left. apply Hfail. unfold verification_succeeded, field_is.
       now rewrite Hvstatus, Hvsucc. }
  destruct (get2 v "data" "status") as [vds|e] eqn:Hvds; simpl.
  2: { right; left. apply Hfail. unfold verification_succeeded, field2_is.
       rewrite Hvds. now rewrite andb_false_r. }
  destruct (strict_eq_str vds "successful") eqn:Hvdsucc; simpl.
  2: { right; left. apply Hfail. unfold verification_succeeded, field2_is.
       rewrite Hvds, Hvdsucc. now rewrite andb_false_r. }
  assert (Hrv : reverified env req = true).
  { unfold reverified, verification_succeeded, field_is, field2_is.
    now rewrite Hreply, Hvstatus, Hvsucc, Hvds, Hvdsucc. }
  assert (Hnone : forall r : Completion Response,
            recovered_identifier (body req) = None ->
            (all_four env req = false /\
             exists r0 id0 url0, get2 (body req) "data" "id" = Normal id0
                                 /\ verify_url id0 = Normal url0
                                 /\ (r, fetched env url w) = (r0, fetched env url0 w))).
  { intros r Hri. split; [|eauto 6]. unfold all_four, identifier_recovered. rewrite Hri.
    now rewrite andb_false_r. }
  assert (Htx : get2 (body req) "data" "tx_ref" = get data "tx_ref").
  { unfold get2. now rewrite Hdata. }
  destruct (get data "tx_ref") as [tx|e] eqn:Htxref; simpl.
  2: { right; left. apply Hnone. unfold recovered_identifier. now rewrite Htx. }
  destruct (parseTransactionRef tx) as [o|e] eqn:Hparse; simpl.
  2: { right; left. apply Hnone. unfold recovered_identifier. rewrite Htx; simpl.
       now rewrite Hparse. }
  destruct o as [eventId|]; simpl.
  2: { right; left. apply Hnone. unfold recovered_identifier. rewrite Htx; simpl.
       now rewrite Hparse. }
  destruct (String.eqb eventId "") eqn:Hempty; simpl.
  { right; left. apply Hnone. unfold recovered_identifier. rewrite Htx; simpl.
    now rewrite Hparse, Hempty. }
  right; right. split.
  - unfold all_four, identifier_recovered, recovered_identifier. rewrite Htx; simpl.
    now rewrite Hsv, Hes, Hrv, Hparse, Hempty.
  - exists v, id, url, eventId. repeat split; auto.
    unfold recovered_identifier. rewrite Htx; simpl. now rewrite Hparse, Hempty.
Qed.

Lemma destructure_event_data_gets (b event data : JsValue) :
  get b "event" = Normal event -> get b "data" = Normal data ->
  destructure_event_data b = Normal (event, data).
Proof.
  intros He Hd. destruct b; try discriminate; unfold destructure_event_data;
    rewrite He, Hd; reflexivity.
Qed.

Lemma signature_verified_inv (env : Env) (req : Request) :
  signature_verified env req = true ->
  exists h, hmac_sha256_hex env (FLUTTERWAVE_WEBHOOK_HASH env) (JSON_stringify env (body req))
            = Normal h
            /\ strict_eq_opt h (verif_hash req) = true.
Proof.
  unfold signature_verified. destruct (hmac_sha256_hex _ _ _) as [h|]; [|discriminate].
  intros H. exists h. split; [reflexivity|assumption].
Qed.

Lemma field2_is_inv (v : JsValue) (a k s : string) :
  field2_is v a k s = true ->
  exists x y, get v a = Normal x /\ get x k = Normal y /\ strict_eq_str y s = true.
Proof.
  unfold field2_is, get2. destruct (get v a) as [x|]; simpl; [|discriminate].
  destruct (get x k) as [y|] eqn:Hy; [|discriminate].
  intros H. exists x, y. repeat split; assumption.
Qed.

Lemma event_succeeded_inv (b : JsValue) :
  event_succeeded b = true ->
  exists event data s,
    get b "event" = Normal event /\ strict_eq_str event "charge.completed" = true
    /\ get b "data" = Normal data
    /\ get data "status" = Normal s /\ strict_eq_str s "successful" = true.
Proof.
  unfold event_succeeded. intros [H1 H2]%andb_true_iff.
  apply field2_is_inv in H2 as (data & s & Hd & Hs & Hss).
  unfold field_is in H1. destruct (get b "event") as [event|] eqn:He; [|discriminate].
  exists event, data, s. repeat split; assumption.
Qed.

Lemma verification_succeeded_inv (v : JsValue) :
  verification_succeeded v = true ->
  exists s t,
    get v "status" = Normal s /\ strict_eq_str s "success" = true
    /\ get2 v "data" "status" = Normal t /\ strict_eq_str t "successful" = true.
Proof.
  unfold verification_succeeded, field_is, field2_is. intros [H1 H2]%andb_true_iff.
  destruct (get v "status") as [s|] eqn:Hs; [|discriminate].
  destruct (get2 v "data" "status") as [t|] eqn:Ht; [|discriminate].
  exists s, t. repeat split; assumption.
Qed.

(** Step 2: a signature that does not match. *)
Lemma process_unauthorized (env : Env) (req : Request) (w : World) (h : string) :
  hmac_sha256_hex env (FLUTTERWAVE_WEBHOOK_HASH env) (JSON_stringify env (body req)) = Normal h ->
  strict_eq_opt h (verif_hash req) = false ->
  process env req w
  = (Normal (json_response 401 (JObj [("error", JStr "Invalid signature")])), w).
Proof.
  intros Hh Hsig. unfold process, bind, lift, ret. now rewrite Hh, Hsig.
Qed.


Lemma provider_reply_inv (env : Env) (req : Request) (c : Completion JsValue) :
  provider_reply env req = c ->
  (exists e, verification_request (body req) = Throw e /\ c = Throw e)
  \/ exists id url,
       get2 (body req) "data" "id" = Normal id
       /\ verify_url id = Normal url
       /\ fetch_json env url (verify_authorization env) = c.
Proof.
  unfold provider_reply, verification_request. intros <-.
  destruct (get2 (body req) "data" "id") as [id|e]; simpl; [|left; eauto].
  destruct (verify_url id) as [url|e] eqn:Hurl; simpl; [right; eauto|left; eauto].
Qed.

Lemma provider_reply_normal (env : Env) (req : Request) (v : JsValue) :
  provider_reply env req = Normal v ->
  exists id url,
    get2 (body req) "data" "id" = Normal id
    /\ verify_url id = Normal url
    /\ fetch_json env url (verify_authorization env) = Normal v.
Proof.
  intros [(e & _ & [=])|H]%provider_reply_inv. exact H.
Qed.

Lemma reverified_inv (env : Env) (req : Request) :
  reverified env req = true ->
  exists v, provider_reply env req = Normal v /\ verification_succeeded v = true.
Proof.
  unfold reverified. destruct (provider_reply env req) as [v|]; [eauto|discriminate].
Qed.


(** Step 5: no identifier in the transaction reference. *)
Lemma process_bad_reference (env : Env) (req : Request) (w : World)
      (id tx : JsValue) (url : string) (o : option string) :
  signature_verified env req = true ->
  event_succeeded (body req) = true ->
  reverified env req = true ->
  get2 (body req) "data" "id" = Normal id ->
  verify_url id = Normal url ->
  get2 (body req) "data" "tx_ref" = Normal tx ->
  parseTransactionRef tx = Normal o ->
  falsy o = true ->
  process env req w
  = (Normal (json_response 400 (JObj [("error", JStr "Invalid transaction reference")])),
     fetched env url w).
Proof.
  intros (h & Hh & Hsig)%signature_verified_inv
         (event & data & st & Hevent & Hcharge & Hdata & Hst & Hsucc)%event_succeeded_inv
         Hrv Hid Hurl Htx Hparse Hfalsy.
  unfold reverified, provider_reply, verification_request in Hrv.
  rewrite Hid in Hrv; simpl in Hrv. rewrite Hurl in Hrv; simpl in Hrv.
  destruct (fetch_json env url (verify_authorization env)) as [v|] eqn:Hv;
    [|discriminate].
  apply verification_succeeded_inv in Hrv as (s & t & Hs & Hss & Ht & Hts).
  unfold get2 in Hid, Htx. rewrite Hdata in Hid, Htx; simpl in Hid, Htx.
  unfold process, bind, lift, ret. rewrite Hh, Hsig; simpl.
  rewrite (destructure_event_data_gets _ _ _ Hevent Hdata); simpl.
  rewrite Hcharge; simpl. rewrite Hst; simpl. rewrite Hsucc; simpl.
  rewrite Hid. rewrite (verifyFlutterwavePayment_run _ _ _ _ Hurl), Hv. rewrite Hs; simpl.
  rewrite Hss; simpl. rewrite Ht; simpl. rewrite Hts; simpl.
  rewrite Htx. rewrite Hparse. now rewrite Hfalsy.
Qed.

(** Step 1 and the catch clause. *)
Lemma handler_not_post (env : Env) (req : Request) (w : World) :
  String.eqb (method req) "POST" = false ->
  handler env req w
  = (Normal (json_response 405 (JObj [("error", JStr "Method not allowed")])), w).
Proof. intros H. unfold handler. now rewrite H. Qed.

Lemma handler_post_normal (env : Env) (req : Request) (w w' : World) (r : Response) :
  method req = "POST" ->
  process env req w = (Normal r, w') ->
  handler env req w = (Normal r, w').
Proof.
  intros Hm Hp. unfold handler. rewrite Hm, String.eqb_refl. cbn [negb].
  unfold try_catch. now rewrite Hp.
Qed.

Lemma handler_worlds (env : Env) (req : Request) (w : World) :
  snd (handler env req w) = w
  \/ (method req = "POST" /\ snd (handler env req w) = snd (process env req w)).
Proof.
  unfold handler. destruct (String.eqb_spec (method req) "POST") as [Hm|Hm]; simpl.
  - right. split; [exact Hm|]. unfold try_catch, ret.
    destruct (process env req w) as [[r|e] w']; reflexivity.
  - now left.
Qed.

(** *** split *)

Lemma split_not_nil (sep : ascii) (s : string) : split sep s <> [].
Proof.
  induction s as [|c s IH]; simpl; [discriminate|].
  destruct (Ascii.eqb c sep); [discriminate|].
  destruct (split sep s); [contradiction|discriminate].
Qed.

Lemma split_cons_other (sep c : ascii) (s : string) :
  Ascii.eqb c sep = false ->
  exists seg segs, split sep s = seg :: segs /\ split sep (String c s) = String c seg :: segs.
Proof.
  intros Hc. simpl. rewrite Hc.
  destruct (split sep s) as [|seg segs] eqn:Hs; [now apply split_not_nil in Hs|].
  eauto.
Qed.

(** Splitting after a prefix that has no separator. *)
Lemma split_prefix (sep : ascii) (a b : string) :
  contains sep a = false ->
  split sep (a +:+ String sep b) = a :: split sep b.
Proof.
  induction a as [|c a IH]; intros Ha.
  - rewrite app_empty_l. simpl. now rewrite Ascii.eqb_refl.
  - simpl in Ha. apply orb_false_iff in Ha as [Hc Ha].
    rewrite app_cons. simpl. rewrite Hc, (IH Ha). reflexivity.
Qed.

Lemma split_segments (sep : ascii) (s : string) :
  Forall (fun seg => contains sep seg = false) (split sep s).
Proof.
  induction s as [|c s IH]; simpl.
  - repeat constructor.
  - destruct (Ascii.eqb c sep) eqn:Hc.
    + constructor; [reflexivity|exact IH].
    + destruct (split sep s) as [|seg segs]; [repeat constructor; simpl; now rewrite Hc|].
      inversion IH; subst. constructor; [simpl; now rewrite Hc|assumption].
Qed.

(** Joining the segments gives the string back. *)
Lemma join_split (sep : ascii) (s : string) :
  join (String sep "") (split sep s) = s.
Proof.
  induction s as [|c s IH]; [reflexivity|]. simpl.
  destruct (Ascii.eqb_spec c sep) as [->|Hc].
  - destruct (split sep s) as [|seg segs] eqn:Hs; [now apply split_not_nil in Hs|].
    cbn [join]. rewrite app_empty_l. cbn [join] in IH. rewrite IH. reflexivity.
  - destruct (split sep s) as [|seg segs] eqn:Hs; [now apply split_not_nil in Hs|].
    destruct segs as [|seg' segs]; cbn [join] in *.
    + now rewrite IH.
    + rewrite app_cons, IH. reflexivity.
Qed.

(** *** parseTransactionRef *)

Lemma parseTransactionRef_string (s : string) :
  parseTransactionRef (JStr s)
  = Normal (if has_boost_shape s then Some (nth 1 (split "_" s) "") else None).
Proof.
  unfold parseTransactionRef, has_boost_shape.
  destruct ((3 <=? length (split "_" s))%nat && String.eqb (nth 0 (split "_" s) "") "boost");
    reflexivity.
Qed.

(** The references that give an identifier are those of the form
    boost_<id>_<rest>, where <id> has no underscore. *)
Lemma parseTransactionRef_shape (s id : string) :
  parseTransactionRef (JStr s) = Normal (Some id)
  <-> exists rest, contains "_" id = false /\ s = "boost_" +:+ id +:+ "_" +:+ rest.
Proof.
  rewrite parseTransactionRef_string. unfold has_boost_shape. split.
  - pose proof (join_split "_" s) as Hjoin. pose proof (split_segments "_" s) as Hsegs.
    destruct (split "_" s) as [|p0 [|p1 [|p2 l]]]; simpl; try discriminate.
    destruct (String.eqb_spec p0 "boost") as [->|]; [|discriminate].
    intros [= <-]. exists (join "_" (p2 :: l)). split.
    + inversion Hsegs as [|? ? _ Hrest]; subst. now inversion Hrest.
    + rewrite <- Hjoin. cbn [join]. reflexivity.
  - intros (rest & Hid & ->).
    change ("boost_" +:+ id +:+ "_" +:+ rest)
      with ("boost" +:+ String "_" (id +:+ String "_" rest)).
    rewrite split_prefix by reflexivity. rewrite split_prefix by assumption.
    destruct (split "_" rest) as [|seg segs] eqn:Hs; [now apply split_not_nil in Hs|].
    reflexivity.
Qed.

(** *** What a run leaves behind *)

Lemma writes_trace (w w' : World) : trace w' = trace w -> writes w' = writes w.
Proof. unfold writes. now intros ->. Qed.

Lemma writes_fetched (env : Env) (url : string) (w : World) :
  writes (fetched env url w) = writes w.
Proof. reflexivity. Qed.

Lemma cons_neq_self {A} (x : A) (l : list A) : l <> x :: l.
Proof.
  intros H. apply (f_equal (@length A)) in H. simpl in H. lia.
Qed.

Lemma handler_post (env : Env) (req : Request) (w : World) :
  method req = "POST" ->
  handler env req w
  = match process env req w with
    | (Normal r, w') => (Normal r, w')
    | (Throw e, w') =>
        (Normal (json_response 500 (JObj [("error", JStr "Internal server error");
                                          ("message", JStr (error_message e))])), w')
    end.
Proof.
  intros Hpost. unfold handler. rewrite Hpost, String.eqb_refl. reflexivity.
Qed.

Lemma handler_post_throw (env : Env) (req : Request) (w w' : World) (e : JsError) :
  method req = "POST" ->
  process env req w = (Throw e, w') ->
  handler env req w = (Normal (internal_error e), w').
Proof.
  intros Hpost Hp. rewrite (handler_post env req w Hpost), Hp. reflexivity.
Qed.

(** A run of the handler either writes nothing, or went through all the
    steps: then the four conditions hold, and the record written is the one
    built from the verification response. *)
Lemma handler_run (env : Env) (req : Request) (w : World) :
  (firestore (snd (handler env req w)) = firestore w
   /\ writes (snd (handler env req w)) = writes w)
  \/ (method req = "POST" /\ all_four env req = true /\
      exists v id url eventId code d,
        get2 (body req) "data" "id" = Normal id
        /\ verify_url id = Normal url
        /\ provider_reply env req = Normal v
        /\ recovered_identifier (body req) = Some eventId
        /\ fst (generateAdCode env (fetched env url w)) = Normal code
        /\ packageData code (clock env (clock_reads w)) (clock env (S (clock_reads w))) v
           = Normal d
        /\ firestore_error env (doc_path eventId d) d = None
        /\ fst (handler env req w) = Normal (success_response eventId d (totalAmountPaid d))
        /\ firestore (snd (handler env req w)) = <[doc_path eventId d := d]> (firestore w)
        /\ writes (snd (handler env req w)) = (doc_path eventId d, d) :: writes w).
Proof.
  destruct (handler_worlds env req w) as [->|[Hpost Hw]]; [now left|].
  rewrite (handler_post env req w Hpost).
  destruct (process_cases env req w) as
    [[_ (r & Hp)]|[[_ (r & id & url & _ & _ & Hp)]
                  |[Hall (v & id & url & eventId & Hid & Hurl & Hv & Hrec & Hp)]]].
  - left. rewrite Hp. destruct r; auto.
  - left. rewrite Hp. destruct r; auto.
  - rewrite Hp.
    destruct (create_package_spec env v eventId (fetched env url w)) as (code & Hcode & Hspec).
    change (clock_reads (fetched env url w)) with (clock_reads w) in Hspec.
    destruct (packageData code (clock env (clock_reads w)) (clock env (S (clock_reads w))) v)
      as [d|e] eqn:Hd.
    + destruct (firestore_error env (doc_path eventId d) d) as [e|] eqn:Hfs.
      * left. destruct Hspec as (w' & -> & Hf & Ht). simpl. split; [exact Hf|].
        now rewrite (writes_trace _ _ Ht).
      * right. split; [exact Hpost|]. split; [exact Hall|].
        destruct Hspec as (w' & -> & Hf & Ht).
        exists v, id, url, eventId, code, d. simpl. repeat split; auto.
        unfold writes. rewrite Ht. reflexivity.
    + left. destruct Hspec as (w' & -> & Hf & Ht). simpl. split; [exact Hf|].
      now rewrite (writes_trace _ _ Ht).
Qed.

Lemma handler_write_inv (env : Env) (req : Request) (w : World) (path : string) (d : AdPackage) :
  writes (snd (handler env req w)) = (path, d) :: writes w ->
  method req = "POST" /\ all_four env req = true /\
  exists v id url eventId code,
    get2 (body req) "data" "id" = Normal id
    /\ verify_url id = Normal url
    /\ provider_reply env req = Normal v
    /\ recovered_identifier (body req) = Some eventId
    /\ fst (generateAdCode env (fetched env url w)) = Normal code
    /\ packageData code (clock env (clock_reads w)) (clock env (S (clock_reads w))) v = Normal d
    /\ path = doc_path eventId d
    /\ fst (handler env req w) = Normal (success_response eventId d (totalAmountPaid d))
    /\ firestore (snd (handler env req w)) = <[path := d]> (firestore w).
Proof.
  intros Hw.
  destruct (handler_run env req w) as
    [[_ Hsame]|(Hpost & Hall & v & id & url & eventId & code & d'
                & H1 & H0 & H2 & H3 & H4 & H5 & H6 & H7 & H8 & H9)].
  - rewrite Hsame in Hw. now apply cons_neq_self in Hw.
  - rewrite H9 in Hw. injection Hw as <- <-.
    split; [exact Hpost|]. split; [exact Hall|].
    exists v, id, url, eventId, code. repeat split; auto.
Qed.

(** ** The behaviour of the handler *)

Lemma strict_eq_str_false (v : JsValue) (s : string) :
  v <> JStr s -> strict_eq_str v s = false.
Proof.
  intros Hv. destruct v; try reflexivity. simpl.
  destruct (String.eqb_spec s0 s) as [->|]; [contradiction|reflexivity].
Qed.

Lemma strict_eq_opt_false (h : string) (o : option string) :
  o <> Some h -> strict_eq_opt h o = false.
Proof.
  intros Ho. destruct o as [t|]; [|reflexivity]. simpl.
  destruct (String.eqb_spec h t) as [->|]; [contradiction|reflexivity].
Qed.

Lemma verification_calls_fetched (env : Env) (url : string) (w : World) :
  verification_calls (fetched env url w)
  = (url, verify_authorization env) :: verification_calls w.
Proof. reflexivity. Qed.

(** C1.  A record is persisted only if the four conditions hold: (a) the
    signature verified, (b) the event type and the nested status indicate
    success, (c) the provider-side re-verification indicates success, (d) a
    non-empty identifier was recovered from the transaction reference.  For
    every request, whatever its method, if any one of them fails the run
    writes no document and leaves Firestore as it was. *)
Theorem write_only_if_all_four (env : Env) (req : Request) (w : World) :
  signature_verified env req = false
  \/ event_succeeded (body req) = false
  \/ reverified env req = false
  \/ identifier_recovered (body req) = false ->
  firestore (snd (handler env req w)) = firestore w
  /\ writes (snd (handler env req w)) = writes w.
Proof.
  intros Hfail.
  destruct (handler_run env req w) as [Hsame|(_ & Hall & _)]; [exact Hsame|].
  unfold all_four in Hall. apply andb_true_iff in Hall as [Hall Hd].
  apply andb_true_iff in Hall as [Hall Hc]. apply andb_true_iff in Hall as [Ha Hb].
  destruct Hfail as [H|[H|[H|H]]]; congruence.
Qed.

Lemma write_only_if_all_four_witness :
  (signature_verified Sample.env Sample.forged = false
   \/ event_succeeded (body Sample.forged) = false
   \/ reverified Sample.env Sample.forged = false
   \/ identifier_recovered (body Sample.forged) = false)
  /\ firestore (snd (handler Sample.env Sample.forged Sample.empty_world))
     = firestore Sample.empty_world
  /\ writes (snd (handler Sample.env Sample.forged Sample.empty_world))
     = writes Sample.empty_world.
Proof.
  split.
  - left. vm_compute. reflexivity.
  - apply (write_only_if_all_four Sample.env Sample.forged Sample.empty_world).
    left. vm_compute. reflexivity.
Defined.

(** C2.  For every body and shared secret, if the hex HMAC-SHA256 of the
    serialized body under the secret is not exactly the value of the
    verif-hash header (absent headers included), the handler answers 401,
    makes no verification call and writes nothing, whatever the body
    contains.  The request is a POST: step 1 answers 405 to any other method
    before the signature is looked at. *)
Theorem invalid_signature_rejected
  (env : Env) (req : Request) (w : World) (secret text hash : string) :
  method req = "POST" ->
  FLUTTERWAVE_WEBHOOK_HASH env = Some secret ->
  JSON_stringify env (body req) = Some text ->
  hmac_sha256_hex env (Some secret) (Some text) = Normal hash ->
  verif_hash req <> Some hash ->
  fst (handler env req w)
  = Normal {| res_status := 401; res_json := JObj [("error", JStr "Invalid signature")] |}
  /\ verification_calls (snd (handler env req w)) = verification_calls w
  /\ writes (snd (handler env req w)) = writes w
  /\ firestore (snd (handler env req w)) = firestore w.
Proof.
  intros Hpost Hsecret Htext Hhash Hsig.
  rewrite <- Hsecret, <- Htext in Hhash.
  pose proof (process_unauthorized env req w hash Hhash (strict_eq_opt_false _ _ Hsig)) as Hp.
  rewrite (handler_post_normal env req w w _ Hpost Hp). repeat split.
Qed.

Lemma invalid_signature_rejected_witness :
  fst (handler Sample.env Sample.forged Sample.empty_world)
  = Normal {| res_status := 401; res_json := JObj [("error", JStr "Invalid signature")] |}
  /\ verification_calls (snd (handler Sample.env Sample.forged Sample.empty_world))
     = verification_calls Sample.empty_world
  /\ writes (snd (handler Sample.env Sample.forged Sample.empty_world))
     = writes Sample.empty_world
  /\ firestore (snd (handler Sample.env Sample.forged Sample.empty_world))
     = firestore Sample.empty_world.
Proof.
  apply (invalid_signature_rejected Sample.env Sample.forged Sample.empty_world
           "whsec_demo"
           (Sample.json_text (body Sample.forged))
           ("tag[whsec_demo](" +:+ Sample.json_text (body Sample.forged) +:+ ")")).
  - reflexivity.
  - reflexivity.
  - reflexivity.
  - reflexivity.
  - vm_compute. discriminate.
Defined.













(** C5.  Reference parsing.  The reference is split on "_"; with at least
    3 segments, the first being "boost", the identifier is the second
    segment; these references are those of the form boost_<id>_<rest>.  For
    a reference string of any other shape no identifier is recovered, and
    the handler, once at this step (a signed, successful, re-verified POST
    event), answers 400 and writes nothing. *)
Theorem reference_parsing :
  (forall s : string,
     parseTransactionRef (JStr s)
     = Normal (if (3 <=? length (split "_" s))%nat && String.eqb (nth 0 (split "_" s) "") "boost"
               then Some (nth 1 (split "_" s) "")
               else None))
  /\ (forall s id : string,
        parseTransactionRef (JStr s) = Normal (Some id)
        <-> exists rest, contains "_" id = false /\ s = "boost_" +:+ id +:+ "_" +:+ rest)
  /\ (forall (env : Env) (req : Request) (w : World) (s : string),
        method req = "POST" ->
        signature_verified env req = true ->
        event_succeeded (body req) = true ->
        reverified env req = true ->
        get2 (body req) "data" "tx_ref" = Normal (JStr s) ->
        ~ ((3 <= length (split "_" s))%nat /\ nth 0 (split "_" s) "" = "boost") ->
        parseTransactionRef (JStr s) = Normal None
        /\ fst (handler env req w)
           = Normal {| res_status := 400;
                       res_json := JObj [("error", JStr "Invalid transaction reference")] |}
        /\ writes (snd (handler env req w)) = writes w
        /\ firestore (snd (handler env req w)) = firestore w).
Proof.
  split; [exact parseTransactionRef_string|].
  split; [exact parseTransactionRef_shape|].
  intros env req w s Hpost Hsv Hes Hrv Htx Hshape.
  assert (Hparse : parseTransactionRef (JStr s) = Normal None).
  { rewrite parseTransactionRef_string. unfold has_boost_shape.
    destruct (Nat.leb_spec 3 (length (split "_" s))) as [Hlen|Hlen]; [|reflexivity].
    destruct (String.eqb_spec (nth 0 (split "_" s) "") "boost") as [Hb|Hb]; [|reflexivity].
    exfalso. apply Hshape. auto. }
  split; [exact Hparse|].
  destruct (reverified_inv _ _ Hrv) as (v & Hreply & _).
  destruct (provider_reply_normal _ _ _ Hreply) as (id & url & Hid & Hurl & _).
  pose proof (process_bad_reference env req w id (JStr s) url None Hsv Hes Hrv Hid Hurl Htx
                Hparse eq_refl) as Hp.
  rewrite (handler_post_normal env req w _ _ Hpost Hp). repeat split.
Qed.

Lemma reference_parsing_witness :
  parseTransactionRef (JStr "evt123_1699999999") = Normal None
  /\ fst (handler Sample.env Sample.misreferenced_charge Sample.empty_world)
     = Normal {| res_status := 400;
                 res_json := JObj [("error", JStr "Invalid transaction reference")] |}
  /\ writes (snd (handler Sample.env Sample.misreferenced_charge Sample.empty_world))
     = writes Sample.empty_world
  /\ firestore (snd (handler Sample.env Sample.misreferenced_charge Sample.empty_world))
     = firestore Sample.empty_world.
Proof.
  apply (proj2 (proj2 reference_parsing) Sample.env Sample.misreferenced_charge Sample.empty_world
           "evt123_1699999999").
  - reflexivity.
  - vm_compute. reflexivity.
  - vm_compute. reflexivity.
  - vm_compute. reflexivity.
  - reflexivity.
  - vm_compute. intros [Hlen _]. lia.
Defined.

(** C10.  A reference whose second segment is empty, such as
    "boost__1699999999": although it has at least 3 segments and starts
    with "boost", the parser returns the empty string, which the handler
    takes for no identifier; it answers 400 and writes nothing. *)
Theorem empty_identifier_rejected
  (env : Env) (req : Request) (w : World) (s : string) :
  method req = "POST" ->
  signature_verified env req = true ->
  event_succeeded (body req) = true ->
  reverified env req = true ->
  get2 (body req) "data" "tx_ref" = Normal (JStr s) ->
  (3 <= length (split "_" s))%nat ->
  nth 0 (split "_" s) "" = "boost" ->
  nth 1 (split "_" s) "" = "" ->
  parseTransactionRef (JStr s) = Normal (Some "")
  /\ falsy (Some "") = true
  /\ fst (handler env req w)
     = Normal {| res_status := 400;
                 res_json := JObj [("error", JStr "Invalid transaction reference")] |}
  /\ writes (snd (handler env req w)) = writes w
  /\ firestore (snd (handler env req w)) = firestore w.
Proof.
  intros Hpost Hsv Hes Hrv Htx Hlen Hboost Hempty.
  assert (Hparse : parseTransactionRef (JStr s) = Normal (Some "")).
  { rewrite parseTransactionRef_string. unfold has_boost_shape.
    rewrite Hboost, Hempty. apply Nat.leb_le in Hlen. now rewrite Hlen. }
  split; [exact Hparse|]. split; [reflexivity|].
  destruct (reverified_inv _ _ Hrv) as (v & Hreply & _).
  destruct (provider_reply_normal _ _ _ Hreply) as (id & url & Hid & Hurl & _).
  pose proof (process_bad_reference env req w id (JStr s) url (Some "") Hsv Hes Hrv Hid Hurl
                Htx Hparse eq_refl) as Hp.
  rewrite (handler_post_normal env req w _ _ Hpost Hp). repeat split.
Qed.

Lemma empty_identifier_rejected_witness :
  parseTransactionRef (JStr "boost__1699999999") = Normal (Some "")
  /\ falsy (Some "") = true
  /\ fst (handler Sample.env Sample.unnamed_charge Sample.empty_world)
     = Normal {| res_status := 400;
                 res_json := JObj [("error", JStr "Invalid transaction reference")] |}
  /\ writes (snd (handler Sample.env Sample.unnamed_charge Sample.empty_world))
     = writes Sample.empty_world
  /\ firestore (snd (handler Sample.env Sample.unnamed_charge Sample.empty_world))
     = firestore Sample.empty_world.
Proof.
  apply (empty_identifier_rejected Sample.env Sample.unnamed_charge Sample.empty_world
           "boost__1699999999").
  - reflexivity.
  - vm_compute. reflexivity.
  - vm_compute. reflexivity.
  - vm_compute. reflexivity.
  - reflexivity.
  - vm_compute. lia.
  - reflexivity.
  - reflexivity.
Defined.

Lemma sample_random_valid (k : nat) : is_unit_double (random Sample.env k) = true.
Proof.
  unfold Sample.env; cbn [random]. generalize (k mod 11)%nat. intros n.
  do 11 (destruct n as [|n]; [reflexivity|]). destruct n; reflexivity.
Qed.

(** C6.  Every generated ad code is "AD" followed by 11 characters of
    [A-Z0-9], 13 characters in all.  [Math.random()] returns doubles of the
    unit interval. *)
Theorem ad_code_pattern (env : Env) (w : World) :
  (forall k, is_unit_double (random env k) = true) ->
  exists code,
    fst (generateAdCode env w) = Normal code
    /\ matches_ad_code code = true
    /\ String.length code = 13%nat.
Proof.
  intros Hrandom.
  destruct (generateAdCode_loop_pattern env 11 "AD" w Hrandom) as (suffix & Hrun & Hlen & Hall).
  exists ("AD" +:+ suffix). unfold generateAdCode. rewrite Hrun. split; [reflexivity|].
  rewrite !app_cons, app_empty_l. simpl. rewrite Hlen, Hall. split; reflexivity.
Qed.

Lemma ad_code_pattern_witness :
  (forall k, is_unit_double (random Sample.env k) = true)
  /\ exists code,
       fst (generateAdCode Sample.env Sample.empty_world) = Normal code
       /\ matches_ad_code code = true
       /\ String.length code = 13%nat.
Proof.
  split.
  - exact sample_random_valid.
  - apply (ad_code_pattern Sample.env Sample.empty_world). exact sample_random_valid.
Defined.

Lemma generateAdCode_loop_picks (env : Env) (n : nat) (result : string) (w : World) :
  generateAdCode_loop env n result w
  = (Normal (result +:+ picks env (random_draws w) n), drawn w n).
Proof.
  revert result w. induction n as [|n IH]; intros result w.
  - simpl. rewrite app_empty_r. destruct w; reflexivity.
  - cbn [generateAdCode_loop picks]. unfold bind, Math_random. rewrite IH.
    rewrite app_assoc_str. cbn [random_draws]. fold (pick (random env (random_draws w))).
    f_equal. unfold drawn; simpl. f_equal. lia.
Qed.

Lemma chars_index (i : Z) :
  (0 <= i < 36)%Z -> String.index 0 (charAt chars i) chars = Some (Z.to_nat i).
Proof.
  intros Hi.
  assert (Hall : forallb (fun k => match String.index 0 (charAt chars (Z.of_nat k)) chars with
                                   | Some n => Nat.eqb n k
                                   | None => false
                                   end) (seq 0 36) = true) by (vm_compute; reflexivity).
  rewrite forallb_forall in Hall. specialize (Hall (Z.to_nat i)).
  rewrite Z2Nat.id in Hall by lia.
  destruct (String.index 0 (charAt chars i) chars) as [n|].
  - f_equal. apply Nat.eqb_eq. apply Hall. apply in_seq. lia.
  - discriminate Hall. apply in_seq. lia.
Qed.

Lemma charAt_chars_inj (i j : Z) :
  (0 <= i < 36)%Z -> (0 <= j < 36)%Z -> charAt chars i = charAt chars j -> i = j.
Proof.
  intros Hi Hj Heq. pose proof (chars_index i Hi) as H1. pose proof (chars_index j Hj) as H2.
  rewrite Heq in H1. rewrite H1 in H2. injection H2. lia.
Qed.

(** Every cell holds a double. *)
Lemma cell_inhabited (j : Z) :
  (0 <= j < 36)%Z ->
  exists d, is_unit_double d = true /\ floor_mul d 36 = j.
Proof.
  intros Hj. exists {| mant := j * 2 ^ 53 / 36 + 1; expo := 53 |}.
  assert (Hm : (36 * (j * 2 ^ 53 / 36) <= j * 2 ^ 53 < 36 * (j * 2 ^ 53 / 36) + 36)%Z).
  { pose proof (Z.mul_div_le (j * 2 ^ 53) 36 ltac:(lia)).
    pose proof (Z.mul_succ_div_gt (j * 2 ^ 53) 36 ltac:(lia)). lia. }
  assert (Hd : is_unit_double {| mant := j * 2 ^ 53 / 36 + 1; expo := 53 |} = true).
  { unfold is_unit_double; simpl. lia. }
  split; [exact Hd|].
  apply (proj1 (floor_mul_cell _ j Hd)). simpl. lia.
Qed.

(** C7, as stated: the random characters are drawn from an alphabet of 37
    symbols.  The alphabet of generateAdCode does not have 37 symbols. *)
Lemma alphabet_is_not_37_symbols : String.length chars <> 37%nat.
Proof. vm_compute. discriminate. Qed.

(** C7, amended.  The 11 random characters of a generated ad code are
    drawn uniformly from the alphabet A-Z, 0-9, an alphabet of 36 distinct
    symbols: each character is picked by its own draw, every symbol can be
    picked, and the symbol of index [j] is picked exactly by the draws of
    the cell [j/36, (j+1)/36) of the unit interval, 36 cells of equal width,
    up to the rounding of the product at the lower edge of a cell (32 units
    of a numerator of at least 2^53). *)
Theorem random_characters_uniform_over_36 (env : Env) (w : World) :
  String.length chars = 36%nat
  /\ NoDup (list_ascii_of_string chars)
  /\ fst (generateAdCode env w) = Normal ("AD" +:+ picks env (random_draws w) 11)
  /\ (forall j : Z, (0 <= j < 36)%Z ->
        exists d, is_unit_double d = true /\ pick d = charAt chars j)
  /\ (forall (d : UnitDouble) (j : Z),
        is_unit_double d = true -> (0 <= j < 36)%Z ->
        ((j * 2 ^ expo d <= 36 * mant d /\ 36 * mant d + 32 < (j + 1) * 2 ^ expo d)%Z ->
         pick d = charAt chars j)
        /\ (pick d = charAt chars j ->
            (j * 2 ^ expo d - 32 <= 36 * mant d /\ 36 * mant d < (j + 1) * 2 ^ expo d)%Z)).
Proof.
  split; [reflexivity|]. split.
  { apply (bool_decide_unpack _). vm_compute. exact I. }
  split.
  { unfold generateAdCode. now rewrite generateAdCode_loop_picks. }
  split.
  - intros j Hj. destruct (cell_inhabited j Hj) as (d & Hd & Hfloor).
    exists d. split; [exact Hd|]. unfold pick.
    change (Z.of_nat (String.length chars)) with 36%Z. now rewrite Hfloor.
  - intros d j Hd Hj. unfold pick. change (Z.of_nat (String.length chars)) with 36%Z.
    destruct (floor_mul_cell d j Hd) as [Hin Hout]. split.
    + intros Hcell. now rewrite (Hin Hcell).
    + intros Hpick. apply Hout.
      apply charAt_chars_inj; [now apply floor_mul_range|exact Hj|exact Hpick].
Qed.

Lemma toISOString_valid (t : Z) (s : string) :
  toISOString t = Normal s -> valid_time t = true.
Proof.
  unfold toISOString. destruct (valid_time t); [reflexivity|discriminate].
Qed.

(** C8.  For every creation instant T at which a record is written, its
    [createdAt] is the ISO text of T and its [expiresAt] the ISO text of
    T + 7 days, that is T + 604800 seconds, in milliseconds: read back,
    the two timestamps denote exactly T and T + 604800000.  The sum is a
    safe integer, so the addition on doubles is exact. *)
Theorem expiry_is_creation_plus_seven_days
  (env : Env) (req : Request) (w : World) (path : string) (d : AdPackage) :
  writes (snd (handler env req w)) = (path, d) :: writes w ->
  let T := clock env (clock_reads w) in
  toISOString T = Normal (createdAt d)
  /\ toISOString (T + 604800 * 1000) = Normal (expiresAt d)
  /\ instant_of_iso (createdAt d) = Some T
  /\ instant_of_iso (expiresAt d) = Some (T + 604800 * 1000)%Z
  /\ (- 2 ^ 53 < T + 604800 * 1000 < 2 ^ 53)%Z.
Proof.
  intros Hw T.
  destruct (handler_write_inv env req w path d Hw)
    as (_ & _ & v & id & url & eventId & code & _ & _ & _ & _ & _ & Hd & _).
  destruct (packageData_inv _ _ _ _ _ Hd) as (Hcreated & Hexpires & _).
  change (7 * 24 * 60 * 60 * 1000)%Z with (604800 * 1000)%Z in Hexpires.
  split; [exact Hcreated|]. split; [exact Hexpires|].
  split; [now apply instant_of_toISOString|].
  split; [now apply instant_of_toISOString|].
  apply toISOString_valid in Hexpires. unfold valid_time, max_time_value in Hexpires.
  fold T in Hexpires. lia.
Qed.

Lemma sample_charge_writes :
  writes (snd (handler Sample.env Sample.charge Sample.empty_world))
  = (Sample.expected_path, Sample.expected_package) :: writes Sample.empty_world.
Proof. vm_compute. reflexivity. Qed.

Lemma expiry_is_creation_plus_seven_days_witness :
  writes (snd (handler Sample.env Sample.charge Sample.empty_world))
  = (Sample.expected_path, Sample.expected_package) :: writes Sample.empty_world
  /\ toISOString 1699999999000 = Normal "2023-11-14T22:13:19.000Z"
  /\ toISOString (1699999999000 + 604800 * 1000) = Normal "2023-11-21T22:13:19.000Z"
  /\ instant_of_iso "2023-11-14T22:13:19.000Z" = Some 1699999999000%Z
  /\ instant_of_iso "2023-11-21T22:13:19.000Z" = Some (1699999999000 + 604800 * 1000)%Z
  /\ (- 2 ^ 53 < 1699999999000 + 604800 * 1000 < 2 ^ 53)%Z.
Proof.
  split; [vm_compute; reflexivity|].
  apply (expiry_is_creation_plus_seven_days Sample.env Sample.charge Sample.empty_world
           Sample.expected_path Sample.expected_package).
  vm_compute. reflexivity.
Defined.

Lemma get2_data_agree (b1 b2 : JsValue) (k : string) :
  differ_only_in_payment_fields b1 b2 -> payment_field k = false ->
  get2 b1 "data" k = get2 b2 "data" k.
Proof.
  intros (_ & d1 & d2 & H1 & H2 & Hk) Hpay. unfold get2. rewrite H1, H2. simpl. now apply Hk.
Qed.

(** C9.  The payment fields of the record (amount, currency, customer
    email and name, payment id, flw_ref, payment_type, tx_ref) and the
    amount of the success response are those of the provider's verification
    response, never those of the inbound event: two requests that differ
    only in the amount, currency and customer of the inbound data and that
    get the same verification response lead to records that are identical
    apart from the generated code, the package id and the timestamps, and
    to success responses with the same amount and event id.  (A run that
    writes is a run on a signed request, by C1.) *)
Theorem payment_fields_come_from_verification
  (env1 env2 : Env) (req1 req2 : Request) (w1 w2 : World)
  (path1 path2 : string) (d1 d2 : AdPackage) :
  differ_only_in_payment_fields (body req1) (body req2) ->
  provider_reply env1 req1 = provider_reply env2 req2 ->
  writes (snd (handler env1 req1 w1)) = (path1, d1) :: writes w1 ->
  writes (snd (handler env2 req2 w2)) = (path2, d2) :: writes w2 ->
  erase_generated d1 = erase_generated d2
  /\ exists v eventId,
       provider_reply env1 req1 = Normal v
       /\ get2 v "data" "amount" = Normal (totalAmountPaid d1)
       /\ get2 v "data" "currency" = Normal (currency d1)
       /\ get3 v "data" "customer" "email" = Normal (customerEmail d1)
       /\ get3 v "data" "customer" "name" = Normal (customerName d1)
       /\ get2 v "data" "id" = Normal (paymentId d1)
       /\ get2 v "data" "flw_ref" = Normal (flwRef (flutterwaveData d1))
       /\ get2 v "data" "payment_type" = Normal (paymentType (flutterwaveData d1))
       /\ get2 v "data" "tx_ref" = Normal (txRef (flutterwaveData d1))
       /\ fst (handler env1 req1 w1) = Normal (success_response eventId d1 (totalAmountPaid d1))
       /\ fst (handler env2 req2 w2) = Normal (success_response eventId d2 (totalAmountPaid d1)).
Proof.
  intros Hdiff Hreply Hw1 Hw2.
  destruct (handler_write_inv env1 req1 w1 path1 d1 Hw1)
    as (_ & _ & v1 & id1 & url1 & e1 & c1 & _ & _ & Hv1 & He1 & _ & Hd1 & _ & Hr1 & _).
  destruct (handler_write_inv env2 req2 w2 path2 d2 Hw2)
    as (_ & _ & v2 & id2 & url2 & e2 & c2 & _ & _ & Hv2 & He2 & _ & Hd2 & _ & Hr2 & _).
  rewrite Hreply, Hv2 in Hv1. injection Hv1 as <-.
  assert (He : e1 = e2).
  { unfold recovered_identifier in He1, He2.
    rewrite (get2_data_agree _ _ "tx_ref" Hdiff eq_refl) in He1. congruence. }
  subst e2.
  pose proof (packageData_erase _ _ _ _ _ _ _ _ _ Hd1 Hd2) as Herase.
  split; [exact Herase|].
  destruct (packageData_inv _ _ _ _ _ Hd1)
    as (_ & _ & _ & _ & _ & A & B & C & D & E & F & G & I).
  exists v2, e1. rewrite Hreply. repeat split; auto.
  rewrite Hr2. f_equal. f_equal.
  change (totalAmountPaid d2) with (totalAmountPaid (erase_generated d2)).
  rewrite <- Herase. reflexivity.
Qed.

Lemma sample_bodies_differ_only_in_payment_fields :
  differ_only_in_payment_fields (body Sample.charge) (body Sample.inflated_charge).
Proof.
  unfold Sample.charge, Sample.inflated_charge, Sample.signed, Sample.inbound.
  split.
  - intros k Hk. cbn [body get lookup_field].
    destruct (String.eqb_spec "event" k); [reflexivity|].
    destruct (String.eqb_spec "data" k); [congruence|reflexivity].
  - exists Sample.paid_data, Sample.inflated_data.
    split; [reflexivity|]. split; [reflexivity|].
    intros k Hk. unfold payment_field in Hk.
    unfold Sample.paid_data, Sample.inflated_data, Sample.event_data. cbn [get lookup_field].
    destruct (String.eqb_spec "id" k); [reflexivity|].
    destruct (String.eqb_spec "tx_ref" k); [reflexivity|].
    destruct (String.eqb_spec "amount" k) as [<-|]; [discriminate|].
    destruct (String.eqb_spec "currency" k) as [<-|]; [discriminate|].
    destruct (String.eqb_spec "status" k); [reflexivity|].
    destruct (String.eqb_spec "customer" k) as [<-|]; [discriminate|].
    reflexivity.
Qed.

Lemma payment_fields_come_from_verification_witness :
  erase_generated Sample.expected_package = erase_generated Sample.later_package
  /\ exists v eventId,
       provider_reply Sample.env Sample.charge = Normal v
       /\ get2 v "data" "amount" = Normal (totalAmountPaid Sample.expected_package)
       /\ get2 v "data" "currency" = Normal (currency Sample.expected_package)
       /\ get3 v "data" "customer" "email" = Normal (customerEmail Sample.expected_package)
       /\ get3 v "data" "customer" "name" = Normal (customerName Sample.expected_package)
       /\ get2 v "data" "id" = Normal (paymentId Sample.expected_package)
       /\ get2 v "data" "flw_ref" = Normal (flwRef (flutterwaveData Sample.expected_package))
       /\ get2 v "data" "payment_type"
          = Normal (paymentType (flutterwaveData Sample.expected_package))
       /\ get2 v "data" "tx_ref" = Normal (txRef (flutterwaveData Sample.expected_package))
       /\ fst (handler Sample.env Sample.charge Sample.empty_world)
          = Normal (success_response eventId Sample.expected_package
                      (totalAmountPaid Sample.expected_package))
       /\ fst (handler Sample.env Sample.inflated_charge Sample.later_world)
          = Normal (success_response eventId Sample.later_package
                      (totalAmountPaid Sample.expected_package)).
Proof.
  apply (payment_fields_come_from_verification
           Sample.env Sample.env Sample.charge Sample.inflated_charge
           Sample.empty_world Sample.later_world Sample.expected_path Sample.later_path).
  - exact sample_bodies_differ_only_in_payment_fields.
  - vm_compute. reflexivity.
  - vm_compute. reflexivity.
  - vm_compute. reflexivity.
Defined.

Lemma get_defined_elsewhere (b x : JsValue) (k k' : string) :
  get b k = Normal x -> exists y, get b k' = Normal y.
Proof. destruct b; simpl; intros H; try discriminate; eauto. Qed.

(** With the same surroundings, two signed requests that differ only in
    the payment fields of the inbound event have the same outcome. *)
Lemma handler_ignores_inbound_payment_fields (env : Env) (req1 req2 : Request) (w : World) :
  method req1 = method req2 ->
  signature_verified env req1 = true ->
  signature_verified env req2 = true ->
  differ_only_in_payment_fields (body req1) (body req2) ->
  handler env req1 w = handler env req2 w.
Proof.
  intros Hm (h1 & Hh1 & Hs1)%signature_verified_inv (h2 & Hh2 & Hs2)%signature_verified_inv
         (Htop & d1 & d2 & Hd1 & Hd2 & Hfields).
  unfold handler. rewrite Hm. destruct (negb (String.eqb (method req2) "POST")); [reflexivity|].
  assert (Hp : process env req1 w = process env req2 w); [|unfold try_catch; now rewrite Hp].
  destruct (get_defined_elsewhere _ _ "data" "event" Hd1) as [event He1].
  assert (He2 : get (body req2) "event" = Normal event).
  { rewrite <- (Htop "event"); [exact He1|discriminate]. }
  unfold process, bind, lift, ret. rewrite Hh1, Hs1, Hh2, Hs2. simpl.
  rewrite (destructure_event_data_gets _ _ _ He1 Hd1).
  rewrite (destructure_event_data_gets _ _ _ He2 Hd2). simpl.
  rewrite (Hfields "status"), (Hfields "id"), (Hfields "tx_ref") by reflexivity.
  reflexivity.
Qed.

(** The code of a written record has the pattern of C6. *)
Lemma written_ad_code_pattern
  (env : Env) (req : Request) (w : World) (path : string) (d : AdPackage) :
  (forall k, is_unit_double (random env k) = true) ->
  writes (snd (handler env req w)) = (path, d) :: writes w ->
  matches_ad_code (adCode d) = true.
Proof.
  intros Hrandom Hw.
  destruct (handler_write_inv env req w path d Hw)
    as (_ & _ & v & id & url & eventId & code & _ & _ & _ & _ & Hcode & Hd & _).
  destruct (packageData_inv _ _ _ _ _ Hd) as (_ & _ & _ & _ & -> & _).
  destruct (generateAdCode_loop_pattern env 11 "AD" (fetched env url w) Hrandom)
    as (suffix & Hrun & Hlen & Hall).
  unfold generateAdCode in Hcode. rewrite Hrun in Hcode. injection Hcode as <-.
  rewrite !app_cons, app_empty_l. simpl. now rewrite Hlen, Hall.
Qed.

(** A run makes at most one verification call and at most one write, the
    write coming last. *)
Lemma handler_trace (env : Env) (req : Request) (w : World) :
  trace (snd (handler env req w)) = trace w
  \/ (exists u a, trace (snd (handler env req w)) = Fetch u a :: trace w)
  \/ (exists u a p d, trace (snd (handler env req w)) = DocSet p d :: Fetch u a :: trace w).
Proof.
  destruct (handler_worlds env req w) as [->|[Hpost Hw]]; [now left|].
  rewrite Hw.
  destruct (process_cases env req w) as
    [[_ (r & Hp)]|[[_ (r & id & url & _ & _ & Hp)]
                  |[_ (v & id & url & eventId & _ & _ & _ & _ & Hp)]]].
  - left. now rewrite Hp.
  - right; left. rewrite Hp. simpl. eauto.
  - rewrite Hp.
    destruct (create_package_spec env v eventId (fetched env url w)) as (code & _ & Hspec).
    destruct (packageData code _ _ v) as [d|e].
    + destruct (firestore_error env (doc_path eventId d) d) as [e|].
      * right; left. destruct Hspec as (w' & -> & _ & Ht). simpl. rewrite Ht. simpl. eauto.
      * right; right. destruct Hspec as (w' & -> & _ & Ht). simpl. rewrite Ht. simpl. eauto 6.
    + right; left. destruct Hspec as (w' & -> & _ & Ht). simpl. rewrite Ht. simpl. eauto.
Qed.

(** ** Concrete runs *)

(** The happy path: the transaction 42 is confirmed by the provider for
    5000 NGN; one document is written under physicalEvents/evt123, and the
    response names the event. *)
Example happy_path :
  handler Sample.env Sample.charge Sample.empty_world
  = (Normal (success_response "evt123" Sample.expected_package (JNum 5000)),
     {| firestore := {[ Sample.expected_path := Sample.expected_package ]};
        trace := [DocSet Sample.expected_path Sample.expected_package;
                  Fetch "https://api.flutterwave.com/v3/transactions/42/verify"
                    "Bearer FLWSECK_TEST-demo"];
        clock_reads := 2; random_draws := 11 |}).
Proof. vm_compute. reflexivity. Qed.

Example happy_path_code : matches_ad_code (adCode Sample.expected_package) = true.
Proof. reflexivity. Qed.

(** A request that is not a POST is answered 405, signed or not. *)
Example get_request_refused :
  handler Sample.env
    {| method := "GET"; verif_hash := verif_hash Sample.charge; body := body Sample.charge |}
    Sample.empty_world
  = (Normal {| res_status := 405; res_json := JObj [("error", JStr "Method not allowed")] |},
     Sample.empty_world).
Proof. reflexivity. Qed.

(** A body without [data] passes the signature check and then fails on
    [data.status]: the catch clause answers 500, and nothing is written. *)
Example event_without_data :
  handler Sample.env (Sample.signed (JObj [("event", JStr "charge.completed")]))
    Sample.empty_world
  = (Normal {| res_status := 500;
               res_json := JObj [("error", JStr "Internal server error");
                                 ("message",
                                  JStr "Cannot read properties of undefined (reading 'status')")] |},
     Sample.empty_world).
Proof. vm_compute. reflexivity. Qed.

(** Number::toString: all the digits up to 2^53, then the shortest digits
    that give the same double, in exponent notation from 1e21 on. *)
Example number_to_string_time : number_to_string 1699999999003 = "1699999999003".
Proof. vm_compute. reflexivity. Qed.

Example number_to_string_negative : number_to_string (-42) = "-42".
Proof. vm_compute. reflexivity. Qed.

Example number_to_string_rounded : number_to_string (2 ^ 60) = "1152921504606847000".
Proof. vm_compute. reflexivity. Qed.

Example number_to_string_exponent : number_to_string (10 ^ 21) = "1e+21".
Proof. vm_compute. reflexivity. Qed.

Example number_to_string_shortest : number_to_string (2 ^ 70) = "1.1805916207174113e+21".
Proof. vm_compute. reflexivity. Qed.

Example to_string_array :
  to_string (JArr [JNum 1; JNull; JArr [JStr "a"; JUndefined; JBool true]; JObj []])
  = Normal "1,,a,,true,[object Object]".
Proof. vm_compute. reflexivity. Qed.

Example to_string_hidden :
  to_string (JArr [JNum 1; JObj [("toString", JNum 1)]])
  = Throw (TypeError "Cannot convert object to primitive value").
Proof. vm_compute. reflexivity. Qed.

Example verify_url_large_id :
  verify_url (JNum (10 ^ 21))
  = Normal "https://api.flutterwave.com/v3/transactions/1e+21/verify".
Proof. vm_compute. reflexivity. Qed.

Example toISOString_epoch : toISOString 0 = Normal "1970-01-01T00:00:00.000Z".
Proof. reflexivity. Qed.

Example toISOString_leap_day : toISOString 951782400000 = Normal "2000-02-29T00:00:00.000Z".
Proof. reflexivity. Qed.

Example toISOString_latest : toISOString 8640000000000000 = Normal "+275760-09-13T00:00:00.000Z".
Proof. reflexivity. Qed.

Example toISOString_out_of_range :
  toISOString (8640000000000000 + 1) = Throw (RangeError "Invalid time value").
Proof. reflexivity. Qed.

Example split_reference :
  split "_" "boost_evt123_1699999999" = ["boost"; "evt123"; "1699999999"].
Proof. reflexivity. Qed.

Example split_empty_segment : split "_" "boost__1699999999" = ["boost"; ""; "1699999999"].
Proof. reflexivity. Qed.

Example largest_draw_stays_in_range :
  floor_mul {| mant := 2 ^ 53 - 1; expo := 53 |} 36 = 35%Z.
Proof. reflexivity. Qed.

(** * Further properties of the file *)

(** ** The ways out of the handler *)

(** The ways out of the try block.  The first three are taken by the
    requests that are not signed successful events.  For the others the url
    of the verification call is built from [data.id]: either this throws,
    or the call is made and the remaining ways out come after it. *)
Lemma process_exits (env : Env) (req : Request) (w : World) :
  (signature_verified env req && event_succeeded (body req) = false
   /\ ((exists e, process env req w = (Throw e, w))
       \/ process env req w = (Normal unauthorized, w)
       \/ process env req w = (Normal ignored, w)))
  \/ (signature_verified env req && event_succeeded (body req) = true
      /\ exists id,
           get2 (body req) "data" "id" = Normal id
           /\ ((exists e, verify_url id = Throw e /\ process env req w = (Throw e, w))
               \/ exists url,
                    verify_url id = Normal url
                    /\ ((exists e, process env req w = (Throw e, fetched env url w))
                        \/ process env req w = (Normal verification_failed, fetched env url w)
                        \/ process env req w = (Normal invalid_reference, fetched env url w)
                        \/ (exists v eventId,
                              process env req w
                              = create_package env v eventId (fetched env url w))))).
Proof.
  unfold process, bind, lift, ret.
  destruct (hmac_sha256_hex env (FLUTTERWAVE_WEBHOOK_HASH env) (JSON_stringify env (body req)))
    as [h|e] eqn:Hh.
  2: { left. split; [|left; eauto]. unfold signature_verified. now rewrite Hh. }
  destruct (strict_eq_opt h (verif_hash req)) eqn:Hsig; simpl.
  2: { left. split; [|right; left; reflexivity]. unfold signature_verified. now rewrite Hh, Hsig. }
  assert (Hsv : signature_verified env req = true).
  { unfold signature_verified. now rewrite Hh. }
  rewrite Hsv. cbn [andb].
  destruct (destructure_event_data (body req)) as [[event data]|e] eqn:Hd; simpl.
  2: { left. split; [|left; eauto]. apply destructure_event_data_throw in Hd as [e' He'].
       unfold event_succeeded, field_is. now rewrite He'. }
  apply destructure_event_data_inv in Hd as [Hevent Hdata].
  destruct (strict_eq_str event "charge.completed") eqn:Hcharge; simpl.
  2: { left. split; [|right; right; reflexivity]. unfold event_succeeded, field_is.
       now rewrite Hevent, Hcharge. }
  destruct (get data "status") as [s|e] eqn:Hstatus; simpl.
  2: { left. split; [|left; eauto]. unfold event_succeeded, field2_is, get2.
       rewrite Hdata; simpl. rewrite Hstatus. now rewrite andb_false_r. }
  destruct (strict_eq_str s "successful") eqn:Hsucc; simpl.
  2: { left. split; [|right; right; reflexivity]. unfold event_succeeded, field2_is, get2.
       rewrite Hdata; simpl. rewrite Hstatus, Hsucc. now rewrite andb_false_r. }
  right. split.
  { unfold event_succeeded, field_is, field2_is, get2. rewrite Hevent, Hdata; simpl.
    now rewrite Hstatus, Hcharge, Hsucc. }
  destruct (get_defined_elsewhere _ _ "status" "id" Hstatus) as [id Hid].
  exists id. split; [unfold get2; now rewrite Hdata|].
  rewrite Hid; simpl.
  destruct (verify_url id) as [url|e] eqn:Hurl.
  2: { left. exists e. split; [reflexivity|].
       now rewrite (verifyFlutterwavePayment_no_url _ _ _ _ Hurl). }
  right. exists url. split; [reflexivity|].
  rewrite (verifyFlutterwavePayment_run _ _ _ _ Hurl).
  destruct (fetch_json env url (verify_authorization env)) as [v|e];
    [|left; eauto].
  destruct (get v "status") as [vs|e]; simpl; [|left; eauto].
  destruct (strict_eq_str vs "success"); simpl; [|right; left; reflexivity].
  destruct (get2 v "data" "status") as [vds|e]; simpl; [|left; eauto].
  destruct (strict_eq_str vds "successful"); simpl; [|right; left; reflexivity].
  destruct (get data "tx_ref") as [tx|e]; simpl; [|left; eauto].
  destruct (parseTransactionRef tx) as [o|e]; simpl; [|left; eauto].
  destruct (falsy o); [right; right; left; reflexivity|].
  do 3 right. eauto.
Qed.

Lemma create_package_exits (env : Env) (v : JsValue) (eventId : string) (w : World) :
  (exists e w', create_package env v eventId w = (Throw e, w')
                /\ firestore w' = firestore w /\ trace w' = trace w)
  \/ (exists d, create_package env v eventId w
                = (Normal (success_response eventId d (totalAmountPaid d)),
                   created w (doc_path eventId d) d)).
Proof.
  destruct (generateAdCode_total env w) as (code & Hcode).
  unfold create_package, bind. rewrite Hcode.
  unfold Date_now, lift, drawn; simpl.
  destruct (packageData code _ _ v) as [d|e] eqn:Hd.
  - unfold doc_set; simpl. fold (doc_path eventId d).
    destruct (firestore_error env (doc_path eventId d) d) as [e|].
    + left. eexists; eexists; repeat split.
    + destruct (packageData_inv _ _ _ _ _ Hd) as (_ & _ & _ & _ & _ & Hamount & _).
      rewrite Hamount. right. exists d. reflexivity.
  - left. eexists; eexists; repeat split.
Qed.

(** The runs of the handler on a POST request. *)
Lemma handler_exits (env : Env) (req : Request) (w : World) :
  method req = "POST" ->
  (signature_verified env req && event_succeeded (body req) = false
   /\ snd (handler env req w) = w
   /\ ((exists e, fst (handler env req w) = Normal (internal_error e))
       \/ fst (handler env req w) = Normal unauthorized
       \/ fst (handler env req w) = Normal ignored))
  \/ (signature_verified env req && event_succeeded (body req) = true
      /\ exists id,
           get2 (body req) "data" "id" = Normal id
           /\ ((exists e, verify_url id = Throw e
                          /\ handler env req w = (Normal (internal_error e), w))
               \/ exists url,
                    verify_url id = Normal url
                    /\ ((trace (snd (handler env req w)) = trace (fetched env url w)
                         /\ firestore (snd (handler env req w)) = firestore w
                         /\ ((exists e, fst (handler env req w) = Normal (internal_error e))
                             \/ fst (handler env req w) = Normal verification_failed
                             \/ fst (handler env req w) = Normal invalid_reference))
                        \/ (exists eventId d,
                              handler env req w
                              = (Normal (success_response eventId d (totalAmountPaid d)),
                                 created (fetched env url w) (doc_path eventId d) d))))).
Proof.
  intros Hpost. rewrite (handler_post env req w Hpost).
  destruct (process_exits env req w) as [[Hno Hexit]|[Hyes (id & Hid & Hexit)]].
  - left. split; [exact Hno|].
    destruct Hexit as [[e ->]|[->| ->]]; cbn [fst snd]; (split; [reflexivity|]); eauto.
  - right. split; [exact Hyes|]. exists id. split; [exact Hid|].
    destruct Hexit as [(e & Hurl & ->)|(url & Hurl & Hexit)].
    { left. exists e. split; [exact Hurl|reflexivity]. }
    right. exists url. split; [exact Hurl|].
    destruct Hexit as [[e ->]|[->|[->|(v & eventId & ->)]]]; cbn [fst snd].
    + left. repeat split. eauto.
    + left. repeat split. eauto.
    + left. repeat split. eauto.
    + destruct (create_package_exits env v eventId (fetched env url w))
        as [(e & w' & -> & Hf & Ht)|(d & ->)].
      * left. cbn [fst snd]. repeat split; eauto.
      * right. eauto.
Qed.

(** X1.  Step 1: a request whose method is not POST is answered 405
    "Method not allowed", whatever its body and its signature, and nothing
    else happens: no HMAC is computed, no call is made, nothing is
    written. *)
Theorem other_methods_refused (env : Env) (req : Request) (w : World) :
  method req <> "POST" ->
  fst (handler env req w)
  = Normal {| res_status := 405; res_json := JObj [("error", JStr "Method not allowed")] |}
  /\ snd (handler env req w) = w.
Proof.
  intros Hm. rewrite handler_not_post; [split; reflexivity|].
  now apply String.eqb_neq.
Qed.

Lemma other_methods_refused_witness :
  fst (handler Sample.env get_request Sample.empty_world)
  = Normal {| res_status := 405; res_json := JObj [("error", JStr "Method not allowed")] |}
  /\ snd (handler Sample.env get_request Sample.empty_world) = Sample.empty_world.
Proof.
  apply (other_methods_refused Sample.env get_request Sample.empty_world). discriminate.
Defined.


Lemma writes_created (env : Env) (url : string) (w : World) (path : string) (d : AdPackage) :
  writes (created (fetched env url w) path d) = (path, d) :: writes w.
Proof. reflexivity. Qed.

(** X3.  The response tells whether a record was saved: a response with
    [success: true] has status 200 and is sent exactly by the runs that
    wrote one document; after any other response (405, 401, 200 "Event
    ignored", 400, 500) no document was written and Firestore is as it
    was. *)
Theorem success_announced_iff_written (env : Env) (req : Request) (w : World) :
  exists r,
    fst (handler env req w) = Normal r
    /\ if announces_success r
       then res_status r = 200%Z
            /\ exists path d,
                 writes (snd (handler env req w)) = (path, d) :: writes w
                 /\ firestore (snd (handler env req w)) = <[path := d]> (firestore w)
       else writes (snd (handler env req w)) = writes w
            /\ firestore (snd (handler env req w)) = firestore w.
Proof.
  destruct (String.eqb_spec (method req) "POST") as [Hpost|Hne].
  - destruct (handler_exits env req w Hpost)
      as [(_ & -> & [[e ->]|[->| ->]])
         |(_ & id & _ & [(e & _ & ->)
                        |(url & _ & [(Ht & Hf & [[e ->]|[->| ->]])|(eventId & d & ->)])])];
      eexists; (split; [reflexivity|]); cbn [announces_success fst snd];
      try (split; [reflexivity|reflexivity]);
      try (split; [now rewrite (writes_trace _ _ Ht)|exact Hf]).
    change (announces_success (success_response eventId d (totalAmountPaid d))) with true.
    cbv iota. split; [reflexivity|]. exists (doc_path eventId d), d. split; reflexivity.
  - rewrite handler_not_post by (now apply String.eqb_neq).
    eexists; split; [reflexivity|]. split; reflexivity.
Qed.

(** X4.  A run makes at most one call to the provider and at most one
    write.  The call, if any, is the verification of the transaction
    [data.id] of the inbound event, at the url built from it, authorized by
    the secret key; the write, if any, comes after the call and is the last
    effect. *)
Theorem one_call_then_one_write (env : Env) (req : Request) (w : World) :
  trace (snd (handler env req w)) = trace w
  \/ exists id url,
       get2 (body req) "data" "id" = Normal id
       /\ verify_url id = Normal url
       /\ (trace (snd (handler env req w))
           = Fetch url (verify_authorization env) :: trace w
           \/ exists path d,
                trace (snd (handler env req w))
                = DocSet path d :: Fetch url (verify_authorization env) :: trace w).
Proof.
  destruct (String.eqb_spec (method req) "POST") as [Hpost|Hne].
  - destruct (handler_exits env req w Hpost)
      as [(_ & -> & _)
         |(_ & id & Hid & [(e & _ & ->)|(url & Hurl & [(Ht & _)|(eventId & d & ->)])])].
    + now left.
    + now left.
    + right. exists id, url. split; [exact Hid|]. split; [exact Hurl|]. left. exact Ht.
    + right. exists id, url. split; [exact Hid|]. split; [exact Hurl|]. right. eauto.
  - rewrite handler_not_post by (now apply String.eqb_neq). now left.
Qed.

(** X5.  The provider is called exactly for the signed POST requests
    that carry a successful charge event whose [data.id] has a string form,
    so that the url of the call can be built: then once, at that url, before
    the reference of the event is looked at.  A request of another method,
    an unsigned request, an ignored event, or an id whose conversion to a
    string throws, costs no call. *)
Theorem provider_called_for_signed_successful_events
  (env : Env) (req : Request) (w : World) :
  (String.eqb (method req) "POST" && signature_verified env req && event_succeeded (body req)
   && has_verification_request (body req) = false
   /\ verification_calls (snd (handler env req w)) = verification_calls w)
  \/ (method req = "POST" /\ signature_verified env req = true
      /\ event_succeeded (body req) = true
      /\ exists id s,
           get2 (body req) "data" "id" = Normal id
           /\ to_string id = Normal s
           /\ verification_calls (snd (handler env req w))
              = ("https://api.flutterwave.com/v3/transactions/" +:+ s +:+ "/verify",
                 verify_authorization env) :: verification_calls w).
Proof.
  destruct (String.eqb_spec (method req) "POST") as [Hpost|Hne].
  - destruct (handler_exits env req w Hpost)
      as [(Hno & -> & _)|(Hyes & id & Hid & Hexit)].
    + left. split; [|reflexivity]. cbn [andb]. now rewrite Hno.
    + apply andb_true_iff in Hyes as [Hsv Hes].
      destruct Hexit as [(e & Hurl & ->)|(url & Hurl & Hexit)].
      * left. split; [|reflexivity].
        unfold has_verification_request, verification_request.
        rewrite Hid. cbn [cbind]. rewrite Hurl. now rewrite andb_false_r.
      * right. split; [exact Hpost|]. split; [exact Hsv|]. split; [exact Hes|].
        apply verify_url_inv in Hurl as (s & Hs & ->).
        exists id, s. split; [exact Hid|]. split; [exact Hs|].
        destruct Hexit as [(Ht & _)|(eventId & d & ->)].
        -- unfold verification_calls. rewrite Ht. reflexivity.
        -- reflexivity.
  - left. split; [reflexivity|].
    rewrite handler_not_post by (now apply String.eqb_neq). reflexivity.
Qed.

(** X15.  A run never deletes a document and touches no document but the
    one it writes: at every path the document is the one that was there,
    unless the path is that of the write; the paths in use only grow. *)
Theorem other_documents_untouched (env : Env) (req : Request) (w : World) (path : string) :
  (firestore (snd (handler env req w)) !! path = firestore w !! path
   \/ exists d, writes (snd (handler env req w)) = (path, d) :: writes w
                /\ firestore (snd (handler env req w)) !! path = Some d)
  /\ dom (firestore w) ⊆ dom (firestore (snd (handler env req w))).
Proof.
  destruct (handler_run env req w)
    as [[Hf _]|(_ & _ & v & id & url & eventId & code & d
                & _ & _ & _ & _ & _ & _ & _ & _ & Hf & Hw)].
  - rewrite Hf. split; [now left|reflexivity].
  - rewrite Hf, Hw. split.
    + destruct (decide (doc_path eventId d = path)) as [<-|Hne].
      * rewrite lookup_insert_eq. right; eauto.
      * rewrite lookup_insert_ne by exact Hne. now left.
    + rewrite dom_insert_L. set_solver.
Qed.

(** *** The last step *)

Lemma toISOString_normal (t : Z) :
  valid_time t = true -> exists s, toISOString t = Normal s.
Proof.
  intros Hv. unfold toISOString. rewrite Hv.
  destruct (civil_from_days (t / 86400000)) as [[y m] d]. eauto.
Qed.

Lemma get2_defined_elsewhere (v x : JsValue) (a k k' : string) :
  get2 v a k = Normal x -> exists y, get2 v a k' = Normal y.
Proof.
  unfold get2. destruct (get v a) as [o|]; simpl; [|discriminate].
  apply get_defined_elsewhere.
Qed.

Lemma get_of_object (c : JsValue) (k : string) :
  c <> JUndefined -> c <> JNull -> exists y, get c k = Normal y.
Proof. intros H1 H2. destruct c; simpl; eauto; contradiction. Qed.

(** The record can be built when the two dates are valid and the verified
    data has a customer. *)
Lemma packageData_succeeds
  (code : string) (now packageTime : Z) (v status customer : JsValue) :
  valid_time now = true ->
  valid_time (now + 604800000) = true ->
  get2 v "data" "status" = Normal status ->
  get2 v "data" "customer" = Normal customer ->
  customer <> JUndefined -> customer <> JNull ->
  exists d, packageData code now packageTime v = Normal d.
Proof.
  intros Hnow Hlater Hstatus Hcustomer Hu Hn.
  destruct (toISOString_normal _ Hnow) as [created Hcreated].
  destruct (toISOString_normal _ Hlater) as [expires Hexpires].
  destruct (get2_defined_elsewhere _ _ _ _ "amount" Hstatus) as [a Ha].
  destruct (get2_defined_elsewhere _ _ _ _ "id" Hstatus) as [i Hi].
  destruct (get2_defined_elsewhere _ _ _ _ "currency" Hstatus) as [c Hc].
  destruct (get2_defined_elsewhere _ _ _ _ "tx_ref" Hstatus) as [t Ht].
  destruct (get2_defined_elsewhere _ _ _ _ "flw_ref" Hstatus) as [f Hf].
  destruct (get2_defined_elsewhere _ _ _ _ "payment_type" Hstatus) as [p Hp].
  destruct (get_of_object customer "email" Hu Hn) as [email Hemail].
  destruct (get_of_object customer "name" Hu Hn) as [name Hname].
  unfold packageData, get3.
  change (7 * 24 * 60 * 60 * 1000)%Z with 604800000%Z.
  rewrite Hcreated, Hexpires, Ha, Hi, Hc, Hcustomer, Ht, Hf, Hp. cbn [cbind].
  rewrite Hemail, Hname. cbn [cbind]. eauto.
Qed.

Lemma all_four_inv (env : Env) (req : Request) :
  all_four env req = true ->
  signature_verified env req = true /\ event_succeeded (body req) = true
  /\ reverified env req = true /\ identifier_recovered (body req) = true.
Proof.
  unfold all_four. intros H.
  apply andb_true_iff in H as [H Hd]. apply andb_true_iff in H as [H Hc].
  apply andb_true_iff in H as [Ha Hb]. auto.
Qed.

Lemma generateAdCode_result (env : Env) (w : World) :
  fst (generateAdCode env w) = Normal ("AD" +:+ picks env (random_draws w) 11).
Proof. unfold generateAdCode. now rewrite generateAdCode_loop_picks. Qed.

(** What is submitted is what the last step builds. *)
Lemma submitted_spec (env : Env) (req : Request) (w : World)
      (v : JsValue) (url eventId : string) :
  provider_reply env req = Normal v ->
  recovered_identifier (body req) = Some eventId ->
  exists code,
    fst (generateAdCode env (fetched env url w)) = Normal code
    /\ submitted env req w
       = match packageData code (clock env (clock_reads w)) (clock env (S (clock_reads w))) v with
         | Normal d => Some (doc_path eventId d, d)
         | Throw _ => None
         end.
Proof.
  intros Hv Hrec. exists ("AD" +:+ picks env (random_draws w) 11).
  split; [exact (generateAdCode_result env (fetched env url w))|].
  unfold submitted. now rewrite Hrec, Hv, generateAdCode_result.
Qed.

(** X6.  When the four conditions hold for a POST request, the verified
    data has a customer, the date is one whose expiry date exists and
    Firestore accepts the document of this run, the payment is recorded:
    one document is written at
    physicalEvents/<event id>/adsPackages/<package id> and the answer is the
    200 success response.  Nothing is asked of Firestore about any other
    document. *)
Theorem confirmed_payment_is_recorded
  (env : Env) (req : Request) (w : World) (v customer : JsValue) :
  method req = "POST" ->
  all_four env req = true ->
  provider_reply env req = Normal v ->
  get2 v "data" "customer" = Normal customer ->
  customer <> JUndefined -> customer <> JNull ->
  valid_time (clock env (clock_reads w)) = true ->
  valid_time (clock env (clock_reads w) + 604800000) = true ->
  (forall path d, submitted env req w = Some (path, d) -> firestore_error env path d = None) ->
  exists eventId d,
    recovered_identifier (body req) = Some eventId
    /\ submitted env req w = Some (doc_path eventId d, d)
    /\ fst (handler env req w) = Normal (success_response eventId d (totalAmountPaid d))
    /\ res_status (success_response eventId d (totalAmountPaid d)) = 200%Z
    /\ writes (snd (handler env req w)) = (doc_path eventId d, d) :: writes w
    /\ firestore (snd (handler env req w)) !! doc_path eventId d = Some d.
Proof.
  intros Hpost Hall Hv Hcustomer Hu Hn Hnow Hlater Hfs.
  destruct (process_cases env req w) as
    [[Hno _]|[[Hno _]|[_ (v' & id & url & eventId & Hid & Hurl & Hv' & Hrec & Hp)]]];
    try congruence.
  rewrite Hv in Hv'. injection Hv' as <-.
  destruct (all_four_inv _ _ Hall) as (_ & _ & Hrv & _).
  unfold reverified in Hrv. rewrite Hv in Hrv.
  apply verification_succeeded_inv in Hrv as (s & t & _ & _ & Ht & _).
  destruct (create_package_spec env v eventId (fetched env url w)) as (code & Hcode & Hspec).
  change (clock_reads (fetched env url w)) with (clock_reads w) in Hspec.
  destruct (submitted_spec env req w v url eventId Hv Hrec) as (code' & Hcode' & Hsub).
  rewrite Hcode in Hcode'. injection Hcode' as <-.
  destruct (packageData_succeeds code (clock env (clock_reads w))
              (clock env (S (clock_reads w))) v t customer Hnow Hlater Ht Hcustomer Hu Hn)
    as [d Hd].
  rewrite Hd in Hsub. rewrite Hd, (Hfs _ _ Hsub) in Hspec.
  destruct Hspec as (w' & Hrun & Hf & Htrace).
  rewrite <- Hp in Hrun.
  exists eventId, d. rewrite (handler_post_normal env req w w' _ Hpost Hrun). cbn [fst snd].
  split; [exact Hrec|]. split; [exact Hsub|].
  split; [reflexivity|]. split; [reflexivity|]. split.
  - unfold writes. rewrite Htrace. reflexivity.
  - rewrite Hf. apply lookup_insert_eq.
Qed.

Lemma confirmed_payment_is_recorded_witness :
  exists eventId d,
    recovered_identifier (body Sample.charge) = Some eventId
    /\ submitted picky_firestore Sample.charge Sample.empty_world = Some (doc_path eventId d, d)
    /\ fst (handler picky_firestore Sample.charge Sample.empty_world)
       = Normal (success_response eventId d (totalAmountPaid d))
    /\ res_status (success_response eventId d (totalAmountPaid d)) = 200%Z
    /\ writes (snd (handler picky_firestore Sample.charge Sample.empty_world))
       = (doc_path eventId d, d) :: writes Sample.empty_world
    /\ firestore (snd (handler picky_firestore Sample.charge Sample.empty_world))
       !! doc_path eventId d = Some d.
Proof.
  apply (confirmed_payment_is_recorded picky_firestore Sample.charge Sample.empty_world
           Sample.confirmed
           (JObj [("id", JNum 7); ("name", JStr "Ada Obi"); ("email", JStr "ada@example.com")])).
  - reflexivity.
  - vm_compute. reflexivity.
  - vm_compute. reflexivity.
  - reflexivity.
  - discriminate.
  - discriminate.
  - reflexivity.
  - reflexivity.
  - intros path d H. vm_compute in H. injection H as <- <-. vm_compute. reflexivity.
Defined.

Lemma recovered_identifier_inv (b : JsValue) (eventId : string) :
  recovered_identifier b = Some eventId ->
  exists s, get2 b "data" "tx_ref" = Normal (JStr s)
            /\ parseTransactionRef (JStr s) = Normal (Some eventId)
            /\ eventId <> "".
Proof.
  unfold recovered_identifier.
  destruct (get2 b "data" "tx_ref") as [tx|]; simpl; [|discriminate].
  destruct (parseTransactionRef tx) as [[id|]|] eqn:Hparse; try discriminate.
  destruct (String.eqb_spec id "") as [|Hne]; [discriminate|].
  intros [= <-].
  destruct tx; try discriminate Hparse. eauto.
Qed.

(** X7.  Where a record is written.  The event id of the path is the second
    segment of the transaction reference of the inbound event (not of the
    verification response): it is not empty and has no underscore.  The
    package id is "ads_pkg_" followed by the reading of [Date.now()], the
    second reading of the clock of the run, and the path is
    physicalEvents/<event id>/adsPackages/<package id>. *)
Theorem document_path_of_a_write
  (env : Env) (req : Request) (w : World) (path : string) (d : AdPackage) :
  writes (snd (handler env req w)) = (path, d) :: writes w ->
  exists s eventId,
    get2 (body req) "data" "tx_ref" = Normal (JStr s)
    /\ eventId = nth 1 (split "_" s) ""
    /\ eventId <> ""
    /\ contains "_" eventId = false
    /\ packageId d = "ads_pkg_" +:+ number_to_string (clock env (S (clock_reads w)))
    /\ path = "physicalEvents/" +:+ eventId +:+ "/adsPackages/" +:+ packageId d.
Proof.
  intros Hw.
  destruct (handler_write_inv env req w path d Hw)
    as (_ & _ & v & id & url & eventId & code & _ & _ & _ & Hrec & _ & Hd & Hpath & _).
  destruct (recovered_identifier_inv _ _ Hrec) as (s & Htx & Hparse & Hne).
  destruct (packageData_inv _ _ _ _ _ Hd) as (_ & _ & _ & Hid & _).
  exists s, eventId. split; [exact Htx|].
  pose proof Hparse as Hshape. apply parseTransactionRef_shape in Hshape as (rest & Hno & _).
  rewrite parseTransactionRef_string in Hparse.
  destruct (has_boost_shape s); [|discriminate]. injection Hparse as Hnth.
  repeat split; auto.
Qed.

Lemma document_path_of_a_write_witness :
  exists s eventId,
    get2 (body Sample.charge) "data" "tx_ref" = Normal (JStr s)
    /\ eventId = nth 1 (split "_" s) ""
    /\ eventId <> ""
    /\ contains "_" eventId = false
    /\ packageId Sample.expected_package
       = "ads_pkg_" +:+ number_to_string (clock Sample.env 1)
    /\ Sample.expected_path
       = "physicalEvents/" +:+ eventId +:+ "/adsPackages/" +:+ packageId Sample.expected_package.
Proof.
  apply (document_path_of_a_write Sample.env Sample.charge Sample.empty_world
           Sample.expected_path Sample.expected_package).
  vm_compute. reflexivity.
Defined.

(** X8.  Every record written starts as a pending package with the
    default configuration: status "pending_upload", one image ad in the
    footer placement for 7 days, no content, one edit left, all counters at
    zero; its [webhookProcessedAt] is its [createdAt]. *)
Theorem written_record_defaults
  (env : Env) (req : Request) (w : World) (path : string) (d : AdPackage) :
  writes (snd (handler env req w)) = (path, d) :: writes w ->
  status d = "pending_upload"
  /\ packageName d = "Webhook Package" /\ packageType d = "webhook"
  /\ adTypes d = ["image"] /\ placements d = ["app_ads_footer"] /\ duration d = 7%Z
  /\ ads d = {| image := {| contentType := JNull; dataUrl := JNull; websiteUrl := JNull;
                            editsUsed := 0; totalEdits := 1; views := 0; clicks := 0;
                            uploaded := false |} |}
  /\ totalViews d = 0%Z /\ totalClicks d = 0%Z /\ viewsPerDay d = JObj []
  /\ webhookProcessedAt d = createdAt d.
Proof.
  intros Hw.
  destruct (handler_write_inv env req w path d Hw)
    as (_ & _ & v & id & url & eventId & code & _ & _ & _ & _ & _ & Hd & _).
  destruct (packageData_fixed _ _ _ _ _ Hd) as (a1 & a2 & a3 & a4 & a5 & a6 & a7 & a8 & a9 & a10).
  destruct (packageData_inv _ _ _ _ _ Hd) as (Hc & _ & Hp & _).
  rewrite Hc in Hp. injection Hp as Hp.
  repeat split; auto.
Qed.

Lemma written_record_defaults_witness :
  status Sample.expected_package = "pending_upload"
  /\ packageName Sample.expected_package = "Webhook Package"
  /\ packageType Sample.expected_package = "webhook"
  /\ adTypes Sample.expected_package = ["image"]
  /\ placements Sample.expected_package = ["app_ads_footer"]
  /\ duration Sample.expected_package = 7%Z
  /\ ads Sample.expected_package
     = {| image := {| contentType := JNull; dataUrl := JNull; websiteUrl := JNull;
                      editsUsed := 0; totalEdits := 1; views := 0; clicks := 0;
                      uploaded := false |} |}
  /\ totalViews Sample.expected_package = 0%Z /\ totalClicks Sample.expected_package = 0%Z
  /\ viewsPerDay Sample.expected_package = JObj []
  /\ webhookProcessedAt Sample.expected_package = createdAt Sample.expected_package.
Proof.
  apply (written_record_defaults Sample.env Sample.charge Sample.empty_world
           Sample.expected_path Sample.expected_package).
  vm_compute. reflexivity.
Defined.

(** X9.  The success response reports the record that was saved: its
    event id is the one of the path, its package id, ad code and amount are
    those of the document; and the code, drawn with [Math.random()], has
    the pattern of ad codes. *)
Theorem response_reports_the_record
  (env : Env) (req : Request) (w : World) (path : string) (d : AdPackage) :
  (forall k, is_unit_double (random env k) = true) ->
  writes (snd (handler env req w)) = (path, d) :: writes w ->
  matches_ad_code (adCode d) = true
  /\ exists eventId,
       path = "physicalEvents/" +:+ eventId +:+ "/adsPackages/" +:+ packageId d
       /\ fst (handler env req w)
          = Normal {| res_status := 200;
                      res_json :=
                        JObj [("success", JBool true);
                              ("message", JStr "Payment processed successfully");
                              ("data", JObj [("eventId", JStr eventId);
                                             ("packageId", JStr (packageId d));
                                             ("adCode", JStr (adCode d));
                                             ("amount", totalAmountPaid d)])] |}.
Proof.
  intros Hrandom Hw.
  split; [exact (written_ad_code_pattern env req w path d Hrandom Hw)|].
  destruct (handler_write_inv env req w path d Hw)
    as (_ & _ & v & id & url & eventId & code & _ & _ & _ & _ & _ & _ & Hpath & Hr & _).
  exists eventId. split; [exact Hpath|exact Hr].
Qed.

Lemma response_reports_the_record_witness :
  matches_ad_code (adCode Sample.expected_package) = true
  /\ exists eventId,
       Sample.expected_path
       = "physicalEvents/" +:+ eventId +:+ "/adsPackages/" +:+ packageId Sample.expected_package
       /\ fst (handler Sample.env Sample.charge Sample.empty_world)
          = Normal {| res_status := 200;
                      res_json :=
                        JObj [("success", JBool true);
                              ("message", JStr "Payment processed successfully");
                              ("data", JObj [("eventId", JStr eventId);
                                             ("packageId", JStr (packageId Sample.expected_package));
                                             ("adCode", JStr (adCode Sample.expected_package));
                                             ("amount", totalAmountPaid Sample.expected_package)])] |}.
Proof.
  apply (response_reports_the_record Sample.env Sample.charge Sample.empty_world
           Sample.expected_path Sample.expected_package).
  - exact sample_random_valid.
  - vm_compute. reflexivity.
Defined.

(** ** Exceptions *)

(** The try block up to the verification call, for a signed successful
    event whose [data.id] has a string form. *)
Lemma process_after_filter (env : Env) (req : Request) (w : World) :
  signature_verified env req = true ->
  event_succeeded (body req) = true ->
  exists id data,
    get (body req) "data" = Normal data
    /\ get data "id" = Normal id
    /\ forall url,
       verify_url id = Normal url ->
       process env req w
       = bind (lift (fetch_json env url (verify_authorization env)))
           (fun verification =>
              bind (lift (cbind (get verification "status") (fun s =>
                          if negb (strict_eq_str s "success") then Normal true
                          else cbind (get2 verification "data" "status")
                                 (fun t => Normal (negb (strict_eq_str t "successful"))))))
                (fun failed =>
                   if failed then ret verification_failed
                   else
                     bind (lift (get data "tx_ref")) (fun tx_ref =>
                     bind (lift (parseTransactionRef tx_ref)) (fun eventId =>
                     if falsy eventId then ret invalid_reference
                     else create_package env verification (default "" eventId)))))
           (fetched env url w).
Proof.
  intros (h & Hh & Hsig)%signature_verified_inv
         (event & data & st & Hevent & Hcharge & Hdata & Hst & Hsucc)%event_succeeded_inv.
  destruct (get_defined_elsewhere _ _ "status" "id" Hst) as [id Hid].
  exists id, data. split; [exact Hdata|]. split; [exact Hid|]. intros url Hurl.
  unfold process. unfold bind at 1. unfold lift at 1. rewrite Hh.
  cbv beta iota. rewrite Hsig. cbn [negb].
  unfold bind at 1. unfold lift at 1.
  rewrite (destructure_event_data_gets _ _ _ Hevent Hdata). cbv beta iota. cbn [fst snd].
  unfold bind at 1. unfold lift at 1.
  rewrite Hcharge. cbn [negb]. rewrite Hst. cbn [cbind]. rewrite Hsucc. cbn [negb].
  cbv beta iota.
  unfold bind at 1. unfold lift at 1. rewrite Hid. cbv beta iota.
  unfold bind at 1. rewrite (verifyFlutterwavePayment_run _ _ _ _ Hurl).
  unfold bind at 3. unfold lift at 3. reflexivity.
Qed.

(** X10.  A verification call that fails (network error, unreadable
    response) is fatal to the request: verifyFlutterwavePayment throws the
    failure again, the handler answers 500 with the message of the
    failure, the call was made once, and nothing is written. *)
Theorem provider_failure_is_a_server_error
  (env : Env) (req : Request) (w : World) (e : JsError) :
  method req = "POST" ->
  signature_verified env req = true ->
  event_succeeded (body req) = true ->
  has_verification_request (body req) = true ->
  provider_reply env req = Throw e ->
  fst (handler env req w)
  = Normal {| res_status := 500;
              res_json := JObj [("error", JStr "Internal server error");
                                ("message", JStr (error_message e))] |}
  /\ (exists id url,
        get2 (body req) "data" "id" = Normal id
        /\ verify_url id = Normal url
        /\ verification_calls (snd (handler env req w))
           = (url, verify_authorization env) :: verification_calls w)
  /\ writes (snd (handler env req w)) = writes w
  /\ firestore (snd (handler env req w)) = firestore w.
Proof.
  intros Hpost Hsv Hes Hrequest Hreply.
  destruct (process_after_filter env req w Hsv Hes) as (id & data & Hdata & Hid & Hp).
  assert (Hid2 : get2 (body req) "data" "id" = Normal id).
  { unfold get2. rewrite Hdata. exact Hid. }
  unfold has_verification_request, verification_request in Hrequest.
  unfold provider_reply, verification_request in Hreply.
  rewrite Hid2 in Hrequest, Hreply. cbn [cbind] in Hrequest, Hreply.
  destruct (verify_url id) as [url|] eqn:Hurl; [|discriminate].
  cbn [cbind] in Hreply. specialize (Hp url eq_refl).
  unfold bind, lift in Hp. rewrite Hreply in Hp.
  rewrite (handler_post_throw env req w _ e Hpost Hp). cbn [fst snd].
  split; [reflexivity|]. split; [|split; reflexivity].
  exists id, url. split; [exact Hid2|]. split; [exact Hurl|reflexivity].
Qed.

Lemma provider_failure_is_a_server_error_witness :
  fst (handler unreachable_provider Sample.charge Sample.empty_world)
  = Normal {| res_status := 500;
              res_json := JObj [("error", JStr "Internal server error");
                                ("message", JStr "fetch failed")] |}
  /\ (exists id url,
        get2 (body Sample.charge) "data" "id" = Normal id
        /\ verify_url id = Normal url
        /\ verification_calls (snd (handler unreachable_provider Sample.charge
                                      Sample.empty_world))
           = (url, verify_authorization unreachable_provider)
             :: verification_calls Sample.empty_world)
  /\ writes (snd (handler unreachable_provider Sample.charge Sample.empty_world))
     = writes Sample.empty_world
  /\ firestore (snd (handler unreachable_provider Sample.charge Sample.empty_world))
     = firestore Sample.empty_world.
Proof.
  apply (provider_failure_is_a_server_error unreachable_provider Sample.charge
           Sample.empty_world (LibraryError "fetch failed")).
  - reflexivity.
  - vm_compute. reflexivity.
  - vm_compute. reflexivity.
  - vm_compute. reflexivity.
  - vm_compute. reflexivity.
Defined.

(** X21.  A signed successful POST event whose [data.id] has no string
    form (an object with a property named toString, or an array holding
    one) cannot be verified: the template literal of the url throws inside
    verifyFlutterwavePayment before fetch is called, the exception is thrown
    again, and the handler answers 500 with its message; no call is made and
    nothing is written. *)
Theorem id_without_string_form_is_a_server_error
  (env : Env) (req : Request) (w : World) (id : JsValue) (e : JsError) :
  method req = "POST" ->
  signature_verified env req = true ->
  event_succeeded (body req) = true ->
  get2 (body req) "data" "id" = Normal id ->
  to_string id = Throw e ->
  verifyFlutterwavePayment env id w = (Throw e, w)
  /\ fst (handler env req w)
     = Normal {| res_status := 500;
                 res_json := JObj [("error", JStr "Internal server error");
                                   ("message", JStr (error_message e))] |}
  /\ snd (handler env req w) = w.
Proof.
  intros Hpost Hsv Hes Hid Hs.
  assert (Hurl : verify_url id = Throw e).
  { unfold verify_url. now rewrite Hs. }
  split; [exact (verifyFlutterwavePayment_no_url env id e w Hurl)|].
  destruct (handler_exits env req w Hpost)
    as [(Hno & _)|(_ & id' & Hid' & [(e' & Hurl' & ->)|(url & Hurl' & _)])].
  - rewrite Hsv, Hes in Hno. discriminate.
  - rewrite Hid in Hid'. injection Hid' as <-.
    rewrite Hurl in Hurl'. injection Hurl' as <-. split; reflexivity.
  - rewrite Hid in Hid'. injection Hid' as <-. congruence.
Qed.

Lemma id_without_string_form_is_a_server_error_witness :
  verifyFlutterwavePayment Sample.env (JObj [("toString", JNum 1)]) Sample.empty_world
  = (Throw (TypeError "Cannot convert object to primitive value"), Sample.empty_world)
  /\ fst (handler Sample.env opaque_id_charge Sample.empty_world)
     = Normal {| res_status := 500;
                 res_json := JObj [("error", JStr "Internal server error");
                                   ("message",
                                    JStr "Cannot convert object to primitive value")] |}
  /\ snd (handler Sample.env opaque_id_charge Sample.empty_world) = Sample.empty_world.
Proof.
  apply (id_without_string_form_is_a_server_error Sample.env opaque_id_charge
           Sample.empty_world (JObj [("toString", JNum 1)])
           (TypeError "Cannot convert object to primitive value")).
  - reflexivity.
  - vm_compute. reflexivity.
  - vm_compute. reflexivity.
  - reflexivity.
  - reflexivity.
Defined.

(** X11.  When the HMAC cannot be computed (the webhook secret is not
    set, or the body has no JSON text), a POST request is answered 500 with
    the message of the exception, and nothing else happens. *)
Theorem hmac_failure_is_a_server_error
  (env : Env) (req : Request) (w : World) (e : JsError) :
  method req = "POST" ->
  hmac_sha256_hex env (FLUTTERWAVE_WEBHOOK_HASH env) (JSON_stringify env (body req)) = Throw e ->
  fst (handler env req w)
  = Normal {| res_status := 500;
              res_json := JObj [("error", JStr "Internal server error");
                                ("message", JStr (error_message e))] |}
  /\ snd (handler env req w) = w.
Proof.
  intros Hpost Hh.
  assert (Hp : process env req w = (Throw e, w)).
  { unfold process, bind, lift. now rewrite Hh. }
  rewrite (handler_post_throw env req w w e Hpost Hp). split; reflexivity.
Qed.

Lemma hmac_failure_is_a_server_error_witness :
  fst (handler unset_secret Sample.charge Sample.empty_world)
  = Normal {| res_status := 500;
              res_json :=
                JObj [("error", JStr "Internal server error");
                      ("message",
                       JStr "The key argument must be of type string. Received undefined")] |}
  /\ snd (handler unset_secret Sample.charge Sample.empty_world) = Sample.empty_world.
Proof.
  apply (hmac_failure_is_a_server_error unset_secret Sample.charge Sample.empty_world
           (TypeError "The key argument must be of type string. Received undefined")).
  - reflexivity.
  - reflexivity.
Defined.

Lemma parseTransactionRef_not_string (tx : JsValue) :
  (forall s, tx <> JStr s) ->
  exists message, parseTransactionRef tx = Throw (TypeError message).
Proof.
  intros Hns. destruct tx; simpl; eauto. now destruct (Hns s).
Qed.

(** X12.  A signed, successful, re-verified event whose [data.tx_ref] is
    missing or is not a string makes parseTransactionRef throw a TypeError
    ([txRef.split] does not exist): the handler answers 500 with its
    message, not 400, and writes nothing. *)
Theorem reference_that_is_no_string_is_a_server_error
  (env : Env) (req : Request) (w : World) (tx : JsValue) :
  method req = "POST" ->
  signature_verified env req = true ->
  event_succeeded (body req) = true ->
  reverified env req = true ->
  get2 (body req) "data" "tx_ref" = Normal tx ->
  (forall s, tx <> JStr s) ->
  (exists message,
     parseTransactionRef tx = Throw (TypeError message)
     /\ fst (handler env req w)
        = Normal {| res_status := 500;
                    res_json := JObj [("error", JStr "Internal server error");
                                      ("message", JStr message)] |})
  /\ writes (snd (handler env req w)) = writes w
  /\ firestore (snd (handler env req w)) = firestore w.
Proof.
  intros Hpost Hsv Hes Hrv Htx Hns.
  destruct (process_after_filter env req w Hsv Hes) as (id & data & Hdata & Hid & Hp).
  assert (Hid2 : get2 (body req) "data" "id" = Normal id).
  { unfold get2. rewrite Hdata. exact Hid. }
  destruct (reverified_inv _ _ Hrv) as (v & Hreply & Hvs).
  destruct (provider_reply_normal _ _ _ Hreply) as (id' & url & Hid' & Hurl & Hv).
  rewrite Hid2 in Hid'. injection Hid' as <-.
  apply verification_succeeded_inv in Hvs as (s & t & Hs & Hss & Ht & Hts).
  unfold get2 in Htx. rewrite Hdata in Htx. cbn [cbind] in Htx.
  destruct (parseTransactionRef_not_string tx Hns) as [message Hparse].
  specialize (Hp url Hurl).
  unfold bind, lift in Hp. rewrite Hv in Hp. rewrite Hs in Hp. cbn [cbind] in Hp.
  rewrite Hss in Hp. cbn [negb] in Hp. rewrite Ht in Hp. cbn [cbind] in Hp.
  rewrite Hts in Hp. cbn [negb] in Hp. rewrite Htx, Hparse in Hp.
  rewrite (handler_post_throw env req w _ _ Hpost Hp). cbn [fst snd].
  split; [exists message; split; [exact Hparse|reflexivity]|]. split; reflexivity.
Qed.

Lemma reference_that_is_no_string_is_a_server_error_witness :
  (exists message,
     parseTransactionRef JUndefined = Throw (TypeError message)
     /\ fst (handler Sample.env unreferenced_charge Sample.empty_world)
        = Normal {| res_status := 500;
                    res_json := JObj [("error", JStr "Internal server error");
                                      ("message", JStr message)] |})
  /\ writes (snd (handler Sample.env unreferenced_charge Sample.empty_world))
     = writes Sample.empty_world
  /\ firestore (snd (handler Sample.env unreferenced_charge Sample.empty_world))
     = firestore Sample.empty_world.
Proof.
  apply (reference_that_is_no_string_is_a_server_error Sample.env unreferenced_charge
           Sample.empty_world JUndefined).
  - reflexivity.
  - vm_compute. reflexivity.
  - vm_compute. reflexivity.
  - vm_compute. reflexivity.
  - reflexivity.
  - discriminate.
Defined.

(** X13.  When Firestore refuses the document of the run, the handler
    answers 500 with the message of the refusal and no document is
    written, although the payment was verified; what Firestore would do
    with any other document does not matter. *)
Theorem firestore_refusal_is_a_server_error
  (env : Env) (req : Request) (w : World) (path : string) (d : AdPackage) (e : JsError) :
  method req = "POST" ->
  all_four env req = true ->
  submitted env req w = Some (path, d) ->
  firestore_error env path d = Some e ->
  fst (handler env req w)
  = Normal {| res_status := 500;
              res_json := JObj [("error", JStr "Internal server error");
                                ("message", JStr (error_message e))] |}
  /\ writes (snd (handler env req w)) = writes w
  /\ firestore (snd (handler env req w)) = firestore w.
Proof.
  intros Hpost Hall Hsub Hfs.
  destruct (process_cases env req w) as
    [[Hno _]|[[Hno _]|[_ (v & id & url & eventId & Hid & Hurl & Hv & Hrec & Hp)]]];
    try congruence.
  destruct (create_package_spec env v eventId (fetched env url w)) as (code & Hcode & Hspec).
  change (clock_reads (fetched env url w)) with (clock_reads w) in Hspec.
  destruct (submitted_spec env req w v url eventId Hv Hrec) as (code' & Hcode' & Hsub').
  rewrite Hcode in Hcode'. injection Hcode' as <-.
  rewrite Hsub in Hsub'.
  destruct (packageData code (clock env (clock_reads w)) (clock env (S (clock_reads w))) v)
    as [d'|]; [|discriminate].
  injection Hsub' as -> ->. rewrite Hfs in Hspec.
  destruct Hspec as (w' & Hrun & Hf & Htrace).
  rewrite <- Hp in Hrun.
  rewrite (handler_post_throw env req w w' e Hpost Hrun). cbn [fst snd].
  split; [reflexivity|]. split; [now rewrite (writes_trace _ _ Htrace)|exact Hf].
Qed.

Lemma firestore_refusal_is_a_server_error_witness :
  fst (handler firestore_down Sample.charge Sample.empty_world)
  = Normal {| res_status := 500;
              res_json := JObj [("error", JStr "Internal server error");
                                ("message", JStr "14 UNAVAILABLE")] |}
  /\ writes (snd (handler firestore_down Sample.charge Sample.empty_world))
     = writes Sample.empty_world
  /\ firestore (snd (handler firestore_down Sample.charge Sample.empty_world))
     = firestore Sample.empty_world.
Proof.
  apply (firestore_refusal_is_a_server_error firestore_down Sample.charge Sample.empty_world
           Sample.expected_path Sample.expected_package (LibraryError "14 UNAVAILABLE")).
  - reflexivity.
  - vm_compute. reflexivity.
  - vm_compute. reflexivity.
  - reflexivity.
Defined.

Lemma packageData_without_customer
  (code : string) (now packageTime : Z) (v status customer : JsValue) :
  valid_time now = true ->
  valid_time (now + 604800000) = true ->
  get2 v "data" "status" = Normal status ->
  get2 v "data" "customer" = Normal customer ->
  customer = JUndefined \/ customer = JNull ->
  exists message, get customer "email" = Throw (TypeError message)
                  /\ packageData code now packageTime v = Throw (TypeError message).
Proof.
  intros Hnow Hlater Hstatus Hcustomer Hnone.
  destruct (toISOString_normal _ Hnow) as [created Hcreated].
  destruct (toISOString_normal _ Hlater) as [expires Hexpires].
  destruct (get2_defined_elsewhere _ _ _ _ "amount" Hstatus) as [a Ha].
  destruct (get2_defined_elsewhere _ _ _ _ "id" Hstatus) as [i Hi].
  destruct (get2_defined_elsewhere _ _ _ _ "currency" Hstatus) as [c Hc].
  unfold packageData, get3.
  change (7 * 24 * 60 * 60 * 1000)%Z with 604800000%Z.
  rewrite Hcreated, Hexpires, Ha, Hi, Hc, Hcustomer. cbn [cbind].
  destruct Hnone as [-> | ->]; cbn [get cbind]; eauto.
Qed.

(** X14.  A verification response that confirms the payment but has no
    [customer] makes the record impossible to build
    ([verification.data.customer.email] throws a TypeError): the handler
    answers 500 with its message and writes nothing. *)
Theorem verified_payment_without_customer_is_a_server_error
  (env : Env) (req : Request) (w : World) (v customer : JsValue) :
  method req = "POST" ->
  all_four env req = true ->
  provider_reply env req = Normal v ->
  get2 v "data" "customer" = Normal customer ->
  customer = JUndefined \/ customer = JNull ->
  valid_time (clock env (clock_reads w)) = true ->
  valid_time (clock env (clock_reads w) + 604800000) = true ->
  (exists message,
     get customer "email" = Throw (TypeError message)
     /\ fst (handler env req w)
        = Normal {| res_status := 500;
                    res_json := JObj [("error", JStr "Internal server error");
                                      ("message", JStr message)] |})
  /\ writes (snd (handler env req w)) = writes w
  /\ firestore (snd (handler env req w)) = firestore w.
Proof.
  intros Hpost Hall Hv Hcustomer Hnone Hnow Hlater.
  destruct (process_cases env req w) as
    [[Hno _]|[[Hno _]|[_ (v' & id & url & eventId & Hid & Hurl & Hv' & Hrec & Hp)]]];
    try congruence.
  rewrite Hv in Hv'. injection Hv' as <-.
  destruct (all_four_inv _ _ Hall) as (_ & _ & Hrv & _).
  unfold reverified in Hrv. rewrite Hv in Hrv.
  apply verification_succeeded_inv in Hrv as (s & t & _ & _ & Ht & _).
  destruct (create_package_spec env v eventId (fetched env url w)) as (code & _ & Hspec).
  change (clock_reads (fetched env url w)) with (clock_reads w) in Hspec.
  destruct (packageData_without_customer code (clock env (clock_reads w))
              (clock env (S (clock_reads w))) v t customer Hnow Hlater Ht Hcustomer Hnone)
    as (message & Hget & Hd).
  rewrite Hd in Hspec. destruct Hspec as (w' & Hrun & Hf & Htrace).
  rewrite <- Hp in Hrun.
  rewrite (handler_post_throw env req w w' _ Hpost Hrun). cbn [fst snd].
  split; [exists message; split; [exact Hget|reflexivity]|].
  split; [now rewrite (writes_trace _ _ Htrace)|exact Hf].
Qed.

Lemma verified_payment_without_customer_is_a_server_error_witness :
  (exists message,
     get JUndefined "email" = Throw (TypeError message)
     /\ fst (handler anonymous_provider Sample.charge Sample.empty_world)
        = Normal {| res_status := 500;
                    res_json := JObj [("error", JStr "Internal server error");
                                      ("message", JStr message)] |})
  /\ writes (snd (handler anonymous_provider Sample.charge Sample.empty_world))
     = writes Sample.empty_world
  /\ firestore (snd (handler anonymous_provider Sample.charge Sample.empty_world))
     = firestore Sample.empty_world.
Proof.
  eapply (verified_payment_without_customer_is_a_server_error anonymous_provider Sample.charge
            Sample.empty_world).
  - reflexivity.
  - vm_compute. reflexivity.
  - vm_compute. reflexivity.
  - reflexivity.
  - left. reflexivity.
  - reflexivity.
  - reflexivity.
Defined.

(** ** Redelivery *)

Lemma to_int_not_nil (z : Z) :
  Z.to_int z <> Decimal.Pos Decimal.Nil /\ Z.to_int z <> Decimal.Neg Decimal.Nil.
Proof.
  split; intros H;
    (assert (Hz : z = 0%Z)
       by (rewrite <- (DecimalZ.of_to z), H; reflexivity));
    subst z; discriminate H.
Qed.

Lemma decimal_inj (a b : Z) : decimal a = decimal b -> a = b.
Proof.
  unfold decimal. intros H.
  apply (f_equal NilZero.int_of_string) in H.
  destruct (to_int_not_nil a) as [Ha1 Ha2]. destruct (to_int_not_nil b) as [Hb1 Hb2].
  rewrite !NilZero.isi in H by assumption.
  injection H as H. now apply DecimalZ.to_int_inj.
Qed.

(** Up to 2^53 a number is printed with all its digits. *)
Lemma number_to_string_safe (a : Z) :
  (- 2 ^ 53 <= a <= 2 ^ 53)%Z -> number_to_string a = decimal a.
Proof.
  intros Ha. unfold number_to_string, positive_to_string.
  destruct (Z.ltb_spec a 0) as [Hneg|Hpos].
  - destruct (Z.leb_spec (- a) (2 ^ 53)) as [_|Hbig]; [|lia].
    destruct a; try lia. reflexivity.
  - destruct (Z.leb_spec a (2 ^ 53)) as [_|Hbig]; [reflexivity|lia].
Qed.

Lemma valid_time_safe (t : Z) : valid_time t = true -> (- 2 ^ 53 <= t <= 2 ^ 53)%Z.
Proof.
  unfold valid_time, max_time_value. intros [H1 H2]%andb_true_iff.
  apply Z.leb_le in H1, H2. change (2 ^ 53)%Z with 9007199254740992%Z. lia.
Qed.

(** Two readings of [Date.now()] have the same text only when they are
    equal. *)
Lemma number_to_string_inj (a b : Z) :
  valid_time a = true -> valid_time b = true ->
  number_to_string a = number_to_string b -> a = b.
Proof.
  intros Ha%valid_time_safe Hb%valid_time_safe.
  rewrite !number_to_string_safe by assumption. apply decimal_inj.
Qed.

Lemma doc_path_inj (eventId : string) (d1 d2 : AdPackage) :
  doc_path eventId d1 = doc_path eventId d2 -> packageId d1 = packageId d2.
Proof.
  unfold doc_path. intros H.
  apply (inj (String.app _)) in H. apply (inj (String.app _)) in H.
  now apply (inj (String.app _)) in H.
Qed.

(** X16.  Redelivery.  When the same request is handled a second time,
    in surroundings that may have changed, and both runs write, then, if the
    provider gives the same response both times, the second record equals
    the first apart from the generated code, the package id and the
    timestamps.  The two documents have the same path exactly when the two
    readings of [Date.now()] are equal: then the second replaces the first;
    otherwise both are kept. *)
Theorem redelivery_writes_again
  (env env' : Env) (req : Request) (w : World) (p1 p2 : string) (d1 d2 : AdPackage) :
  writes (snd (handler env req w)) = (p1, d1) :: writes w ->
  writes (snd (handler env' req (snd (handler env req w))))
  = (p2, d2) :: writes (snd (handler env req w)) ->
  provider_reply env' req = provider_reply env req ->
  valid_time (clock env (S (clock_reads w))) = true ->
  valid_time (clock env' (S (S (S (clock_reads w))))) = true ->
  erase_generated d1 = erase_generated d2
  /\ firestore (snd (handler env' req (snd (handler env req w))))
     = <[p2 := d2]> (<[p1 := d1]> (firestore w))
  /\ (p1 = p2 <-> clock env (S (clock_reads w)) = clock env' (S (S (S (clock_reads w)))))
  /\ firestore (snd (handler env' req (snd (handler env req w)))) !! p2 = Some d2
  /\ firestore (snd (handler env' req (snd (handler env req w)))) !! p1
     = Some (if decide (p1 = p2) then d2 else d1).
Proof.
  intros Hw1 Hw2 Hsame_reply Hnow1 Hnow2.
  destruct (handler_write_inv env req w p1 d1 Hw1)
    as (Hpost & _ & v1 & id1 & url1 & e1 & c1 & _ & _ & Hv1 & He1 & _ & Hd1 & Hp1 & _ & Hf1).
  assert (Hreads : clock_reads (snd (handler env req w)) = S (S (clock_reads w))).
  { destruct (handler_exits env req w Hpost)
      as [(_ & Hsame & _)
         |(_ & id & _ & [(e & _ & Hrun)|(url & _ & [(Ht & _)|(eventId & d & Hrun)])])].
    - rewrite Hsame in Hw1. now apply cons_neq_self in Hw1.
    - rewrite Hrun in Hw1. now apply cons_neq_self in Hw1.
    - rewrite (writes_trace _ _ Ht) in Hw1. now apply cons_neq_self in Hw1.
    - rewrite Hrun. reflexivity. }
  destruct (handler_write_inv env' req _ p2 d2 Hw2)
    as (_ & _ & v2 & id2 & url2 & e2 & c2 & _ & _ & Hv2 & He2 & _ & Hd2 & Hp2 & _ & Hf2).
  rewrite Hreads in Hd2.
  assert (v2 = v1) by congruence. assert (e2 = e1) by congruence. subst v2 e2.
  destruct (packageData_inv _ _ _ _ _ Hd1) as (_ & _ & _ & Hid1 & _).
  destruct (packageData_inv _ _ _ _ _ Hd2) as (_ & _ & _ & Hid2 & _).
  assert (Hsame : p1 = p2
                  <-> clock env (S (clock_reads w)) = clock env' (S (S (S (clock_reads w))))).
  { subst p1 p2. split.
    - intros H%doc_path_inj. rewrite Hid1, Hid2 in H.
      apply (inj (String.app _)) in H. now apply number_to_string_inj.
    - intros H. unfold doc_path. now rewrite Hid1, Hid2, H. }
  split; [exact (packageData_erase _ _ _ _ _ _ _ _ _ Hd1 Hd2)|].
  split; [now rewrite Hf2, Hf1|]. split; [exact Hsame|].
  rewrite Hf2, Hf1. split; [apply lookup_insert_eq|].
  destruct (decide (p1 = p2)) as [->|Hne].
  - apply lookup_insert_eq.
  - rewrite lookup_insert_ne by congruence. apply lookup_insert_eq.
Qed.

Lemma redelivery_writes_again_witness :
  erase_generated Sample.expected_package = erase_generated redelivered_package
  /\ firestore (snd (handler picky_redelivery Sample.charge
                       (snd (handler Sample.env Sample.charge Sample.empty_world))))
     = <[redelivered_path := redelivered_package]>
         (<[Sample.expected_path := Sample.expected_package]> (firestore Sample.empty_world))
  /\ (Sample.expected_path = redelivered_path
      <-> clock Sample.env 1 = clock picky_redelivery 3)
  /\ firestore (snd (handler picky_redelivery Sample.charge
                       (snd (handler Sample.env Sample.charge Sample.empty_world))))
     !! redelivered_path = Some redelivered_package
  /\ firestore (snd (handler picky_redelivery Sample.charge
                       (snd (handler Sample.env Sample.charge Sample.empty_world))))
     !! Sample.expected_path
     = Some (if decide (Sample.expected_path = redelivered_path)
             then redelivered_package else Sample.expected_package).
Proof.
  apply (redelivery_writes_again Sample.env picky_redelivery Sample.charge Sample.empty_world).
  - vm_compute. reflexivity.
  - vm_compute. reflexivity.
  - vm_compute. reflexivity.
  - reflexivity.
  - reflexivity.
Defined.

(** ** References in the expected format *)

Lemma split_app_sep (sep : ascii) (a b : string) :
  split sep (a +:+ String sep b) = split sep a ++ split sep b.
Proof.
  induction a as [|c a IH].
  - rewrite app_empty_l. simpl. now rewrite Ascii.eqb_refl.
  - rewrite app_cons. cbn [split]. rewrite IH.
    destruct (Ascii.eqb c sep); [reflexivity|].
    destruct (split sep a) as [|seg segs] eqn:Hs; [now apply split_not_nil in Hs|].
    reflexivity.
Qed.

Lemma split_no_sep (sep : ascii) (s : string) :
  contains sep s = false -> split sep s = [s].
Proof.
  induction s as [|c s IH]; [reflexivity|].
  simpl. intros [Hc Hs]%orb_false_iff. rewrite Hc, (IH Hs). reflexivity.
Qed.

Lemma split_head_whole (sep : ascii) (s : string) :
  nth 0 (split sep s) "" = s <-> contains sep s = false.
Proof.
  split.
  - intros H. pose proof (split_segments sep s) as Hall.
    destruct (split sep s) as [|seg segs]; simpl in H.
    + subst s. reflexivity.
    + subst seg. now inversion Hall.
  - intros H. now rewrite split_no_sep.
Qed.

(** X20.  A reference written in the expected format,
    boost_<eventId>_<timestamp>, is parsed to the first underscore-separated
    segment of the event id: to the event id itself exactly when the id
    contains no underscore, and to a proper part of it otherwise. *)
Theorem reference_round_trip (eventId timestamp : string) :
  parseTransactionRef (JStr ("boost_" +:+ eventId +:+ "_" +:+ timestamp))
  = Normal (Some (nth 0 (split "_" eventId) ""))
  /\ (nth 0 (split "_" eventId) "" = eventId <-> contains "_" eventId = false).
Proof.
  split; [|apply split_head_whole].
  rewrite parseTransactionRef_string. unfold has_boost_shape.
  change ("boost_" +:+ eventId +:+ "_" +:+ timestamp)
    with ("boost" +:+ String "_" (eventId +:+ String "_" timestamp)).
  rewrite split_prefix by reflexivity. rewrite split_app_sep.
  destruct (split "_" eventId) as [|seg segs] eqn:He; [now apply split_not_nil in He|].
  destruct (split "_" timestamp) as [|t ts] eqn:Ht; [now apply split_not_nil in Ht|].
  destruct segs; reflexivity.
Qed.

(** ** The start of the module *)

Lemma replace_cons_other (c : ascii) (t : string) :
  Ascii.eqb c backslash = false ->
  replace_escaped_newlines (String c t) = String c (replace_escaped_newlines t).
Proof.
  intros Hc. destruct t as [|c' t']; [reflexivity|].
  cbn [replace_escaped_newlines]. rewrite Hc. reflexivity.
Qed.

Lemma replace_escape (s : string) :
  contains backslash s = false ->
  replace_escaped_newlines (escape_newlines s) = s.
Proof.
  induction s as [|c s IH]; [reflexivity|].
  cbn [contains]. intros [Hc Hs]%orb_false_iff. cbn [escape_newlines].
  destruct (Ascii.eqb_spec c newline) as [->|Hn].
  - cbn [replace_escaped_newlines]. rewrite Ascii.eqb_refl.
    change (Ascii.eqb "n" "n") with true. cbn [andb]. now rewrite (IH Hs).
  - rewrite (replace_cons_other _ _ Hc). now rewrite (IH Hs).
Qed.

(** X18.  The private key of the service account: a key that contains no
    backslash, written in the environment with each line feed as the two
    characters backslash and n, is handed to Firebase Admin with its line
    feeds restored, together with the project id and the client email of
    the environment. *)
Theorem private_key_line_feeds_restored
  (refused : AppOptions -> option JsError) (penv : ProcessEnv) (key : string)
  (apps : list AppOptions) :
  contains backslash key = false ->
  FIREBASE_PRIVATE_KEY penv = Some (escape_newlines key) ->
  initialize refused penv [] = Normal apps ->
  exists options,
    apps = [options]
    /\ private_key (credential options) = Some key
    /\ type (credential options) = "service_account"
    /\ project_id (credential options) = FIREBASE_PROJECT_ID penv
    /\ client_email (credential options) = FIREBASE_CLIENT_EMAIL penv
    /\ projectId options = FIREBASE_PROJECT_ID penv.
Proof.
  intros Hkey Henv. unfold initialize. cbn [length Nat.eqb negb].
  rewrite Henv. cbn [read_private_key]. rewrite (replace_escape key Hkey).
  destruct (refused _); [discriminate|]. intros [= <-].
  eexists. split; [reflexivity|]. repeat split.
Qed.

Lemma private_key_line_feeds_restored_witness :
  exists options,
    [sample_app] = [options]
    /\ private_key (credential options) = Some sample_key
    /\ type (credential options) = "service_account"
    /\ project_id (credential options) = FIREBASE_PROJECT_ID sample_env
    /\ client_email (credential options) = FIREBASE_CLIENT_EMAIL sample_env
    /\ projectId options = FIREBASE_PROJECT_ID sample_env.
Proof.
  apply (private_key_line_feeds_restored (fun _ => None) sample_env sample_key).
  - reflexivity.
  - reflexivity.
  - reflexivity.
Defined.

(** X17.  Firebase Admin is initialized only once: a load that succeeds
    leaves one app when there was none and leaves the apps as they are
    otherwise, and any further load changes nothing and cannot fail,
    whatever the environment has become. *)
Theorem initialized_only_once
  (refused refused' : AppOptions -> option JsError) (penv penv' : ProcessEnv)
  (apps apps' : list AppOptions) :
  initialize refused penv apps = Normal apps' ->
  length apps' = Nat.max 1 (length apps)
  /\ (apps <> [] -> apps' = apps)
  /\ initialize refused' penv' apps' = Normal apps'.
Proof.
  unfold initialize. destruct apps as [|a apps].
  - cbn [length Nat.eqb negb]. destruct (refused _); [discriminate|].
    intros [= <-]. split; [reflexivity|]. split; [contradiction|reflexivity].
  - cbn [length Nat.eqb negb]. intros [= <-].
    split; [reflexivity|]. split; reflexivity.
Qed.

Lemma initialized_only_once_witness :
  length [sample_app] = Nat.max 1 (length (@nil AppOptions))
  /\ (@nil AppOptions <> [] -> [sample_app] = [])
  /\ initialize (fun _ => Some (LibraryError "The default Firebase app already exists."))
       {| FIREBASE_PROJECT_ID := None; FIREBASE_PRIVATE_KEY := None;
          FIREBASE_CLIENT_EMAIL := None |}
       [sample_app]
     = Normal [sample_app].
Proof.
  apply (initialized_only_once (fun _ => None) _ sample_env). reflexivity.
Defined.

(** ** The range of generateAdCode *)

Lemma double_for_selects (j : Z) :
  (0 <= j < 36)%Z ->
  is_unit_double (double_for j) = true /\ floor_mul (double_for j) 36 = j.
Proof.
  intros Hj. unfold double_for.
  assert (Hm : (36 * (j * 2 ^ 53 / 36) <= j * 2 ^ 53 < 36 * (j * 2 ^ 53 / 36) + 36)%Z).
  { pose proof (Z.mul_div_le (j * 2 ^ 53) 36 ltac:(lia)).
    pose proof (Z.mul_succ_div_gt (j * 2 ^ 53) 36 ltac:(lia)). lia. }
  assert (Hd : is_unit_double {| mant := j * 2 ^ 53 / 36 + 1; expo := 53 |} = true).
  { unfold is_unit_double; simpl. lia. }
  split; [exact Hd|].
  apply (proj1 (floor_mul_cell _ j Hd)). simpl. lia.
Qed.

Lemma index_of_code_char (c : ascii) :
  is_code_char c = true ->
  (0 <= index_of c < 36)%Z /\ charAt chars (index_of c) = String c "".
Proof.
  destruct c as [[] [] [] [] [] [] [] []]; intros H; try discriminate H;
    vm_compute; repeat split; congruence.
Qed.

Lemma index_of_range (c : ascii) : (0 <= index_of c < 36)%Z.
Proof.
  destruct c as [[] [] [] [] [] [] [] []]; vm_compute; split; congruence.
Qed.

Lemma pick_double_for (c : ascii) :
  is_code_char c = true -> pick (double_for (index_of c)) = String c "".
Proof.
  intros Hc. destruct (index_of_code_char c Hc) as [Hrange Hchar].
  unfold pick. change (Z.of_nat (String.length chars)) with 36%Z.
  now rewrite (proj2 (double_for_selects _ Hrange)).
Qed.

Lemma draws_for_valid (start : nat) (s : string) (k : nat) :
  is_unit_double (draws_for start s k) = true.
Proof.
  unfold draws_for. destruct (String.get (k - start) s) as [c|].
  - destruct (start <=? k)%nat.
    + apply double_for_selects, index_of_range.
    + reflexivity.
  - reflexivity.
Qed.

Lemma picks_draws_for (env : Env) (start : nat) (prefix s : string) :
  all_code_chars s = true ->
  picks (with_random env (draws_for start (prefix +:+ s))) (start + String.length prefix)
    (String.length s)
  = s.
Proof.
  revert prefix. induction s as [|c s IH]; intros prefix Hall; [reflexivity|].
  cbn [all_code_chars] in Hall. apply andb_true_iff in Hall as [Hc Hs].
  cbn [String.length picks with_random random].
  assert (Hget : String.get (String.length prefix) (prefix +:+ String c s) = Some c).
  { clear. induction prefix as [|p prefix IHp]; [reflexivity|]. exact IHp. }
  unfold draws_for at 1.
  replace (start + String.length prefix - start)%nat with (String.length prefix) by lia.
  rewrite Hget. replace (start <=? start + String.length prefix)%nat with true
    by (symmetry; apply Nat.leb_le; lia).
  rewrite (pick_double_for c Hc). rewrite app_cons, app_empty_l. f_equal.
  specialize (IH (prefix +:+ String c "") Hs).
  rewrite app_assoc_str, app_cons, app_empty_l in IH.
  rewrite length_app_str in IH. cbn [String.length] in IH.
  replace (start + (String.length prefix + 1))%nat with (S (start + String.length prefix)) in IH
    by lia.
  exact IH.
Qed.

(** X19.  Every code of the pattern can be generated: for any 11
    characters of [A-Z0-9] there are draws of [Math.random()] in the unit
    interval for which generateAdCode returns "AD" followed by these
    characters; it uses eleven draws and has no other effect. *)
Theorem every_code_can_be_generated (env : Env) (w : World) (s : string) :
  String.length s = 11%nat ->
  all_code_chars s = true ->
  (forall k, is_unit_double (draws_for (random_draws w) s k) = true)
  /\ generateAdCode (with_random env (draws_for (random_draws w) s)) w
     = (Normal ("AD" +:+ s), drawn w 11).
Proof.
  intros Hlen Hall. split; [intros k; apply draws_for_valid|].
  unfold generateAdCode. rewrite generateAdCode_loop_picks. f_equal. f_equal. f_equal.
  pose proof (picks_draws_for env (random_draws w) "" s Hall) as H.
  rewrite app_empty_l, Hlen in H. cbn [String.length] in H.
  rewrite Nat.add_0_r in H. exact H.
Qed.

Lemma every_code_can_be_generated_witness :
  (forall k, is_unit_double (draws_for (random_draws Sample.empty_world) "REWARD3R247" k) = true)
  /\ generateAdCode (with_random Sample.env
                       (draws_for (random_draws Sample.empty_world) "REWARD3R247"))
       Sample.empty_world
     = (Normal ("AD" +:+ "REWARD3R247"), drawn Sample.empty_world 11).
Proof.
  apply (every_code_can_be_generated Sample.env Sample.empty_world "REWARD3R247").
  - reflexivity.
  - reflexivity.
Defined.
